(** * Concreexpo back office: the OTP-gated appointment and worker-visit flows

    A shallow embedding of the OTP layer of the Concreexpo API:
    - [src/services/sms.service.ts]: the phone normalizer ([Module Phone])
      and the MSG91 gateway client ([Module Sms]);
    - [src/utils/otp.ts] ([Module Otp]) and [verifyMSG91OTPToken] of
      [src/utils/jwt.ts], a wrapper of the jsonwebtoken library;
    - [src/controllers/appointment.controller.ts] ([Module Appointment]);
    - [src/controllers/workerVisit.controller.ts] ([Module WorkerVisit]).

    Conventions.  A JavaScript string is held as its UTF-8 bytes ([string]);
    [Js.length] counts its UTF-16 code units, as [.length] does.  Dates are
    integers, the milliseconds since the epoch ([Z]); a nullable column is an
    [option]; a Prisma table is a finite map from the row id to the row.  The
    bookkeeping columns [createdAt]/[updatedAt] and the columns no OTP handler
    touches are left out of the rows.  A handler is a state transformer over
    the [World] (database tables, SMS log, requests issued to MSG91); the
    things it cannot decide by itself (the clock and the time zone, the
    random code, the replies of MSG91, the JWT check, what the database
    accepts as a date) are read from an [Env]. *)

From Stdlib Require Import ZArith Lia Ascii String.
From stdpp Require Import base option list strings gmap pretty.

Local Open Scope Z_scope.

(** ** JavaScript string helpers *)

Module Js.

(** [/\D/] is the complement of [0-9]. *)
Definition is_digit (c : ascii) : bool :=
  bool_decide (is_Some (Ascii.is_nat c)).

Fixpoint filter (p : ascii → bool) (s : string) : string :=
  match s with
  | EmptyString => EmptyString
  | String c s' => if p c then String c (filter p s') else filter p s'
  end.

Fixpoint forallb (p : ascii → bool) (s : string) : bool :=
  match s with
  | EmptyString => true
  | String c s' => p c && forallb p s'
  end.

(** [s.replace(/\D/g, '')] *)
Definition digits (s : string) : string := filter is_digit s.

(** [s.startsWith(p)] *)
Definition startsWith (s p : string) : bool := String.prefix p s.

(** [s.substring(a, b)] for [a <= b]; [s.substring(a)] drops [a] characters. *)
Definition substring (a b : nat) (s : string) : string :=
  String.substring a (b - a) s.
Definition substring_from (a : nat) (s : string) : string :=
  String.substring a (String.length s - a) s.

(** [s.slice(-n)]: the last [n] characters. *)
Definition slice_last (n : nat) (s : string) : string :=
  substring_from (String.length s - n) s.

(** [!s] on a string: only the empty string is falsy. *)
Definition falsy (s : string) : bool := bool_decide (s = "").

(** [!x] on a nullable string. *)
Definition falsy_opt (x : option string) : bool :=
  match x with None => true | Some s => falsy s end.

(** [x || d] where [x] is a nullable string and [d] a string. *)
Definition or_str (x : option string) (d : string) : string :=
  match x with
  | Some s => if falsy s then d else s
  | None => d
  end.

(** [x || y] where both are nullable strings. *)
Definition or_opt (x y : option string) : option string :=
  if falsy_opt x then y else x.

(** The number of a byte. *)
Definition code (c : ascii) : N := N_of_ascii c.

(** [s.length]: the UTF-16 code units of the string.  A continuation byte
    (10xxxxxx) adds nothing; the first byte of a four-byte sequence stands
    for a surrogate pair, every other first byte for one unit. *)
Fixpoint length (s : string) : nat :=
  match s with
  | EmptyString => 0
  | String c s' =>
      ((if N.leb 128 (code c) && N.ltb (code c) 192 then 0
        else if N.leb 240 (code c) then 2 else 1) + length s')%nat
  end.

(** The white space and line terminators of ECMAScript, which [trim]
    removes.  In ASCII: TAB, LF, VT, FF, CR and the space ([Ascii.is_space]).
    In two bytes: U+00A0 (C2 A0).  In three bytes: U+1680 (E1 9A 80),
    U+2000 to U+200A (E2 80 80 to E2 80 8A), U+2028 and U+2029 (E2 80 A8,
    E2 80 A9), U+202F (E2 80 AF), U+205F (E2 81 9F), U+3000 (E3 80 80) and
    U+FEFF (EF BB BF). *)
Definition is_space2 (a b : ascii) : bool :=
  N.eqb (code a) 194 && N.eqb (code b) 160.

Definition is_space3 (a b c : ascii) : bool :=
  N.eqb (code a) 225 && N.eqb (code b) 154 && N.eqb (code c) 128
  || N.eqb (code a) 226 && N.eqb (code b) 128
     && (N.leb 128 (code c) && N.leb (code c) 138
         || N.eqb (code c) 168 || N.eqb (code c) 169 || N.eqb (code c) 175)
  || N.eqb (code a) 226 && N.eqb (code b) 129 && N.eqb (code c) 159
  || N.eqb (code a) 227 && N.eqb (code b) 128 && N.eqb (code c) 128
  || N.eqb (code a) 239 && N.eqb (code b) 187 && N.eqb (code c) 191.

(** Drops the white space a string begins with; [two] and [three] recognise
    the white space of two and of three bytes. *)
Fixpoint strip (two : ascii → ascii → bool) (three : ascii → ascii → ascii → bool)
    (s : string) : string :=
  match s with
  | String a s1 =>
      if Ascii.is_space a then strip two three s1
      else
        match s1 with
        | String b s2 =>
            if two a b then strip two three s2
            else
              match s2 with
              | String c s3 => if three a b c then strip two three s3 else s
              | EmptyString => s
              end
        | EmptyString => s
        end
  | EmptyString => EmptyString
  end.

Definition trim_left (s : string) : string := strip is_space2 is_space3 s.

(** The same from the end: the string is reversed, so the bytes of a
    character come last byte first. *)
Definition trim_right (s : string) : string :=
  String.rev (strip (λ b a, is_space2 a b) (λ c b a, is_space3 a b c) (String.rev s)).

(** [s.trim()] *)
Definition trim (s : string) : string := trim_right (trim_left s).

(** [s.trim() === ''] *)
Definition blank (s : string) : bool := falsy (trim s).

(** [Math.ceil(x / d)] for integers [x] and [d > 0]. *)
Definition ceil_div (x d : Z) : Z := - ((- x) / d).

End Js.

(** ** sms.service.ts, first part: the phone normalizer *)

Module Phone.

(** [normalizePhoneNumber]: the canonical form carries the country code 91. *)
Definition normalizePhoneNumber (phone : string) : option string :=
  if Js.falsy phone then None
  else
    let cleaned := Js.digits phone in
    let len := String.length cleaned in
    if Js.falsy cleaned || Nat.eqb len 0 then None
    else if Js.startsWith cleaned "91" then
      if Nat.eqb len 12 then Some cleaned
      else if Nat.ltb 12 len then Some (Js.substring 0 12 cleaned)
      else None
    else if Nat.eqb len 10 then Some ("91" +:+ cleaned)
    else if Nat.eqb len 11 && Js.startsWith cleaned "0"
      then Some ("91" +:+ Js.substring_from 1 cleaned)
    else if Nat.ltb 10 len && Nat.leb len 13 then
      if Js.startsWith cleaned "0" && Nat.eqb len 11
      then Some ("91" +:+ Js.substring_from 1 cleaned)
      else Some cleaned
    else None.

End Phone.

(** ** Data model (prisma schema) *)

Inductive Role := ADMIN | ENGINEER.

Inductive AppointmentStatus := SCHEDULED | OTP_SENT | VERIFIED | COMPLETED | CANCELLED.

Inductive VisitStatus := VISIT_PENDING | VISIT_OTP_VERIFIED | VISIT_COMPLETED.

Global Instance Role_eq_dec : EqDecision Role.
Proof. solve_decision. Defined.
Global Instance AppointmentStatus_eq_dec : EqDecision AppointmentStatus.
Proof. solve_decision. Defined.
Global Instance VisitStatus_eq_dec : EqDecision VisitStatus.
Proof. solve_decision. Defined.

Record User := {
  u_id : string;
  u_name : string;
  u_role : Role;
  u_isActive : bool;
}.

Record Client := {
  c_id : string;
  c_name : string;
  c_primaryContact : string;
  c_isActive : bool;
}.

(** An appointment row, together with the rows its foreign keys point to
    (what [include: { engineer: true, client: true }] returns; the schema's
    foreign keys guarantee they exist). *)
Record Appointment := {
  a_engineerId : string;
  a_engineer : User;
  a_client : Client;
  a_otpMobileNumber : option string;
  a_status : AppointmentStatus;
  a_otp : option string;
  a_otpExpiresAt : option Z;
  a_otpSentAt : option Z;
  a_otpAttempts : Z;
  a_verifiedAt : option Z;
  a_feedback : option string;
}.

Record WorkerVisit := {
  v_engineerId : string;
  v_engineer : User;
  v_client : Client;
  v_visitDate : Z;
  v_siteAddress : option string;
  v_otp : option string;
  v_otpExpiresAt : option Z;
  v_otpSentAt : option Z;
  v_status : VisitStatus;
  v_verifiedAt : option Z;
  v_workerCount : option Z;
  v_remarks : option string;
}.

Inductive SmsStatus := sent | failed.

Global Instance SmsStatus_eq_dec : EqDecision SmsStatus.
Proof. solve_decision. Defined.

(** A row of the append-only delivery ledger; the provider column is always
    ['msg91'] and is left out. *)
Record SMSLog := {
  l_phone : string;
  l_message : string;
  l_status : SmsStatus;
  l_providerId : option string;
  l_error : option string;
}.

(** ** The external provider (MSG91 over axios) *)

(** [response.data] of a reply. *)
Record ResponseData := {
  d_type : string;
  d_message : option string;
  d_request_id : option string;
  d_message_id : option string;
}.

(** What a rejected axios promise carries: [error.response?.data] and
    [error.message]. *)
Record AxiosError := {
  e_response_data : option ResponseData;
  e_message : string;
}.

Inductive Reply := Resolved (d : ResponseData) | Rejected (e : AxiosError).

(** The requests the code issues, by endpoint and payload. *)
Inductive HttpCall :=
| FlowTemplate (template_id sender mobiles var1 : string)
| FlowDirect (sender route message to : string)
| OtpApi (template_id mobile otp : string)
| VerifyAccessToken (authkey access_token : string).

(** Claims of a widget token ([utils/jwt.ts]). *)
Record TokenPayload := {
  t_phone : string;
  t_appointmentId : option string;
  t_visitId : option string;
  t_purpose : string;
}.

(** ** Configuration and environment *)

(** [config/env.ts] and [process.env], as far as the OTP layer reads them. *)
Record Config := {
  msg91_authKey : string;
  msg91_senderId : string;
  msg91_route : string;
  msg91_templateId : option string;
  msg91_otpTemplateId : option string;
  otp_expiryMinutes : Z;
  otp_workerVisitExpiryHours : Z;
  env_ADMIN_PHONE : option string;
}.

(** What one request reads from outside the program. *)
Record Env := {
  (** the clock, in milliseconds ([Date.now()], [new Date()]), at the first
      reading the handler makes; the readings that follow it with no [await]
      in between are taken to be the same *)
  now : Z;
  (** the clock as a handler that has read it before calling the gateway
      reads it again once the gateway calls have returned
      ([otpSentAt: new Date()] of the send and resend handlers) *)
  later : Z;
  (** the time zone of the server: [LocalTime(t)], the local time value of
      the instant [t], and [UTC(t)], the instant of a local time value
      (ECMAScript, Date objects) *)
  local_time : Z → Z;
  utc : Z → Z;
  (** whether [new Date(x)] is a date that Prisma and the database take: an
      Invalid Date and a date outside the range of the column make the
      query throw *)
  stores_date : Z → bool;
  (** the code [generateOTP()] draws *)
  fresh_otp : string;
  (** the id generated for a created row *)
  fresh_id : string;
  (** the reply of MSG91 to the n-th request issued so far *)
  provider : nat → Reply;
  (** [verifyMSG91OTPToken]: the claims of a well-formed, unexpired token
      with a valid signature, else nothing *)
  verifyMSG91OTPToken : string → option TokenPayload;
  (** [format(date, 'MMM dd, yyyy')] of date-fns *)
  format_date : Z → string;
}.

(** ** The world a handler runs in *)

Record World := {
  users : gmap string User;
  clients : gmap string Client;
  appointments : gmap string Appointment;
  workerVisits : gmap string WorkerVisit;
  settings : gmap string string;
  (** newest row first *)
  smsLogs : list SMSLog;
  (** the requests issued to MSG91, newest first *)
  http : list HttpCall;
}.

Definition M (A : Type) : Type := World → A * World.

Definition ret {A} (a : A) : M A := λ w, (a, w).
Definition bind {A B} (m : M A) (k : A → M B) : M B :=
  λ w, let r := m w in k (fst r) (snd r).

Declare Scope handler_scope.
Delimit Scope handler_scope with handler.
Notation "x <- m ;; k" := (bind m (λ x, k))
  (at level 100, m at next level, right associativity) : handler_scope.
Notation "m ;;; k" := (bind m (λ _, k))
  (at level 100, right associativity) : handler_scope.

Definition set_appointments (f : gmap string Appointment → gmap string Appointment) : M unit :=
  λ w, (tt, {| users := users w; clients := clients w;
               appointments := f (appointments w);
               workerVisits := workerVisits w; settings := settings w;
               smsLogs := smsLogs w; http := http w |}).

Definition set_workerVisits (f : gmap string WorkerVisit → gmap string WorkerVisit) : M unit :=
  λ w, (tt, {| users := users w; clients := clients w;
               appointments := appointments w;
               workerVisits := f (workerVisits w); settings := settings w;
               smsLogs := smsLogs w; http := http w |}).

(** [prisma.sMSLog.create] *)
Definition sMSLog_create (l : SMSLog) : M unit :=
  λ w, (tt, {| users := users w; clients := clients w;
               appointments := appointments w;
               workerVisits := workerVisits w; settings := settings w;
               smsLogs := l :: smsLogs w; http := http w |}).

(** ** utils/otp.ts *)

Module Otp.

(** [generateOTP]: [config.otp.length] digits, each drawn with
    [Math.random]; the draw is the code the environment supplies. *)
Definition generateOTP (env : Env) : string := fresh_otp env.

(** [d.setMinutes(d.getMinutes() + minutes)] and
    [d.setHours(d.getHours() + hours)] on a Date holding the instant [t]:
    the amount is added to the local time value of [t] (MakeTime and
    MakeDate are plain arithmetic, also past the end of the hour or day),
    and the sum is read back as a local time.  Where the offset of the zone
    is the same at both ends this is [t] plus the amount; across a change
    of the offset it is not. *)
Definition add_local (env : Env) (t ms : Z) : Z :=
  utc env (local_time env t + ms).

(** [getOTPExpiry]: [new Date()] moved on by [config.otp.expiryMinutes]
    with [setMinutes]. *)
Definition getOTPExpiry (cfg : Config) (env : Env) : Z :=
  add_local env (now env) (otp_expiryMinutes cfg * 60 * 1000).

(** [getWorkerVisitOTPExpiry]: [new Date()] moved on by
    [config.otp.workerVisitExpiryHours] with [setHours]. *)
Definition getWorkerVisitOTPExpiry (cfg : Config) (env : Env) : Z :=
  add_local env (now env) (otp_workerVisitExpiryHours cfg * 60 * 60 * 1000).

(** [isOTPExpired]: [new Date() > expiryDate], strictly: a check made
    exactly at the expiry instant finds the code still valid. *)
Definition isOTPExpired (env : Env) (expiresAt : Z) : bool :=
  bool_decide (expiresAt < now env).

End Otp.

(** ** sms.service.ts, second part: the MSG91 gateway client *)

Module Sms.
Section Gateway.
Context (cfg : Config) (env : Env).
Local Open Scope handler_scope.

(** [axios.post]: the request is recorded, the provider decides the reply. *)
Definition axios_post (c : HttpCall) : M Reply :=
  λ w, (provider env (length (http w)),
        {| users := users w; clients := clients w;
           appointments := appointments w;
           workerVisits := workerVisits w; settings := settings w;
           smsLogs := smsLogs w; http := c :: http w |}).

Definition is_success (d : ResponseData) : bool :=
  bool_decide (d_type d = "success").

(** [error.response?.data?.message || error.message || 'Unknown error'] *)
Definition error_text (e : AxiosError) : string :=
  Js.or_str
    (Some (Js.or_str (e_response_data e ≫= d_message) (e_message e)))
    "Unknown error".

Definition sendSMS (to message : string) (templateId : option string) : M bool :=
  match Phone.normalizePhoneNumber to with
  | None =>
      sMSLog_create {| l_phone := to; l_message := message; l_status := failed;
                       l_providerId := None;
                       l_error := Some "Invalid phone number format" |} ;;;
      ret false
  | Some normalizedPhone =>
      let cleanPhone := normalizedPhone in
      let template := Js.or_opt templateId (msg91_templateId cfg) in
      response <-
        (if negb (Js.falsy_opt template)
         then axios_post (FlowTemplate (Js.or_str template "") (msg91_senderId cfg)
                            cleanPhone message)
         else axios_post (FlowDirect (msg91_senderId cfg) (msg91_route cfg)
                            message cleanPhone)) ;;
      match response with
      | Resolved d =>
          sMSLog_create {| l_phone := normalizedPhone; l_message := message;
                           l_status := if is_success d then sent else failed;
                           l_providerId := Js.or_opt (d_request_id d) (d_message_id d);
                           l_error := None |} ;;;
          ret (is_success d)
      | Rejected e =>
          sMSLog_create {| l_phone := normalizedPhone; l_message := message;
                           l_status := failed; l_providerId := None;
                           l_error := Some (error_text e) |} ;;;
          ret false
      end
  end.

Definition otp_marker (otp : string) : string := "OTP: " +:+ otp.

Definition otp_fallback_message (otp : string) : string :=
  "Your OTP is: " +:+ otp +:+ ". Valid for 15 minutes. Do not share with anyone.".

Definition sendOTPViaMSG91 (phone otp : string) (templateId : option string) : M bool :=
  match Phone.normalizePhoneNumber phone with
  | None =>
      sMSLog_create {| l_phone := phone; l_message := otp_marker otp;
                       l_status := failed; l_providerId := None;
                       l_error := Some "Invalid phone number format" |} ;;;
      ret false
  | Some normalizedPhone =>
      let cleanPhone := normalizedPhone in
      let template := Js.or_opt templateId (msg91_otpTemplateId cfg) in
      if negb (Js.falsy_opt template) then
        response <- axios_post (OtpApi (Js.or_str template "") cleanPhone otp) ;;
        match response with
        | Resolved d =>
            let isSuccess := is_success d in
            sMSLog_create {| l_phone := normalizedPhone; l_message := otp_marker otp;
                             l_status := if isSuccess then sent else failed;
                             l_providerId := d_request_id d;
                             l_error := if isSuccess then None
                                        else Some (Js.or_str (d_message d) "Unknown error") |} ;;;
            ret isSuccess
        | Rejected e =>
            sMSLog_create {| l_phone := normalizedPhone; l_message := otp_marker otp;
                             l_status := failed; l_providerId := None;
                             l_error := Some (error_text e) |} ;;;
            sendSMS normalizedPhone (otp_fallback_message otp) None
        end
      else sendSMS normalizedPhone (otp_fallback_message otp) None
  end.

Definition sendVisitOTP (clientPhone otp engineerName : string) : M bool :=
  let companyName := "Concreexpo" in
  match Phone.normalizePhoneNumber clientPhone with
  | None =>
      sMSLog_create {| l_phone := clientPhone; l_message := otp_marker otp;
                       l_status := failed; l_providerId := None;
                       l_error := Some "Invalid phone number format" |} ;;;
      ret false
  | Some normalizedPhone =>
      let message :=
        "Your OTP for visit verification with " +:+ engineerName +:+ " is: " +:+ otp
        +:+ ". Valid for 15 minutes. Share this with the engineer. - " +:+ companyName in
      otpSent <- sendOTPViaMSG91 normalizedPhone otp None ;;
      if negb otpSent then
        smsSent <- sendSMS normalizedPhone message None ;;
        (if negb smsSent
         then sMSLog_create {| l_phone := normalizedPhone; l_message := otp_marker otp;
                               l_status := failed; l_providerId := None;
                               l_error := Some "Both OTP API and regular SMS failed" |}
         else ret tt) ;;;
        ret smsSent
      else ret otpSent
  end.

Definition sendWorkerCountOTPToClient (clientPhone otp siteName date : string) : M bool :=
  let companyName := "Concreexpo" in
  let message :=
    "Worker count verification for " +:+ siteName +:+ " on " +:+ date
    +:+ ". Your OTP is: " +:+ otp +:+ ". Valid for 24 hours. - " +:+ companyName in
  otpSent <- sendOTPViaMSG91 clientPhone otp None ;;
  if negb otpSent then sendSMS clientPhone message None
  else ret otpSent.

Definition sendWorkerCountOTPToAdmin
    (adminPhone otp engineerName clientName date : string) : M bool :=
  let companyName := "Concreexpo" in
  let message :=
    "Worker visit created by " +:+ engineerName +:+ " for " +:+ clientName
    +:+ " on " +:+ date +:+ ". Verification OTP: " +:+ otp +:+ ". - " +:+ companyName in
  sendSMS adminPhone message None.

End Gateway.
End Sms.

(** ** HTTP responses ([res.status(c).json(body)]) *)

#[local] Unset Elimination Schemes.
Inductive Json :=
| JNull
| JBool (b : bool)
| JNum (z : Z)
| JStr (s : string)
| JDate (ms : Z)
| JObj (fields : list (string * Json)).
#[local] Set Elimination Schemes.

Record Response := { res_status : Z; res_body : Json }.

Definition json_error (code : Z) (msg : string) : Response :=
  {| res_status := code; res_body := JObj [("error", JStr msg)] |}.

Definition json_ok (body : list (string * Json)) : Response :=
  {| res_status := 200; res_body := JObj body |}.

(** The cooldown between two OTP sends: [60 * 1000] milliseconds. *)
Definition cooldownPeriod : Z := 60 * 1000.

(** The rate limit of both resend handlers: when an OTP was sent less than
    [cooldownPeriod] ago, the seconds still to wait,
    [Math.ceil((cooldownPeriod - timeSinceLastOTP) / 1000)]. *)
Definition cooldown_remaining (env : Env) (otpSentAt : option Z) : option Z :=
  match otpSentAt with
  | Some sentAt =>
      let timeSinceLastOTP := now env - sentAt in
      if bool_decide (timeSinceLastOTP < cooldownPeriod)
      then Some (Js.ceil_div (cooldownPeriod - timeSinceLastOTP) 1000)
      else None
  | None => None
  end.

(** The 429 reply of both resend handlers. *)
Definition rate_limited (remainingSeconds : Z) : Response :=
  {| res_status := 429;
     res_body := JObj
       [("error", JStr ("Please wait " +:+ pretty remainingSeconds
                        +:+ " seconds before requesting a new OTP"));
        ("retryAfter", JNum remainingSeconds)] |}.

(** The fixed code both inline verifications accept. *)
Definition test_otp : string := "000000".

(** ** appointment.controller.ts *)

Module Appointment.

(** One entry of the [data] object of [prisma.appointment.update]. *)
Inductive Field :=
| otp (v : option string)
| otpExpiresAt (v : option Z)
| otpSentAt (v : option Z)
| otpAttempts (v : Z)
| status (v : AppointmentStatus)
| verifiedAt (v : option Z)
| feedback (v : option string).

Definition assign (r : Appointment) (f : Field) : Appointment :=
  {| a_engineerId := a_engineerId r; a_engineer := a_engineer r;
     a_client := a_client r; a_otpMobileNumber := a_otpMobileNumber r;
     a_status := match f with status v => v | _ => a_status r end;
     a_otp := match f with otp v => v | _ => a_otp r end;
     a_otpExpiresAt := match f with otpExpiresAt v => v | _ => a_otpExpiresAt r end;
     a_otpSentAt := match f with otpSentAt v => v | _ => a_otpSentAt r end;
     a_otpAttempts := match f with otpAttempts v => v | _ => a_otpAttempts r end;
     a_verifiedAt := match f with verifiedAt v => v | _ => a_verifiedAt r end;
     a_feedback := match f with feedback v => v | _ => a_feedback r end |}.

Definition patch (data : list Field) (r : Appointment) : Appointment :=
  foldl assign r data.

(** [prisma.appointment.findUnique({ where: { id } })] *)
Definition findUnique (id : string) : M (option Appointment) :=
  λ w, (appointments w !! id, w).

(** [prisma.appointment.update({ where: { id }, data })] *)
Definition update (id : string) (data : list Field) : M unit :=
  set_appointments (alter (patch data) id).

(** [{ contains: needle }] of a Prisma string filter. *)
Definition contains (needle hay : string) : bool :=
  bool_decide (is_Some (String.index 0 needle hay)).

(** [prisma.sMSLog.findMany] of [resendOTP]: the newest failed row whose
    phone contains the given digits. *)
Definition recent_failed_log (digits : string) : M (option SMSLog) :=
  λ w, (List.find (λ l, contains digits (l_phone l)
                        && bool_decide (l_status l = failed)) (smsLogs w), w).

Section Handlers.
Context (cfg : Config) (env : Env).
Local Open Scope handler_scope.

(** [appointment.otpMobileNumber || appointment.client.primaryContact] *)
Definition recipient (appointment : Appointment) : string :=
  Js.or_str (a_otpMobileNumber appointment) (c_primaryContact (a_client appointment)).

(** The [data] both send handlers write once the code was delivered; the
    expiry was computed before the gateway call, [otpSentAt] is read from
    the clock after it. *)
Definition issue (otp_ : string) (otpExpiry : Z) : list Field :=
  [otp (Some otp_); otpExpiresAt (Some otpExpiry); otpSentAt (Some (later env));
   otpAttempts 0; status OTP_SENT].

(** The reply of [sendOTP] when the gateway could not deliver. *)
Definition send_failed (recipientPhone : string) : Response :=
  {| res_status := 500;
     res_body := JObj
       [("error", JStr "Failed to send OTP. Please check the phone number and SMS configuration.");
        ("sentTo", JStr recipientPhone)] |}.

Definition sendOTP (id : string) (userId : option string) : M Response :=
  found <- findUnique id ;;
  match found with
  | None => ret (json_error 404 "Appointment not found")
  | Some appointment =>
    if bool_decide (Some (a_engineerId appointment) ≠ userId)
    then ret (json_error 403 "Access denied")
    else if bool_decide (a_status appointment = COMPLETED)
    then ret (json_error 400 "Appointment already completed")
    else
      let otp_ := Otp.generateOTP env in
      let otpExpiry := Otp.getOTPExpiry cfg env in
      let recipientPhone := recipient appointment in
      if Js.falsy recipientPhone || Js.blank recipientPhone
      then ret (json_error 400 "Client phone number is missing")
      else
        otpSent <- Sms.sendVisitOTP cfg env recipientPhone otp_
                     (u_name (a_engineer appointment)) ;;
        if negb otpSent then ret (send_failed recipientPhone)
        else
          update id (issue otp_ otpExpiry) ;;;
          ret (json_ok [("message", JStr "OTP sent successfully");
                        ("sentTo", JStr recipientPhone);
                        ("expiresAt", JDate otpExpiry)])
  end.

Definition resendOTP (id : string) (userId : option string) : M Response :=
  found <- findUnique id ;;
  match found with
  | None => ret (json_error 404 "Appointment not found")
  | Some appointment =>
    if bool_decide (Some (a_engineerId appointment) ≠ userId)
    then ret (json_error 403 "Access denied")
    else if bool_decide (a_status appointment = COMPLETED)
    then ret (json_error 400 "Appointment already completed")
    else
      match cooldown_remaining env (a_otpSentAt appointment) with
      | Some remainingSeconds => ret (rate_limited remainingSeconds)
      | None =>
        let otp_ := Otp.generateOTP env in
        let otpExpiry := Otp.getOTPExpiry cfg env in
        let recipientPhone := recipient appointment in
        if Js.falsy recipientPhone || Js.blank recipientPhone
        then ret (json_error 400 "Client phone number is missing")
        else
          otpSent <- Sms.sendVisitOTP cfg env recipientPhone otp_
                       (u_name (a_engineer appointment)) ;;
          if negb otpSent then
            recentLog <- recent_failed_log (Js.slice_last 10 (Js.digits recipientPhone)) ;;
            let errorDetails :=
              match recentLog with
              | Some l => Js.or_str (l_error l) "SMS service unavailable"
              | None => "SMS service unavailable"
              end in
            ret {| res_status := 500;
                   res_body := JObj
                     [("error", JStr "Failed to resend OTP. Please check the phone number and SMS configuration.");
                      ("details", JStr errorDetails);
                      ("sentTo", JStr recipientPhone);
                      ("suggestion", JStr "Please verify MSG91 configuration and phone number format.")] |}
          else
            update id (issue otp_ otpExpiry) ;;;
            ret (json_ok [("message", JStr "OTP resent successfully");
                          ("sentTo", JStr recipientPhone);
                          ("expiresAt", JDate otpExpiry)])
      end
  end.

(** The replies of [verifyOTP]; in the words of the error taxonomy:
    OTPExpiredError, OTPAttemptsExceededError, OTPMismatchError. *)
Definition otp_expired : Response :=
  json_error 400 "OTP has expired. Please request a new one.".

Definition attempts_exceeded : Response :=
  json_error 400 "Maximum OTP attempts exceeded. Please request a new OTP.".

Definition invalid_otp (attemptsRemaining : Z) : Response :=
  {| res_status := 400;
     res_body := JObj [("error", JStr "Invalid OTP");
                       ("attemptsRemaining", JNum attemptsRemaining)] |}.

Definition otp_verified : Response :=
  json_ok [("message", JStr "OTP verified successfully")].

(** A submitted code that [verifyOTP] turns down: it is there, and it is
    neither the stored code nor the test code. *)
Definition wrong_code (stored submitted : string) : Prop :=
  submitted ≠ "" ∧ submitted ≠ stored ∧ submitted ≠ test_otp.

(** The reply when MSG91 does not confirm a widget token, and the reply of
    the [catch] block when the request itself fails. *)
Definition widget_rejected (message : option string) : Response :=
  {| res_status := 400;
     res_body := JObj [("error", JStr "OTP verification failed");
                       ("details", JStr (Js.or_str message "Invalid OTP"))] |}.

Definition widget_caught (failure : string) (e : AxiosError) : Response :=
  match e_response_data e with
  | Some d => widget_rejected (d_message d)
  | None => json_error 500 failure
  end.

Definition verifyOTPWithWidget
    (id : string) (accessToken : option string) (userId : option string) : M Response :=
  if Js.falsy_opt accessToken
  then ret (json_error 400 "Access token is required")
  else
    let token := Js.or_str accessToken "" in
    match verifyMSG91OTPToken env token with
    | None => ret (json_error 400 "Invalid or expired access token")
    | Some tokenPayload =>
      if bool_decide (t_appointmentId tokenPayload ≠ Some id)
      then ret (json_error 400 "Invalid or expired access token")
      else
        verifyResponse <- Sms.axios_post env (VerifyAccessToken (msg91_authKey cfg) token) ;;
        match verifyResponse with
        | Rejected e => ret (widget_caught "Failed to verify OTP" e)
        | Resolved d =>
          if bool_decide (d_type d ≠ "success")
          then ret (widget_rejected (d_message d))
          else
            found <- findUnique id ;;
            match found with
            | None => ret (json_error 404 "Appointment not found")
            | Some appointment =>
              if bool_decide (Some (a_engineerId appointment) ≠ userId)
              then ret (json_error 403 "Access denied")
              else
                update id [status VERIFIED; verifiedAt (Some (now env)); otpAttempts 0] ;;;
                ret otp_verified
            end
        end
    end.


Definition verifyOTP
    (id : string) (otp_ : option string) (userId : option string) : M Response :=
  if Js.falsy_opt otp_
  then ret (json_error 400 "OTP is required")
  else
    found <- findUnique id ;;
    match found with
    | None => ret (json_error 404 "Appointment not found")
    | Some appointment =>
      if bool_decide (Some (a_engineerId appointment) ≠ userId)
      then ret (json_error 403 "Access denied")
      else
        match a_otpExpiresAt appointment with
        | Some expiresAt =>
          if Js.falsy_opt (a_otp appointment)
          then ret (json_error 400 "OTP not sent yet")
          else if Otp.isOTPExpired env expiresAt
          then ret otp_expired
          else if bool_decide (3 ≤ a_otpAttempts appointment)
          then ret attempts_exceeded
          else if bool_decide (a_otp appointment ≠ otp_)
                  && bool_decide (otp_ ≠ Some test_otp)
          then
            update id [otpAttempts (a_otpAttempts appointment + 1)] ;;;
            ret (invalid_otp (2 - a_otpAttempts appointment))
          else
            update id [status VERIFIED; verifiedAt (Some (now env));
                       otpAttempts (a_otpAttempts appointment + 1)] ;;;
            ret otp_verified
        | None => ret (json_error 400 "OTP not sent yet")
        end
    end.

Definition submitFeedback
    (id : string) (feedback_ : option string) (userId : option string) : M Response :=
  if Js.falsy_opt feedback_
     || bool_decide (Js.length (Js.trim (Js.or_str feedback_ "")) < 10)%nat
  then ret (json_error 400 "Feedback must be at least 10 characters")
  else
    found <- findUnique id ;;
    match found with
    | None => ret (json_error 404 "Appointment not found")
    | Some appointment =>
      if bool_decide (Some (a_engineerId appointment) ≠ userId)
      then ret (json_error 403 "Access denied")
      else if bool_decide (a_status appointment ≠ VERIFIED)
      then ret (json_error 400 "Appointment must be verified first")
      else
        update id [feedback (Some (Js.trim (Js.or_str feedback_ ""))); status COMPLETED] ;;;
        ret (json_ok [("message", JStr "Feedback submitted successfully")])
    end.

(** Admin only. *)
Definition cancelAppointment (id : string) : M Response :=
  found <- findUnique id ;;
  match found with
  | None => ret (json_error 404 "Appointment not found")
  | Some appointment =>
    if bool_decide (a_status appointment = COMPLETED)
    then ret (json_error 400 "Cannot cancel completed appointment")
    else
      update id [status CANCELLED] ;;;
      ret (json_ok [("message", JStr "Appointment cancelled successfully")])
  end.

End Handlers.

(** The operations of the owning engineer on an appointment. *)
Inductive Op :=
| Send
| Resend
| Verify (otp_ : option string)
| WidgetVerify (accessToken : option string)
| Feedback (feedback_ : option string).

Definition run (cfg : Config) (env : Env)
    (op : Op) (id : string) (userId : option string) : M Response :=
  match op with
  | Send => sendOTP cfg env id userId
  | Resend => resendOTP cfg env id userId
  | Verify otp_ => verifyOTP env id otp_ userId
  | WidgetVerify accessToken => verifyOTPWithWidget cfg env id accessToken userId
  | Feedback feedback_ => submitFeedback id feedback_ userId
  end.

(** The order of the lifecycle SCHEDULED, OTP_SENT, VERIFIED, COMPLETED. *)
Definition rank (s : AppointmentStatus) : Z :=
  match s with
  | SCHEDULED => 0 | OTP_SENT => 1 | VERIFIED => 2 | COMPLETED => 3 | CANCELLED => 4
  end.

Definition terminal (s : AppointmentStatus) : bool :=
  match s with COMPLETED | CANCELLED => true | _ => false end.

(** The row of an appointment after a handler ran. *)
Definition row_after (id : string) (out : Response * World) : option Appointment :=
  appointments out.2 !! id.

End Appointment.

(** ** workerVisit.controller.ts *)

Module WorkerVisit.

(** One entry of the [data] object of [prisma.workerVisit.update]. *)
Inductive Field :=
| otp (v : option string)
| otpExpiresAt (v : option Z)
| otpSentAt (v : option Z)
| status (v : VisitStatus)
| verifiedAt (v : option Z)
| workerCount (v : option Z)
| remarks (v : option string).

Definition assign (r : WorkerVisit) (f : Field) : WorkerVisit :=
  {| v_engineerId := v_engineerId r; v_engineer := v_engineer r;
     v_client := v_client r; v_visitDate := v_visitDate r;
     v_siteAddress := v_siteAddress r;
     v_otp := match f with otp v => v | _ => v_otp r end;
     v_otpExpiresAt := match f with otpExpiresAt v => v | _ => v_otpExpiresAt r end;
     v_otpSentAt := match f with otpSentAt v => v | _ => v_otpSentAt r end;
     v_status := match f with status v => v | _ => v_status r end;
     v_verifiedAt := match f with verifiedAt v => v | _ => v_verifiedAt r end;
     v_workerCount := match f with workerCount v => v | _ => v_workerCount r end;
     v_remarks := match f with remarks v => v | _ => v_remarks r end |}.

Definition patch (data : list Field) (r : WorkerVisit) : WorkerVisit :=
  foldl assign r data.

(** [prisma.workerVisit.findUnique({ where: { id } })] *)
Definition findUnique (id : string) : M (option WorkerVisit) :=
  λ w, (workerVisits w !! id, w).

(** [prisma.workerVisit.update({ where: { id }, data })] *)
Definition update (id : string) (data : list Field) : M unit :=
  set_workerVisits (alter (patch data) id).

(** [prisma.workerVisit.create({ data })]: the id is generated (the column
    [id] is the primary key and has no default in the table).  The query
    throws, and nothing is stored, when the visit date is not one the
    database takes or the id is in use. *)
Definition create (env : Env) (row : WorkerVisit) : M (option WorkerVisit) :=
  λ w, if negb (stores_date env (v_visitDate row))
          || bool_decide (is_Some (workerVisits w !! fresh_id env))
       then (None, w)
       else (Some row, snd (set_workerVisits (insert (fresh_id env) row) w)).

(** [prisma.client.findFirst({ where: { id, isActive: true } })] *)
Definition client_findFirst (id : string) : M (option Client) :=
  λ w, (match clients w !! id with
        | Some c => if c_isActive c then Some c else None
        | None => None
        end, w).

(** [prisma.user.findFirst({ where: { id, role: 'ENGINEER', isActive: true } })] *)
Definition engineer_findFirst (id : string) : M (option User) :=
  λ w, (match users w !! id with
        | Some u => if bool_decide (u_role u = ENGINEER) && u_isActive u
                    then Some u else None
        | None => None
        end, w).

(** [adminPhoneSetting?.value || process.env.ADMIN_PHONE || ''] *)
Definition admin_phone (cfg : Config) : M string :=
  λ w, (Js.or_str (Js.or_opt (settings w !! "admin_phone") (env_ADMIN_PHONE cfg)) "", w).

Definition visit_json (id : string) (visit : WorkerVisit) : Json :=
  let opt {A} (f : A → Json) (x : option A) := from_option f JNull x in
  JObj [("id", JStr id);
        ("engineerId", JStr (v_engineerId visit));
        ("clientId", JStr (c_id (v_client visit)));
        ("visitDate", JDate (v_visitDate visit));
        ("siteAddress", opt JStr (v_siteAddress visit));
        ("otp", opt JStr (v_otp visit));
        ("otpExpiresAt", opt JDate (v_otpExpiresAt visit));
        ("otpSentAt", opt JDate (v_otpSentAt visit));
        ("status", JStr match v_status visit with
                        | VISIT_PENDING => "PENDING"
                        | VISIT_OTP_VERIFIED => "OTP_VERIFIED"
                        | VISIT_COMPLETED => "COMPLETED"
                        end);
        ("verifiedAt", opt JDate (v_verifiedAt visit));
        ("workerCount", opt JNum (v_workerCount visit));
        ("remarks", opt JStr (v_remarks visit));
        ("client", JObj [("name", JStr (c_name (v_client visit)))]);
        ("engineer", JObj [("name", JStr (u_name (v_engineer visit)))])].

(** [otpSentTo] / [sentTo] of the replies. *)
Definition sent_to (clientPhone adminPhone : string) : Json :=
  JObj [("client", JStr clientPhone);
        ("admin", JStr (Js.or_str (Some adminPhone) "Not configured"))].

(** [!visitDate] for a date given as a number of milliseconds: missing
    or zero. *)
Definition no_date (visitDate : option Z) : bool :=
  match visitDate with None => true | Some d => bool_decide (d = 0) end.

(** The largest and the smallest value of a 32-bit [INTEGER] column. *)
Definition int4 (n : Z) : bool :=
  bool_decide (-2147483648 ≤ n ≤ 2147483647).

Section Handlers.
Context (cfg : Config) (env : Env).
Local Open Scope handler_scope.

(** [createVisit].  The body gives the visit date as a number, the
    milliseconds of the instant, so that [new Date(visitDate)] is that
    instant; [create] throws when the database does not take it, and the
    [catch] block answers 500. *)
Definition createVisit
    (clientId engineerId : option string) (visitDate : option Z)
    (siteAddress : option string)
    (userId : option string) (userRole : option Role) : M Response :=
  if Js.falsy_opt clientId || no_date visitDate
  then ret (json_error 400 "Client and visit date are required")
  else
    let targetEngineerId :=
      if bool_decide (userRole = Some ADMIN) && negb (Js.falsy_opt engineerId)
      then engineerId
      else userId in
    if Js.falsy_opt targetEngineerId
    then ret (json_error 400 "Engineer ID is required")
    else
      client_ <- client_findFirst (Js.or_str clientId "") ;;
      match client_ with
      | None => ret (json_error 404 "Client not found or inactive")
      | Some client =>
        engineer_ <- engineer_findFirst (Js.or_str targetEngineerId "") ;;
        match engineer_ with
        | None => ret (json_error 404 "Engineer not found or inactive")
        | Some engineer =>
          let otp_ := Otp.generateOTP env in
          let otpExpiry := Otp.getWorkerVisitOTPExpiry cfg env in
          created <- create env
            {| v_engineerId := Js.or_str targetEngineerId "";
               v_engineer := engineer; v_client := client;
               v_visitDate := default 0 visitDate;
               v_siteAddress := siteAddress;
               v_otp := Some otp_;
               v_otpExpiresAt := Some otpExpiry;
               v_otpSentAt := Some (now env);
               v_status := VISIT_PENDING;
               v_verifiedAt := None; v_workerCount := None; v_remarks := None |} ;;
          match created with
          | None => ret (json_error 500 "Failed to create visit")
          | Some visit =>
            adminPhone <- admin_phone cfg ;;
            let dateStr := format_date env (default 0 visitDate) in
            Sms.sendWorkerCountOTPToClient cfg env
              (c_primaryContact client) otp_ (c_name client) dateStr ;;;
            (if negb (Js.falsy adminPhone)
             then Sms.sendWorkerCountOTPToAdmin cfg env
                    adminPhone otp_ (u_name engineer) (c_name client) dateStr
             else ret false) ;;;
            ret {| res_status := 201;
                   res_body := JObj
                     [("visit", visit_json (fresh_id env) visit);
                      ("message", JStr "Visit created and OTP sent to client and admin");
                      ("otpSentTo", sent_to (c_primaryContact client) adminPhone);
                      ("otpExpiresAt", JDate otpExpiry)] |}
          end
        end
      end.

Definition resendOTP (id : string) (userId : option string) : M Response :=
  found <- findUnique id ;;
  match found with
  | None => ret (json_error 404 "Visit not found")
  | Some visit =>
    if bool_decide (Some (v_engineerId visit) ≠ userId)
    then ret (json_error 403 "Access denied")
    else if bool_decide (v_status visit = VISIT_COMPLETED)
    then ret (json_error 400 "Worker count already submitted for this visit")
    else
      match cooldown_remaining env (v_otpSentAt visit) with
      | Some remainingSeconds => ret (rate_limited remainingSeconds)
      | None =>
        let otp_ := Otp.generateOTP env in
        let otpExpiry := Otp.getWorkerVisitOTPExpiry cfg env in
        adminPhone <- admin_phone cfg ;;
        let dateStr := format_date env (v_visitDate visit) in
        clientOtpSent <- Sms.sendWorkerCountOTPToClient cfg env
          (c_primaryContact (v_client visit)) otp_ (c_name (v_client visit)) dateStr ;;
        adminOtpSent <-
          (if negb (Js.falsy adminPhone)
           then Sms.sendWorkerCountOTPToAdmin cfg env adminPhone otp_
                  (u_name (v_engineer visit)) (c_name (v_client visit)) dateStr
           else ret false) ;;
        if negb clientOtpSent then
          ret {| res_status := 500;
                 res_body := JObj
                   [("error", JStr "Failed to resend OTP. Please check the phone number and SMS configuration.");
                    ("sentTo", sent_to (c_primaryContact (v_client visit)) adminPhone)] |}
        else
          update id [otp (Some otp_); otpExpiresAt (Some otpExpiry);
                     otpSentAt (Some (later env)); status VISIT_PENDING] ;;;
          ret (json_ok
                 [("message", JStr "OTP resent successfully");
                  ("sentTo", sent_to (c_primaryContact (v_client visit)) adminPhone);
                  ("clientOtpSent", JBool clientOtpSent);
                  ("adminOtpSent", if negb (Js.falsy adminPhone)
                                   then JBool adminOtpSent else JNull);
                  ("expiresAt", JDate otpExpiry)])
      end
  end.

(** [!workerCount]: missing or zero. *)
Definition no_count (workerCount_ : option Z) : bool :=
  match workerCount_ with None => true | Some n => bool_decide (n = 0) end.

(** [remarks] of the request body: Prisma skips a field that is
    [undefined]. *)
Definition remarks_data (remarks_ : option string) : list Field :=
  match remarks_ with Some r => [remarks (Some r)] | None => [] end.

(** The update both verification paths end with:
    [workerCount: Number(workerCount), remarks, status: 'OTP_VERIFIED',
    verifiedAt: new Date()].  The column [workerCount] is a 32-bit
    [INTEGER]: for a count that does not fit the query throws, nothing is
    stored, and the [catch] block of either handler answers 500. *)
Definition verified (id : string) (workerCount_ : option Z) (remarks_ : option string)
    : M Response :=
  if negb (int4 (default 0 workerCount_))
  then ret (json_error 500 "Failed to submit worker count")
  else
    update id ([workerCount workerCount_] ++ remarks_data remarks_ ++
               [status VISIT_OTP_VERIFIED; verifiedAt (Some (now env))]) ;;;
    updatedVisit <- findUnique id ;;
    ret (json_ok [("message", JStr "Worker count submitted successfully");
                  ("visit", from_option (visit_json id) JNull updatedVisit)]).

Definition submitWorkerCountWithWidget
    (id : string) (accessToken : option string) (workerCount_ : option Z)
    (remarks_ : option string) (userId : option string) : M Response :=
  if Js.falsy_opt accessToken || no_count workerCount_
  then ret (json_error 400 "Access token and worker count are required")
  else if bool_decide (default 0 workerCount_ ≤ 0)
  then ret (json_error 400 "Worker count must be positive")
  else
    let token := Js.or_str accessToken "" in
    match verifyMSG91OTPToken env token with
    | None => ret (json_error 400 "Invalid or expired access token")
    | Some tokenPayload =>
      if bool_decide (t_visitId tokenPayload ≠ Some id)
      then ret (json_error 400 "Invalid or expired access token")
      else
        verifyResponse <- Sms.axios_post env (VerifyAccessToken (msg91_authKey cfg) token) ;;
        match verifyResponse with
        | Rejected e =>
            ret (Appointment.widget_caught "Failed to submit worker count" e)
        | Resolved d =>
          if bool_decide (d_type d ≠ "success")
          then ret (Appointment.widget_rejected (d_message d))
          else
            found <- findUnique id ;;
            match found with
            | None => ret (json_error 404 "Visit not found")
            | Some visit =>
              if bool_decide (Some (v_engineerId visit) ≠ userId)
              then ret (json_error 403 "Access denied")
              else if bool_decide (v_status visit = VISIT_COMPLETED)
              then ret (json_error 400 "Worker count already submitted for this visit")
              else verified id workerCount_ remarks_
            end
        end
    end.

Definition submitWorkerCount
    (id : string) (otp_ : option string) (workerCount_ : option Z)
    (remarks_ : option string) (userId : option string) : M Response :=
  if Js.falsy_opt otp_ || no_count workerCount_
  then ret (json_error 400 "OTP and worker count are required")
  else if bool_decide (default 0 workerCount_ ≤ 0)
  then ret (json_error 400 "Worker count must be positive")
  else
    found <- findUnique id ;;
    match found with
    | None => ret (json_error 404 "Visit not found")
    | Some visit =>
      if bool_decide (Some (v_engineerId visit) ≠ userId)
      then ret (json_error 403 "Access denied")
      else if bool_decide (v_status visit = VISIT_COMPLETED)
      then ret (json_error 400 "Worker count already submitted for this visit")
      else if from_option (Otp.isOTPExpired env) true (v_otpExpiresAt visit)
      then ret (json_error 400 "OTP has expired. Please create a new visit.")
      else if bool_decide (v_otp visit ≠ otp_) && bool_decide (otp_ ≠ Some test_otp)
      then ret (json_error 400 "Invalid OTP")
      else verified id workerCount_ remarks_
    end.

(** The two deliveries of [resendOTP] for the visit [v], in the order
    they are made: to the client, then to the admin phone if there is one. *)
Definition resend_to_client (w : World) (v : WorkerVisit) : bool * World :=
  Sms.sendWorkerCountOTPToClient cfg env (c_primaryContact (v_client v))
    (fresh_otp env) (c_name (v_client v)) (format_date env (v_visitDate v)) w.

Definition resend_to_admin (w : World) (v : WorkerVisit) : bool * World :=
  let adminPhone := (admin_phone cfg w).1 in
  if negb (Js.falsy adminPhone)
  then Sms.sendWorkerCountOTPToAdmin cfg env adminPhone (fresh_otp env)
         (u_name (v_engineer v)) (c_name (v_client v))
         (format_date env (v_visitDate v)) (resend_to_client w v).2
  else (false, (resend_to_client w v).2).

End Handlers.
End WorkerVisit.

(** ** Further definitions: the shape of a normalized phone number *)

Module Canonical.

(** The strings [normalizePhoneNumber] can return: digits only, and either
    the prefix 91 with twelve digits in all, or eleven to thirteen digits
    without the prefix (eleven not beginning with 0). *)
Definition canonical (s : string) : bool :=
  let len := String.length s in
  Js.forallb Js.is_digit s
  && (if Js.startsWith s "91" then Nat.eqb len 12
      else Nat.leb 11 len && Nat.leb len 13
           && negb (Nat.eqb len 11 && Js.startsWith s "0")).

(** The phone a request to MSG91 is addressed to. *)
Definition mobile_of (c : HttpCall) : option string :=
  match c with
  | FlowTemplate _ _ mobiles _ => Some mobiles
  | FlowDirect _ _ _ to => Some to
  | OtpApi _ mobile _ => Some mobile
  | VerifyAccessToken _ _ => None
  end.

End Canonical.

(** The database tables of two worlds agree. *)
Definition same_tables (w w' : World) : Prop :=
  users w' = users w ∧ clients w' = clients w
  ∧ appointments w' = appointments w ∧ workerVisits w' = workerVisits w
  ∧ settings w' = settings w.

(** ** Further definitions: worker visits *)



(** ** Further definitions: what a delivery leaves behind *)

Module Ledger.

Definition is_failed (l : SMSLog) : Prop := l_status l = failed.

(** A request addressed to a phone number in canonical form. *)
Definition to_canonical (c : HttpCall) : Prop :=
  ∃ p, Canonical.mobile_of c = Some p ∧ Canonical.canonical p = true.

(** The footprint of a gateway call that started in [w] and ended as
    [out]: the tables are as before; [rows] were put on top of the SMS log
    and [calls] on top of the request record (newest first); after a
    success the newest row is [sent] and the rows under it failed, after a
    failure there is at least one row and every row failed; every request
    went to a canonical number. *)
Definition footprint (w : World) (out : bool * World)
    (rows : list SMSLog) (calls : list HttpCall) : Prop :=
  same_tables w out.2
  ∧ smsLogs out.2 = rows ++ smsLogs w
  ∧ http out.2 = calls ++ http w
  ∧ (if out.1
     then ∃ r rest, rows = r :: rest ∧ l_status r = sent ∧ Forall is_failed rest
     else rows ≠ [] ∧ Forall is_failed rows)
  ∧ Forall to_canonical calls.

(** [w1] is [w] with rows added on top of the SMS log and requests on top
    of the request record, the tables being the same. *)
Definition grows (w w1 : World) : Prop :=
  same_tables w w1
  ∧ (∃ rows, smsLogs w1 = rows ++ smsLogs w)
  ∧ (∃ calls, http w1 = calls ++ http w).

(** The world after an appointment handler that started in [w]: the
    gateway may have added to the log and to the requests, and at most one
    update of the row [id] was made. *)
Definition touched (w : World) (id : string) (out : Response * World) : Prop :=
  ∃ w1, grows w w1
    ∧ (out.2 = w1 ∨ ∃ data, out.2 = (Appointment.update id data w1).2).

End Ledger.

(** ** Further definitions: the operations on a worker visit *)

Module Visits.

(** The operations of the worker-visit controller on a stored visit. *)
Inductive Op :=
| Resend
| Submit (otp_ : option string) (workerCount_ : option Z) (remarks_ : option string)
| WidgetSubmit (accessToken : option string) (workerCount_ : option Z)
               (remarks_ : option string).

Definition run (cfg : Config) (env : Env)
    (op : Op) (id : string) (userId : option string) : M Response :=
  match op with
  | Resend => WorkerVisit.resendOTP cfg env id userId
  | Submit otp_ workerCount_ remarks_ =>
      WorkerVisit.submitWorkerCount env id otp_ workerCount_ remarks_ userId
  | WidgetSubmit accessToken workerCount_ remarks_ =>
      WorkerVisit.submitWorkerCountWithWidget cfg env id accessToken workerCount_
        remarks_ userId
  end.

(** The data of an update never sets the status COMPLETED. *)
Definition never_completes (data : list WorkerVisit.Field) : Prop :=
  Forall (λ f, f ≠ WorkerVisit.status VISIT_COMPLETED) data.

(** The world after a handler on the visit [id] that started in [w]: the
    gateway may have added to the log and to the requests, and at most one
    update of the row [id] was made, for its own engineer, while the visit
    was not COMPLETED. *)
Definition touched (w : World) (id : string) (userId : option string)
    (out : Response * World) : Prop :=
  ∃ w1, Ledger.grows w w1
    ∧ (out.2 = w1
       ∨ ∃ v data, workerVisits w !! id = Some v
           ∧ Some (v_engineerId v) = userId
           ∧ v_status v ≠ VISIT_COMPLETED
           ∧ never_completes data
           ∧ out.2 = (WorkerVisit.update id data w1).2).

End Visits.

(** ** Sample data *)

Module Fixture.

Definition cfg : Config :=
  {| msg91_authKey := "auth-key"; msg91_senderId := "CNCEXP"; msg91_route := "4";
     msg91_templateId := None; msg91_otpTemplateId := Some "otp-template";
     otp_expiryMinutes := 15; otp_workerVisitExpiryHours := 24;
     env_ADMIN_PHONE := Some "9000000001" |}.

Definition accepted : Reply :=
  Resolved {| d_type := "success"; d_message := None;
              d_request_id := Some "req-1"; d_message_id := None |}.

Definition unreachable : Reply :=
  Rejected {| e_response_data := None; e_message := "connect ETIMEDOUT" |}.

Definition refused : Reply :=
  Resolved {| d_type := "error"; d_message := Some "Invalid mobile number";
              d_request_id := None; d_message_id := None |}.

Definition claims (tok : string) : option TokenPayload :=
  if bool_decide (tok = "token-apt-1") then
    Some {| t_phone := "918154831233"; t_appointmentId := Some "apt-1";
            t_visitId := None; t_purpose := "appointment" |}
  else if bool_decide (tok = "token-visit-1") then
    Some {| t_phone := "918154831233"; t_appointmentId := None;
            t_visitId := Some "visit-1"; t_purpose := "worker_visit" |}
  else None.

(** The environment of a request made at time [t], to which MSG91 gives
    the same reply whatever it is asked. *)
Definition env (t : Z) (reply : Reply) : Env :=
  {| now := t; later := t + 350;
     local_time := λ i, i + 19800000; utc := λ l, l - 19800000;
     stores_date := λ d, bool_decide (0 < d < 4102444800000);
     fresh_otp := "482913"; fresh_id := "visit-2";
     provider := λ _, reply; verifyMSG91OTPToken := claims;
     format_date := λ _, "Nov 02, 2026" |}.

(** The same request on a server whose zone puts the clock back by one
    hour at the instant [change] (the end of daylight saving time): local
    time is two hours ahead of UTC before it and one hour ahead from then
    on, and a local time that occurs twice is read as the earlier instant. *)
Definition env_clock_back (change t : Z) (reply : Reply) : Env :=
  {| now := t; later := t + 350;
     local_time := λ i, if bool_decide (i < change) then i + 7200000 else i + 3600000;
     utc := λ l, if bool_decide (l < change + 7200000) then l - 7200000 else l - 3600000;
     stores_date := λ d, bool_decide (0 < d < 4102444800000);
     fresh_otp := "482913"; fresh_id := "visit-2";
     provider := λ _, reply; verifyMSG91OTPToken := claims;
     format_date := λ _, "Nov 02, 2026" |}.

Definition engineer : User :=
  {| u_id := "eng-1"; u_name := "Asha"; u_role := ENGINEER; u_isActive := true |}.

Definition client : Client :=
  {| c_id := "cli-1"; c_name := "Green Park"; c_primaryContact := "8154831233";
     c_isActive := true |}.

(** An appointment whose code 123456 was sent at 1 000 000 ms and expires
    fifteen minutes later. *)
Definition appointment (st : AppointmentStatus) (attempts : Z) : Appointment :=
  {| a_engineerId := "eng-1"; a_engineer := engineer; a_client := client;
     a_otpMobileNumber := None; a_status := st;
     a_otp := Some "123456"; a_otpExpiresAt := Some 1900000;
     a_otpSentAt := Some 1000000; a_otpAttempts := attempts;
     a_verifiedAt := None; a_feedback := None |}.

(** A verified worker visit with a recorded count of twelve workers. *)
Definition visit (st : VisitStatus) : WorkerVisit :=
  {| v_engineerId := "eng-1"; v_engineer := engineer; v_client := client;
     v_visitDate := 500000; v_siteAddress := None;
     v_otp := Some "654321"; v_otpExpiresAt := Some 87400000;
     v_otpSentAt := Some 1000000; v_status := st;
     v_verifiedAt := Some 1200000; v_workerCount := Some 12; v_remarks := None |}.

Definition world (a : Appointment) (v : WorkerVisit) : World :=
  {| users := {[ "eng-1" := engineer ]}; clients := {[ "cli-1" := client ]};
     appointments := {[ "apt-1" := a ]}; workerVisits := {[ "visit-1" := v ]};
     settings := ∅; smsLogs := []; http := [] |}.

End Fixture.

(** * Properties *)

(** ** Strings *)

Lemma length_append (s t : string) :
  String.length (s +:+ t) = (String.length s + String.length t)%nat.
Proof. induction s as [|c s IH]; simpl; [done | by rewrite IH]. Qed.

Lemma forallb_filter (p : ascii → bool) (s : string) :
  Js.forallb p (Js.filter p s) = true.
Proof.
  induction s as [|c s IH]; simpl; [done |].
  destruct (p c) eqn:Hc; simpl; [by rewrite Hc | done].
Qed.

(** ** The phone normalizer *)

Section Normalizer.
Variable phone : string.
Let cleaned := Js.digits phone.
Hypothesis ten : String.length cleaned = 10%nat.

Lemma ten_digits_not_falsy : Js.falsy phone = false ∧ Js.falsy cleaned = false.
Proof using ten.
  unfold Js.falsy. split; apply bool_decide_eq_false; intros E.
  - subst cleaned. by rewrite E in ten.
  - by rewrite E in ten.
Qed.

Lemma normalize_ten_digits_cases :
  Phone.normalizePhoneNumber phone =
    if Js.startsWith cleaned "91" then None else Some ("91" +:+ cleaned).
Proof using ten.
  destruct ten_digits_not_falsy as [Hp Hc].
  unfold Phone.normalizePhoneNumber. fold cleaned.
  rewrite Hp, Hc, ten. simpl. by destruct (Js.startsWith cleaned "91").
Qed.

(** C7, as amended: ten digits that do not begin with 91 get the prefix 91
    and become twelve digits; ten digits that begin with 91 are refused. *)
Theorem normalize_ten_digits :
  (Js.startsWith cleaned "91" = false →
     Phone.normalizePhoneNumber phone = Some ("91" +:+ cleaned)
     ∧ String.length ("91" +:+ cleaned) = 12%nat
     ∧ Js.forallb Js.is_digit ("91" +:+ cleaned) = true)
  ∧ (Js.startsWith cleaned "91" = true →
     Phone.normalizePhoneNumber phone = None).
Proof using ten.
  rewrite normalize_ten_digits_cases. split; intros ->; [|done].
  split; [done|]. split.
  - by rewrite length_append, ten.
  - change (Js.forallb Js.is_digit (Js.filter Js.is_digit phone) = true).
    apply forallb_filter.
Qed.

End Normalizer.

Lemma normalize_ten_digits_witness :
  Phone.normalizePhoneNumber "81548 31233" = Some "918154831233".
Proof.
  assert (H : String.length (Js.digits "81548 31233") = 10%nat) by reflexivity.
  destruct (normalize_ten_digits "81548 31233" H) as [Hok _].
  destruct (Hok eq_refl) as [E _]. exact E.
Defined.

(** C7, as stated, fails: a ten-digit number that begins with 91 is refused. *)
Lemma normalize_ten_digits_refused :
  String.length (Js.digits "9123456789") = 10%nat
  ∧ Phone.normalizePhoneNumber "9123456789" = None.
Proof. split; reflexivity. Qed.

(** ** The gateway client touches only the SMS log and the request record *)

Lemma same_tables_refl w : same_tables w w.
Proof. by repeat split. Qed.

Lemma same_tables_trans w1 w2 w3 :
  same_tables w1 w2 → same_tables w2 w3 → same_tables w1 w3.
Proof.
  unfold same_tables. intros (?&?&?&?&?) (?&?&?&?&?).
  repeat split; congruence.
Qed.

Section GatewayFrame.
Context (cfg : Config) (env : Env).

Lemma sMSLog_create_tables l w : same_tables w (sMSLog_create l w).2.
Proof. by repeat split. Qed.

Lemma axios_post_tables c w : same_tables w (Sms.axios_post env c w).2.
Proof. by repeat split. Qed.

Lemma sendSMS_tables to message templateId w :
  same_tables w (Sms.sendSMS cfg env to message templateId w).2.
Proof.
  unfold Sms.sendSMS, bind, ret.
  destruct (Phone.normalizePhoneNumber to); [|by repeat split].
  destruct (negb _); simpl;
    destruct (provider env _) as [d|e]; by repeat split.
Qed.

Lemma sendOTPViaMSG91_tables phone otp templateId w :
  same_tables w (Sms.sendOTPViaMSG91 cfg env phone otp templateId w).2.
Proof.
  unfold Sms.sendOTPViaMSG91, bind, ret.
  destruct (Phone.normalizePhoneNumber phone); [|by repeat split].
  destruct (negb _); simpl; [|apply sendSMS_tables].
  destruct (provider env _) as [d|e]; simpl; [by repeat split|].
  eapply same_tables_trans; [|apply sendSMS_tables]. by repeat split.
Qed.

Lemma sendVisitOTP_tables clientPhone otp engineerName w :
  same_tables w (Sms.sendVisitOTP cfg env clientPhone otp engineerName w).2.
Proof.
  unfold Sms.sendVisitOTP, bind, ret.
  destruct (Phone.normalizePhoneNumber clientPhone); [|by repeat split].
  simpl.
  set (r1 := Sms.sendOTPViaMSG91 _ _ _ _ _ _).
  assert (H1 : same_tables w r1.2) by apply sendOTPViaMSG91_tables.
  destruct (negb r1.1); simpl; [|done].
  set (r2 := Sms.sendSMS _ _ _ _ _ _).
  assert (H2 : same_tables r1.2 r2.2) by apply sendSMS_tables.
  eapply same_tables_trans; [exact H1|].
  eapply same_tables_trans; [exact H2|].
  destruct (negb r2.1); by repeat split.
Qed.

Lemma sendWorkerCountOTPToClient_tables clientPhone otp siteName date w :
  same_tables w
    (Sms.sendWorkerCountOTPToClient cfg env clientPhone otp siteName date w).2.
Proof.
  unfold Sms.sendWorkerCountOTPToClient, bind, ret. simpl.
  set (r1 := Sms.sendOTPViaMSG91 _ _ _ _ _ _).
  assert (H1 : same_tables w r1.2) by apply sendOTPViaMSG91_tables.
  destruct (negb r1.1); [|done].
  eapply same_tables_trans; [exact H1|apply sendSMS_tables].
Qed.

Lemma sendWorkerCountOTPToAdmin_tables adminPhone otp engineerName clientName date w :
  same_tables w
    (Sms.sendWorkerCountOTPToAdmin cfg env adminPhone otp engineerName clientName date w).2.
Proof. apply sendSMS_tables. Qed.

End GatewayFrame.

(** ** Appointments: the inline verification *)

Section VerifyOTP.
Context (env : Env) (id engineer code : string) (expiresAt : Z)
        (w : World) (a : Appointment).
Hypothesis found : appointments w !! id = Some a.
Hypothesis owner : a_engineerId a = engineer.
Hypothesis stored : a_otp a = Some code.
Hypothesis nonempty : code ≠ "".
Hypothesis expiry : a_otpExpiresAt a = Some expiresAt.

Lemma falsy_stored : Js.falsy_opt (a_otp a) = false.
Proof using stored nonempty.
  rewrite stored. by apply bool_decide_eq_false.
Qed.

Lemma verifyOTP_expired otp_ :
  Js.falsy_opt otp_ = false → expiresAt < now env →
  Appointment.verifyOTP env id otp_ (Some engineer) w = (Appointment.otp_expired, w).
Proof using found owner stored nonempty expiry.
  intros Hotp Hlt.
  unfold Appointment.verifyOTP, bind, ret, Appointment.findUnique. simpl.
  rewrite Hotp, found, owner, expiry, falsy_stored.
  rewrite bool_decide_eq_false_2 by (intros H; by apply H).
  unfold Otp.isOTPExpired. by rewrite bool_decide_eq_true_2.
Qed.

Lemma verifyOTP_exceeded otp_ :
  Js.falsy_opt otp_ = false → now env ≤ expiresAt → 3 ≤ a_otpAttempts a →
  Appointment.verifyOTP env id otp_ (Some engineer) w
  = (Appointment.attempts_exceeded, w).
Proof using found owner stored nonempty expiry.
  intros Hotp Hle Hatt.
  unfold Appointment.verifyOTP, bind, ret, Appointment.findUnique. simpl.
  rewrite Hotp, found, owner, expiry, falsy_stored.
  rewrite bool_decide_eq_false_2 by (intros H; by apply H).
  unfold Otp.isOTPExpired. rewrite bool_decide_eq_false_2 by lia.
  by rewrite bool_decide_eq_true_2.
Qed.

Lemma verifyOTP_mismatch submitted :
  submitted ≠ "" → submitted ≠ code → submitted ≠ test_otp →
  now env ≤ expiresAt → a_otpAttempts a < 3 →
  Appointment.verifyOTP env id (Some submitted) (Some engineer) w
  = (Appointment.invalid_otp (2 - a_otpAttempts a),
     (Appointment.update id [Appointment.otpAttempts (a_otpAttempts a + 1)] w).2).
Proof using found owner stored nonempty expiry.
  intros Hne Hcode Htest Hle Hatt.
  unfold Appointment.verifyOTP, bind, ret, Appointment.findUnique. simpl.
  unfold Js.falsy. rewrite (bool_decide_eq_false_2 (submitted = "")) by done.
  rewrite found, owner, expiry, falsy_stored.
  rewrite bool_decide_eq_false_2 by (intros H; by apply H).
  unfold Otp.isOTPExpired. rewrite bool_decide_eq_false_2 by lia.
  rewrite bool_decide_eq_false_2 by lia.
  rewrite stored.
  rewrite (bool_decide_eq_true_2 (Some code ≠ Some submitted)) by congruence.
  by rewrite bool_decide_eq_true_2 by congruence.
Qed.

Lemma verifyOTP_accepts submitted :
  submitted = code ∨ submitted = test_otp →
  now env ≤ expiresAt → a_otpAttempts a < 3 →
  Appointment.verifyOTP env id (Some submitted) (Some engineer) w
  = (Appointment.otp_verified,
     (Appointment.update id
        [Appointment.status VERIFIED; Appointment.verifiedAt (Some (now env));
         Appointment.otpAttempts (a_otpAttempts a + 1)] w).2).
Proof using found owner stored nonempty expiry.
  intros Hsub Hle Hatt.
  assert (Hne : submitted ≠ "") by (destruct Hsub as [->| ->]; done).
  unfold Appointment.verifyOTP, bind, ret, Appointment.findUnique. simpl.
  unfold Js.falsy. rewrite (bool_decide_eq_false_2 (submitted = "")) by done.
  rewrite found, owner, expiry, falsy_stored.
  rewrite bool_decide_eq_false_2 by (intros H; by apply H).
  unfold Otp.isOTPExpired. rewrite bool_decide_eq_false_2 by lia.
  rewrite bool_decide_eq_false_2 by lia.
  rewrite stored.
  destruct Hsub as [->| ->].
  - by rewrite (bool_decide_eq_false_2 (Some code ≠ Some code)) by (intros H; by apply H).
  - rewrite (bool_decide_eq_false_2 (Some test_otp ≠ Some test_otp))
      by (intros H; by apply H).
    by rewrite andb_false_r.
Qed.

Lemma update_lookup data :
  appointments (Appointment.update id data w).2 !! id
  = Some (Appointment.patch data a).
Proof using found.
  unfold Appointment.update, set_appointments. simpl.
  by rewrite lookup_alter_eq, found.
Qed.

End VerifyOTP.

(** C4: with a sent, unexpired OTP and fewer than three attempts, a wrong
    code adds one to the attempt counter and reports
    [2 - previous attempts] as attempts remaining; the right code sets the
    status VERIFIED, stamps the verification time and adds one to the
    counter as well. *)
Theorem verifyOTP_counts_every_attempt
    (env : Env) (id engineer code submitted : string) (expiresAt : Z)
    (w : World) (a : Appointment) :
  appointments w !! id = Some a →
  a_engineerId a = engineer →
  a_otp a = Some code → code ≠ "" →
  a_otpExpiresAt a = Some expiresAt →
  now env ≤ expiresAt →
  a_otpAttempts a < 3 →
  submitted ≠ "" →
  let out := Appointment.verifyOTP env id (Some submitted) (Some engineer) w in
  ∃ a', appointments out.2 !! id = Some a'
    ∧ a_otpAttempts a' = a_otpAttempts a + 1
    ∧ (submitted ≠ code → submitted ≠ test_otp →
         out.1 = {| res_status := 400;
           res_body := JObj [("error", JStr "Invalid OTP");
                             ("attemptsRemaining", JNum (2 - a_otpAttempts a))] |}
         ∧ a' = Appointment.patch [Appointment.otpAttempts (a_otpAttempts a + 1)] a
         ∧ a_status a' = a_status a ∧ a_verifiedAt a' = a_verifiedAt a)
    ∧ (submitted = code →
         out.1 = {| res_status := 200;
           res_body := JObj [("message", JStr "OTP verified successfully")] |}
         ∧ a_status a' = VERIFIED ∧ a_verifiedAt a' = Some (now env)).
Proof.
  intros found owner stored nonempty expiry Hle Hatt Hne out. subst out.
  destruct (decide (submitted = code ∨ submitted = test_otp)) as [Hacc|Hrej].
  - rewrite (verifyOTP_accepts env id engineer code expiresAt w a) by done.
    cbn [fst snd]. rewrite (update_lookup id w a found).
    eexists; split; [reflexivity|]. split; [reflexivity|]. split.
    + intros ??. destruct Hacc; done.
    + by intros _.
  - assert (submitted ≠ code ∧ submitted ≠ test_otp) as [H1 H2] by tauto.
    rewrite (verifyOTP_mismatch env id engineer code expiresAt w a) by done.
    cbn [fst snd]. rewrite (update_lookup id w a found).
    eexists; split; [reflexivity|]. split; [reflexivity|]. split.
    + by intros _ _.
    + done.
Qed.

Lemma verifyOTP_counts_every_attempt_witness :
  ∃ a', appointments
          (Appointment.verifyOTP (Fixture.env 1500000 Fixture.accepted) "apt-1"
             (Some "999999") (Some "eng-1")
             (Fixture.world (Fixture.appointment OTP_SENT 1)
                            (Fixture.visit VISIT_PENDING))).2 !! "apt-1" = Some a'
        ∧ a_otpAttempts a' = 2.
Proof.
  destruct (verifyOTP_counts_every_attempt
              (Fixture.env 1500000 Fixture.accepted) "apt-1" "eng-1" "123456" "999999"
              1900000
              (Fixture.world (Fixture.appointment OTP_SENT 1) (Fixture.visit VISIT_PENDING))
              (Fixture.appointment OTP_SENT 1))
    as (a' & Hlook & Hcount & _).
  - reflexivity.
  - reflexivity.
  - reflexivity.
  - discriminate.
  - reflexivity.
  - simpl. lia.
  - simpl. lia.
  - discriminate.
  - exists a'. split; [exact Hlook | exact Hcount].
Defined.

(** One refused attempt: the reply, and the row the next call finds. *)
Lemma verifyOTP_mismatch_step
    (env : Env) (id engineer code submitted : string) (expiresAt : Z)
    (w : World) (a : Appointment) :
  appointments w !! id = Some a →
  a_engineerId a = engineer →
  a_otp a = Some code → code ≠ "" →
  a_otpExpiresAt a = Some expiresAt →
  Appointment.wrong_code code submitted →
  now env ≤ expiresAt → a_otpAttempts a < 3 →
  ∃ w' a',
    Appointment.verifyOTP env id (Some submitted) (Some engineer) w
    = (Appointment.invalid_otp (2 - a_otpAttempts a), w')
    ∧ appointments w' !! id = Some a'
    ∧ a_engineerId a' = engineer ∧ a_otp a' = Some code
    ∧ a_otpExpiresAt a' = Some expiresAt
    ∧ a_otpAttempts a' = a_otpAttempts a + 1.
Proof.
  intros found owner stored nonempty expiry (Hne & Hcode & Htest) Hle Hatt.
  eexists _, _. split.
  - by apply (verifyOTP_mismatch env id engineer code expiresAt w a).
  - rewrite (update_lookup id w a found). by repeat split.
Qed.

(** C2, as amended: the checks run in the order expiry, attempts, code; the
    attempts check refuses a call once three attempts are recorded, so with
    two recorded a wrong code is still compared and answered as a mismatch
    with no attempts remaining.  Of three wrong codes in a row, starting
    from no attempts, the third is answered as a mismatch; a fourth call,
    with the right code, is refused for exceeded attempts and changes
    nothing. *)
Theorem verifyOTP_check_order_and_limit
    (id engineer code : string) (expiresAt : Z) (w : World) (a : Appointment) :
  appointments w !! id = Some a →
  a_engineerId a = engineer →
  a_otp a = Some code → code ≠ "" →
  a_otpExpiresAt a = Some expiresAt →
  (∀ env otp_,
     Js.falsy_opt otp_ = false → expiresAt < now env →
     Appointment.verifyOTP env id otp_ (Some engineer) w
     = ({| res_status := 400;
           res_body := JObj [("error", JStr "OTP has expired. Please request a new one.")] |}, w))
  ∧ (∀ env otp_,
     Js.falsy_opt otp_ = false → now env ≤ expiresAt → 3 ≤ a_otpAttempts a →
     Appointment.verifyOTP env id otp_ (Some engineer) w
     = ({| res_status := 400;
           res_body := JObj [("error", JStr "Maximum OTP attempts exceeded. Please request a new OTP.")] |}, w))
  ∧ (∀ env submitted,
     Appointment.wrong_code code submitted →
     now env ≤ expiresAt → a_otpAttempts a = 2 →
     let out := Appointment.verifyOTP env id (Some submitted) (Some engineer) w in
     out.1 = {| res_status := 400;
           res_body := JObj [("error", JStr "Invalid OTP");
                             ("attemptsRemaining", JNum 0)] |}
     ∧ a_otpAttempts <$> appointments out.2 !! id = Some 3)
  ∧ (∀ env1 env2 env3 env4 c1 c2 c3,
     a_otpAttempts a = 0 →
     Appointment.wrong_code code c1 → Appointment.wrong_code code c2 →
     Appointment.wrong_code code c3 →
     now env1 ≤ expiresAt → now env2 ≤ expiresAt →
     now env3 ≤ expiresAt → now env4 ≤ expiresAt →
     let r1 := Appointment.verifyOTP env1 id (Some c1) (Some engineer) w in
     let r2 := Appointment.verifyOTP env2 id (Some c2) (Some engineer) r1.2 in
     let r3 := Appointment.verifyOTP env3 id (Some c3) (Some engineer) r2.2 in
     let r4 := Appointment.verifyOTP env4 id (Some code) (Some engineer) r3.2 in
     r1.1 = {| res_status := 400;
           res_body := JObj [("error", JStr "Invalid OTP");
                             ("attemptsRemaining", JNum 2)] |}
     ∧ r2.1 = {| res_status := 400;
           res_body := JObj [("error", JStr "Invalid OTP");
                             ("attemptsRemaining", JNum 1)] |}
     ∧ r3.1 = {| res_status := 400;
           res_body := JObj [("error", JStr "Invalid OTP");
                             ("attemptsRemaining", JNum 0)] |}
     ∧ a_otpAttempts <$> appointments r3.2 !! id = Some 3
     ∧ r4 = ({| res_status := 400;
           res_body := JObj [("error", JStr "Maximum OTP attempts exceeded. Please request a new OTP.")] |}, r3.2)).
Proof.
  intros found owner stored nonempty expiry.
  split; [|split; [|split]].
  - intros env otp_ ??. by apply (verifyOTP_expired env id engineer code expiresAt w a).
  - intros env otp_ ???. by apply (verifyOTP_exceeded env id engineer code expiresAt w a).
  - intros env submitted Hwrong Hle Htwo out.
    destruct (verifyOTP_mismatch_step env id engineer code submitted expiresAt w a)
      as (w' & a' & E & Hl & _ & _ & _ & Hc); [done..|lia|].
    subst out. rewrite E, Htwo. cbn [fst snd]. rewrite Hl. simpl.
    split; [done|]. f_equal. lia.
  - intros env1 env2 env3 env4 c1 c2 c3 Hzero W1 W2 W3 T1 T2 T3 T4 r1 r2 r3 r4.
    destruct (verifyOTP_mismatch_step env1 id engineer code c1 expiresAt w a)
      as (w1 & a1 & E1 & L1 & O1 & S1 & X1 & C1); [done..|lia|].
    destruct (verifyOTP_mismatch_step env2 id engineer code c2 expiresAt w1 a1)
      as (w2 & a2 & E2 & L2 & O2 & S2 & X2 & C2); [done..|lia|].
    destruct (verifyOTP_mismatch_step env3 id engineer code c3 expiresAt w2 a2)
      as (w3 & a3 & E3 & L3 & O3 & S3 & X3 & C3); [done..|lia|].
    subst r4 r3 r2 r1. rewrite E1. cbn [fst snd]. rewrite E2. cbn [fst snd].
    rewrite E3. cbn [fst snd]. rewrite L3, C2, C1, Hzero. simpl.
    split; [done|]. split; [done|]. split; [done|]. split.
    + f_equal. lia.
    + apply (verifyOTP_exceeded env4 id engineer code expiresAt w3 a3); try done.
      * by apply bool_decide_eq_false.
      * lia.
Qed.

Lemma verifyOTP_check_order_and_limit_witness :
  (Appointment.verifyOTP (Fixture.env 1500000 Fixture.accepted) "apt-1"
     (Some "123456") (Some "eng-1")
     (Appointment.verifyOTP (Fixture.env 1400000 Fixture.accepted) "apt-1"
        (Some "333333") (Some "eng-1")
        (Appointment.verifyOTP (Fixture.env 1300000 Fixture.accepted) "apt-1"
           (Some "222222") (Some "eng-1")
           (Appointment.verifyOTP (Fixture.env 1200000 Fixture.accepted) "apt-1"
              (Some "111111") (Some "eng-1")
              (Fixture.world (Fixture.appointment OTP_SENT 0)
                             (Fixture.visit VISIT_PENDING))).2).2).2).1
  = {| res_status := 400;
       res_body := JObj
         [("error", JStr "Maximum OTP attempts exceeded. Please request a new OTP.")] |}.
Proof.
  destruct (verifyOTP_check_order_and_limit "apt-1" "eng-1" "123456" 1900000
              (Fixture.world (Fixture.appointment OTP_SENT 0) (Fixture.visit VISIT_PENDING))
              (Fixture.appointment OTP_SENT 0))
    as (_ & _ & _ & Hrun).
  - reflexivity.
  - reflexivity.
  - reflexivity.
  - discriminate.
  - reflexivity.
  - destruct (Hrun (Fixture.env 1200000 Fixture.accepted)
                   (Fixture.env 1300000 Fixture.accepted)
                   (Fixture.env 1400000 Fixture.accepted)
                   (Fixture.env 1500000 Fixture.accepted)
                   "111111" "222222" "333333") as (_ & _ & _ & _ & E4).
    + reflexivity.
    + repeat split; discriminate.
    + repeat split; discriminate.
    + repeat split; discriminate.
    + simpl. lia.
    + simpl. lia.
    + simpl. lia.
    + simpl. lia.
    + exact (f_equal fst E4).
Defined.

(** C2, as stated, fails: with two attempts recorded, a wrong code is
    compared and answered as a mismatch (no attempts remaining), not as
    exceeded attempts, and the counter becomes three. *)
Lemma verifyOTP_third_wrong_code_is_compared :
  a_otpAttempts (Fixture.appointment OTP_SENT 2) = 2
  ∧ (Appointment.verifyOTP (Fixture.env 1500000 Fixture.accepted) "apt-1"
       (Some "999999") (Some "eng-1")
       (Fixture.world (Fixture.appointment OTP_SENT 2) (Fixture.visit VISIT_PENDING))).1
    = {| res_status := 400;
         res_body := JObj [("error", JStr "Invalid OTP");
                           ("attemptsRemaining", JNum 0)] |}
  ∧ (Appointment.verifyOTP (Fixture.env 1500000 Fixture.accepted) "apt-1"
       (Some "999999") (Some "eng-1")
       (Fixture.world (Fixture.appointment OTP_SENT 2) (Fixture.visit VISIT_PENDING))).1
    ≠ {| res_status := 400;
         res_body := JObj
           [("error", JStr "Maximum OTP attempts exceeded. Please request a new OTP.")] |}
  ∧ a_otpAttempts <$>
      appointments
        (Appointment.verifyOTP (Fixture.env 1500000 Fixture.accepted) "apt-1"
           (Some "999999") (Some "eng-1")
           (Fixture.world (Fixture.appointment OTP_SENT 2)
                          (Fixture.visit VISIT_PENDING))).2 !! "apt-1"
    = Some 3.
Proof.
  split; [reflexivity|]. split; [reflexivity|]. split; [|reflexivity].
  vm_compute. discriminate.
Qed.

(** ** Appointments: sending a code *)

Lemma alter_found {A} (f : A → A) (i : string) (x : A) (m : gmap string A) :
  m !! i = Some x → alter f i m = <[i := f x]> m.
Proof.
  intros H. apply map_eq. intros j. destruct (decide (i = j)) as [<-|Hne].
  - by rewrite lookup_alter_eq, lookup_insert_eq, H.
  - by rewrite lookup_alter_ne, lookup_insert_ne.
Qed.

Lemma appointment_update_after (w w1 : World) id data a :
  same_tables w w1 → appointments w !! id = Some a →
  appointments (Appointment.update id data w1).2
  = <[id := Appointment.patch data a]> (appointments w).
Proof.
  intros (_ & _ & E & _) found.
  unfold Appointment.update, set_appointments. simpl.
  rewrite E. by apply alter_found.
Qed.

Section SendOTP.
Context (cfg : Config) (env : Env) (id engineer : string)
        (w : World) (a : Appointment).
Hypothesis found : appointments w !! id = Some a.
Hypothesis owner : a_engineerId a = engineer.
Hypothesis open : a_status a ≠ COMPLETED.
Hypothesis phone :
  Js.falsy (Appointment.recipient a) || Js.blank (Appointment.recipient a) = false.

(** What [sendOTP] does once ownership, status and phone are checked. *)
Lemma sendOTP_checked :
  Appointment.sendOTP cfg env id (Some engineer) w =
    let sent := Sms.sendVisitOTP cfg env (Appointment.recipient a)
                  (fresh_otp env) (u_name (a_engineer a)) w in
    if sent.1
    then (json_ok [("message", JStr "OTP sent successfully");
                   ("sentTo", JStr (Appointment.recipient a));
                   ("expiresAt", JDate (Otp.getOTPExpiry cfg env))],
          (Appointment.update id
             (Appointment.issue env (fresh_otp env) (Otp.getOTPExpiry cfg env)) sent.2).2)
    else (Appointment.send_failed (Appointment.recipient a), sent.2).
Proof using found owner open phone.
  unfold Appointment.sendOTP, bind, ret, Appointment.findUnique. simpl.
  rewrite found, owner.
  rewrite bool_decide_eq_false_2 by (intros H; by apply H).
  rewrite bool_decide_eq_false_2 by done.
  rewrite phone. unfold Otp.generateOTP.
  by destruct (Sms.sendVisitOTP _ _ _ _ _ _).1.
Qed.

End SendOTP.

(** C5: once ownership, status and phone are checked, [sendOTP] changes the
    appointment only when the gateway delivered: on a failed delivery every
    table is as before and the reply is the 500 that names the delivery
    failure and the phone; on a delivery the reply is the 200 with the
    expiry, and the new code, its expiry (computed before the gateway was
    called) and the send time (read after it) are stored, the attempt
    counter is set to 0 and the status to OTP_SENT. *)
Theorem sendOTP_persists_only_after_delivery
    (cfg : Config) (env : Env) (id engineer : string) (w : World) (a : Appointment) :
  appointments w !! id = Some a →
  a_engineerId a = engineer →
  a_status a ≠ COMPLETED →
  Js.falsy (Appointment.recipient a) || Js.blank (Appointment.recipient a) = false →
  let sent := Sms.sendVisitOTP cfg env (Appointment.recipient a)
                (fresh_otp env) (u_name (a_engineer a)) w in
  let out := Appointment.sendOTP cfg env id (Some engineer) w in
  (sent.1 = false →
     out.1 = {| res_status := 500;
                res_body := JObj
                  [("error", JStr "Failed to send OTP. Please check the phone number and SMS configuration.");
                   ("sentTo", JStr (Appointment.recipient a))] |}
     ∧ same_tables w out.2)
  ∧ (sent.1 = true →
     out.1 = {| res_status := 200;
                res_body := JObj
                  [("message", JStr "OTP sent successfully");
                   ("sentTo", JStr (Appointment.recipient a));
                   ("expiresAt", JDate (Otp.getOTPExpiry cfg env))] |}
     ∧ ∃ a', appointments out.2 = <[id := a']> (appointments w)
         ∧ a_otp a' = Some (fresh_otp env)
         ∧ a_otpExpiresAt a' = Some (Otp.getOTPExpiry cfg env)
         ∧ a_otpSentAt a' = Some (later env)
         ∧ a_otpAttempts a' = 0
         ∧ a_status a' = OTP_SENT
         ∧ a_verifiedAt a' = a_verifiedAt a ∧ a_feedback a' = a_feedback a
         ∧ a_otpMobileNumber a' = a_otpMobileNumber a
         ∧ a_engineerId a' = a_engineerId a).
Proof.
  intros found owner open phone sent out. subst out.
  rewrite (sendOTP_checked cfg env id engineer w a) by done.
  fold sent. cbv zeta.
  pose proof (sendVisitOTP_tables cfg env (Appointment.recipient a)
                (fresh_otp env) (u_name (a_engineer a)) w) as Hframe.
  fold sent in Hframe.
  split; intros ->; cbn [fst snd].
  - split; [done|exact Hframe].
  - split; [done|]. eexists. split.
    + by apply appointment_update_after.
    + by repeat split.
Qed.

Lemma sendOTP_persists_only_after_delivery_witness :
  a_status <$>
    appointments
      (Appointment.sendOTP Fixture.cfg (Fixture.env 5000000 Fixture.accepted) "apt-1"
         (Some "eng-1")
         (Fixture.world (Fixture.appointment SCHEDULED 0)
                        (Fixture.visit VISIT_PENDING))).2 !! "apt-1"
  = Some OTP_SENT.
Proof.
  destruct (sendOTP_persists_only_after_delivery
              Fixture.cfg (Fixture.env 5000000 Fixture.accepted) "apt-1" "eng-1"
              (Fixture.world (Fixture.appointment SCHEDULED 0) (Fixture.visit VISIT_PENDING))
              (Fixture.appointment SCHEDULED 0))
    as (_ & Hsent).
  - reflexivity.
  - reflexivity.
  - discriminate.
  - reflexivity.
  - destruct Hsent as (_ & a' & Htable & _ & _ & _ & _ & Hstatus & _).
    + reflexivity.
    + rewrite Htable, lookup_insert_eq. simpl. by rewrite Hstatus.
Defined.

(** The failing branch of C5, computed: MSG91 answers every request with an
    error; the appointment stays SCHEDULED without a code, three failed
    attempts are logged and the call answers 500. *)
Example sendOTP_refused_delivery :
  appointments
    (Appointment.sendOTP Fixture.cfg (Fixture.env 5000000 Fixture.refused) "apt-1"
       (Some "eng-1")
       (Fixture.world (Fixture.appointment SCHEDULED 0) (Fixture.visit VISIT_PENDING))).2
  = appointments
      (Fixture.world (Fixture.appointment SCHEDULED 0) (Fixture.visit VISIT_PENDING))
  ∧ (Appointment.sendOTP Fixture.cfg (Fixture.env 5000000 Fixture.refused) "apt-1"
       (Some "eng-1")
       (Fixture.world (Fixture.appointment SCHEDULED 0) (Fixture.visit VISIT_PENDING))).1
    = Appointment.send_failed "8154831233"
  ∧ l_status <$>
      smsLogs
        (Appointment.sendOTP Fixture.cfg (Fixture.env 5000000 Fixture.refused) "apt-1"
           (Some "eng-1")
           (Fixture.world (Fixture.appointment SCHEDULED 0)
                          (Fixture.visit VISIT_PENDING))).2
    = [failed; failed; failed].
Proof. split_and!; reflexivity. Qed.

(** A phone that is nothing but a no-break space and a space is blank for
    [trim]: the send is answered 400 and nothing is logged or sent. *)
Example sendOTP_phone_of_no_break_space :
  let a := {| a_engineerId := "eng-1"; a_engineer := Fixture.engineer;
              a_client := Fixture.client; a_otpMobileNumber := Some "  ";
              a_status := SCHEDULED; a_otp := None; a_otpExpiresAt := None;
              a_otpSentAt := None; a_otpAttempts := 0;
              a_verifiedAt := None; a_feedback := None |} in
  Js.blank "  " = true
  ∧ Appointment.sendOTP Fixture.cfg (Fixture.env 5000000 Fixture.accepted) "apt-1"
      (Some "eng-1") (Fixture.world a (Fixture.visit VISIT_PENDING))
    = ({| res_status := 400;
          res_body := JObj [("error", JStr "Client phone number is missing")] |},
       Fixture.world a (Fixture.visit VISIT_PENDING)).
Proof. split; reflexivity. Qed.

(** ** The expiry of a code *)

(** Where the offset of the zone does not change, the expiry is the clock
    plus the configured time. *)
Lemma expiry_in_a_fixed_zone (cfg : Config) (env : Env) (offset : Z) :
  (∀ t, local_time env t = t + offset) →
  (∀ l, utc env l = l - offset) →
  Otp.getOTPExpiry cfg env = now env + otp_expiryMinutes cfg * 60 * 1000
  ∧ Otp.getWorkerVisitOTPExpiry cfg env
    = now env + otp_workerVisitExpiryHours cfg * 60 * 60 * 1000.
Proof.
  intros Hlocal Hutc.
  unfold Otp.getOTPExpiry, Otp.getWorkerVisitOTPExpiry, Otp.add_local.
  rewrite !Hutc, !Hlocal. lia.
Qed.

(** Across the end of daylight saving time it is not: ten minutes before
    the clocks go back by an hour, a code of 15 minutes expires 75 minutes
    later and a code of 24 hours expires 25 hours later. *)
Example expiry_across_clock_change :
  Otp.getOTPExpiry Fixture.cfg
    (Fixture.env_clock_back 7200000 6600000 Fixture.accepted)
  = 6600000 + 75 * 60 * 1000
  ∧ Otp.getWorkerVisitOTPExpiry Fixture.cfg
      (Fixture.env_clock_back 7200000 6600000 Fixture.accepted)
    = 6600000 + 25 * 60 * 60 * 1000.
Proof. split; reflexivity. Qed.

(** ** The resend cooldown *)

Lemma cooldown_within (env : Env) (sentAt : Z) :
  now env - sentAt < cooldownPeriod →
  ∃ retryAfter,
    cooldown_remaining env (Some sentAt) = Some retryAfter
    ∧ 0 < retryAfter
    ∧ (0 ≤ now env - sentAt → retryAfter ≤ 60).
Proof.
  intros Hlt. unfold cooldown_remaining. cbv zeta.
  rewrite bool_decide_eq_true_2 by done.
  eexists. split; [reflexivity|].
  unfold cooldownPeriod, Js.ceil_div in *.
  pose proof (Z.div_mod (- (60 * 1000 - (now env - sentAt))) 1000) as Hdiv.
  pose proof (Z.mod_pos_bound (- (60 * 1000 - (now env - sentAt))) 1000) as Hmod.
  split; [lia|]. intros Hpos. lia.
Qed.

Lemma cooldown_elapsed (env : Env) (otpSentAt : option Z) :
  (∀ sentAt, otpSentAt = Some sentAt → cooldownPeriod ≤ now env - sentAt) →
  cooldown_remaining env otpSentAt = None.
Proof.
  intros H. destruct otpSentAt as [sentAt|]; [|done].
  unfold cooldown_remaining. cbv zeta.
  specialize (H sentAt eq_refl). by rewrite bool_decide_eq_false_2 by lia.
Qed.

(** The seconds the 429 reply asks to wait are positive, and at most 60
    exactly when the clock is not behind the recorded send time. *)
Lemma retry_after_bounds (elapsed : Z) :
  elapsed < cooldownPeriod →
  0 < Js.ceil_div (cooldownPeriod - elapsed) 1000
  ∧ (0 ≤ elapsed ↔ Js.ceil_div (cooldownPeriod - elapsed) 1000 ≤ 60).
Proof.
  intros Hlt. unfold cooldownPeriod, Js.ceil_div in *.
  pose proof (Z.div_mod (- (60 * 1000 - elapsed)) 1000) as Hdiv.
  pose proof (Z.mod_pos_bound (- (60 * 1000 - elapsed)) 1000) as Hmod.
  lia.
Qed.

(** The rate limit of both resend handlers: a resend, by the owner of an
    appointment or worker visit that is not completed, for which the clock
    reads less than 60 seconds past the recorded send time, is answered 429
    with [retryAfter = ceil((60000 - elapsed) / 1000)] in the body and in
    the message; nothing is stored, logged or sent.  The value is positive;
    it is at most 60 exactly when the clock is not behind the recorded send
    time. *)
Theorem resend_within_cooldown_is_rate_limited
    (cfg : Config) (env : Env) (id engineer : string) (w : World) (sentAt : Z) :
  now env - sentAt < 60 * 1000 →
  let retryAfter := Js.ceil_div (60 * 1000 - (now env - sentAt)) 1000 in
  let reply :=
    {| res_status := 429;
       res_body := JObj
         [("error", JStr ("Please wait " +:+ pretty retryAfter
                          +:+ " seconds before requesting a new OTP"));
          ("retryAfter", JNum retryAfter)] |} in
  0 < retryAfter
  ∧ (0 ≤ now env - sentAt ↔ retryAfter ≤ 60)
  ∧ (∀ a, appointments w !! id = Some a →
        a_engineerId a = engineer → a_status a ≠ COMPLETED →
        a_otpSentAt a = Some sentAt →
        Appointment.resendOTP cfg env id (Some engineer) w = (reply, w))
  ∧ (∀ v, workerVisits w !! id = Some v →
        v_engineerId v = engineer → v_status v ≠ VISIT_COMPLETED →
        v_otpSentAt v = Some sentAt →
        WorkerVisit.resendOTP cfg env id (Some engineer) w = (reply, w)).
Proof.
  intros Hlt retryAfter reply.
  destruct (retry_after_bounds (now env - sentAt) Hlt) as [Hpos Hmax].
  destruct (cooldown_within env sentAt Hlt) as (r & Hr & _).
  assert (r = retryAfter) as ->.
  { unfold cooldown_remaining in Hr. cbv zeta in Hr.
    rewrite bool_decide_eq_true_2 in Hr by done. by injection Hr as <-. }
  split; [exact Hpos|]. split; [exact Hmax|]. split.
  - intros a found owner open Hsent.
    unfold Appointment.resendOTP, bind, ret, Appointment.findUnique. simpl.
    rewrite found, owner.
    rewrite bool_decide_eq_false_2 by (intros H; by apply H).
    rewrite bool_decide_eq_false_2 by done.
    by rewrite Hsent, Hr.
  - intros v found owner open Hsent.
    unfold WorkerVisit.resendOTP, bind, ret, WorkerVisit.findUnique. simpl.
    rewrite found, owner.
    rewrite bool_decide_eq_false_2 by (intros H; by apply H).
    rewrite bool_decide_eq_false_2 by done.
    by rewrite Hsent, Hr.
Qed.

Lemma resend_within_cooldown_is_rate_limited_witness :
  Appointment.resendOTP Fixture.cfg (Fixture.env 1045500 Fixture.accepted) "apt-1"
    (Some "eng-1")
    (Fixture.world (Fixture.appointment OTP_SENT 0) (Fixture.visit VISIT_PENDING))
  = ({| res_status := 429;
        res_body := JObj
          [("error", JStr "Please wait 15 seconds before requesting a new OTP");
           ("retryAfter", JNum 15)] |},
     Fixture.world (Fixture.appointment OTP_SENT 0) (Fixture.visit VISIT_PENDING))
  ∧ WorkerVisit.resendOTP Fixture.cfg (Fixture.env 1045500 Fixture.accepted) "visit-1"
      (Some "eng-1")
      (Fixture.world (Fixture.appointment OTP_SENT 0) (Fixture.visit VISIT_PENDING))
    = ({| res_status := 429;
          res_body := JObj
            [("error", JStr "Please wait 15 seconds before requesting a new OTP");
             ("retryAfter", JNum 15)] |},
       Fixture.world (Fixture.appointment OTP_SENT 0) (Fixture.visit VISIT_PENDING)).
Proof.
  destruct (resend_within_cooldown_is_rate_limited
              Fixture.cfg (Fixture.env 1045500 Fixture.accepted) "apt-1" "eng-1"
              (Fixture.world (Fixture.appointment OTP_SENT 0)
                             (Fixture.visit VISIT_PENDING)) 1000000)
    as (_ & _ & Happ & _); [simpl; lia|].
  destruct (resend_within_cooldown_is_rate_limited
              Fixture.cfg (Fixture.env 1045500 Fixture.accepted) "visit-1" "eng-1"
              (Fixture.world (Fixture.appointment OTP_SENT 0)
                             (Fixture.visit VISIT_PENDING)) 1000000)
    as (_ & _ & _ & Hvis); [simpl; lia|].
  split.
  - exact (Happ (Fixture.appointment OTP_SENT 0) eq_refl eq_refl
             ltac:(discriminate) eq_refl).
  - exact (Hvis (Fixture.visit VISIT_PENDING) eq_refl eq_refl
             ltac:(discriminate) eq_refl).
Defined.

(** C6: where the code departs from the claim.  The recorded send time
    lies ten seconds after the clock reading, so fewer than 60 seconds have
    elapsed since it; the resend is answered 429 and nothing changes, but
    the handler does not bound the seconds it reports by its cooldown of
    60: the retry-after value is 70. *)
Lemma resend_before_recorded_send_time :
  a_otpSentAt (Fixture.appointment OTP_SENT 0) = Some 1000000
  ∧ now (Fixture.env 990000 Fixture.accepted) - 1000000 < 60 * 1000
  ∧ Appointment.resendOTP Fixture.cfg (Fixture.env 990000 Fixture.accepted) "apt-1"
      (Some "eng-1")
      (Fixture.world (Fixture.appointment OTP_SENT 0) (Fixture.visit VISIT_PENDING))
    = ({| res_status := 429;
          res_body := JObj
            [("error", JStr "Please wait 70 seconds before requesting a new OTP");
             ("retryAfter", JNum 70)] |},
       Fixture.world (Fixture.appointment OTP_SENT 0) (Fixture.visit VISIT_PENDING))
  ∧ WorkerVisit.resendOTP Fixture.cfg (Fixture.env 990000 Fixture.accepted) "visit-1"
      (Some "eng-1")
      (Fixture.world (Fixture.appointment OTP_SENT 0) (Fixture.visit VISIT_PENDING))
    = ({| res_status := 429;
          res_body := JObj
            [("error", JStr "Please wait 70 seconds before requesting a new OTP");
             ("retryAfter", JNum 70)] |},
       Fixture.world (Fixture.appointment OTP_SENT 0) (Fixture.visit VISIT_PENDING))
  ∧ ¬ (70 ≤ 60).
Proof. split_and!; [reflexivity|simpl; lia|reflexivity|reflexivity|lia]. Qed.

(** The same resend, computed: 45.5 seconds after the send, 15 seconds remain. *)
Example resend_after_45_seconds :
  (Appointment.resendOTP Fixture.cfg (Fixture.env 1045500 Fixture.accepted) "apt-1"
     (Some "eng-1")
     (Fixture.world (Fixture.appointment OTP_SENT 0) (Fixture.visit VISIT_PENDING))).1
  = rate_limited 15.
Proof. reflexivity. Qed.

(** ** Widget verification *)

(** What [verifyOTPWithWidget] does when the token is there, decodes to the
    appointment of the path, and MSG91 is asked. *)
Lemma verifyOTPWithWidget_checked
    (cfg : Config) (env : Env) (id token : string) (userId : option string)
    (p : TokenPayload) (w : World) :
  token ≠ "" →
  verifyMSG91OTPToken env token = Some p →
  t_appointmentId p = Some id →
  Appointment.verifyOTPWithWidget cfg env id (Some token) userId w =
    let asked := Sms.axios_post env (VerifyAccessToken (msg91_authKey cfg) token) w in
    match asked.1 with
    | Rejected e => (Appointment.widget_caught "Failed to verify OTP" e, asked.2)
    | Resolved d =>
        if bool_decide (d_type d ≠ "success")
        then (Appointment.widget_rejected (d_message d), asked.2)
        else match appointments w !! id with
             | None => (json_error 404 "Appointment not found", asked.2)
             | Some appointment =>
                 if bool_decide (Some (a_engineerId appointment) ≠ userId)
                 then (json_error 403 "Access denied", asked.2)
                 else (Appointment.otp_verified,
                       (Appointment.update id
                          [Appointment.status VERIFIED;
                           Appointment.verifiedAt (Some (now env));
                           Appointment.otpAttempts 0] asked.2).2)
             end
    end.
Proof.
  intros Hne Hdec Hid.
  unfold Appointment.verifyOTPWithWidget, bind, ret, Appointment.findUnique.
  simpl. unfold Js.falsy. rewrite (bool_decide_eq_false_2 (token = "")) by done.
  rewrite Hdec, Hid.
  rewrite bool_decide_eq_false_2 by (intros H; by apply H).
  destruct (provider env (length (http w))) as [d|e]; [|done].
  destruct (decide (d_type d ≠ "success")) as [Hd|Hd].
  { by rewrite !bool_decide_eq_true_2 by done. }
  rewrite !(bool_decide_eq_false_2 (d_type d ≠ "success")) by done.
  simpl. destruct (appointments w !! id) as [a|]; [|done].
  destruct (decide (Some (a_engineerId a) ≠ userId)) as [Ho|Ho].
  { by rewrite !bool_decide_eq_true_2 by done. }
  by rewrite !(bool_decide_eq_false_2 (Some (a_engineerId a) ≠ userId)) by done.
Qed.

(** A token that is missing, does not decode, or decodes to another
    appointment ends the call at once. *)
Lemma verifyOTPWithWidget_refused
    (cfg : Config) (env : Env) (id : string) (accessToken userId : option string)
    (w : World) :
  (∀ p, verifyMSG91OTPToken env (Js.or_str accessToken "") = Some p →
        t_appointmentId p ≠ Some id) →
  ∃ msg, Appointment.verifyOTPWithWidget cfg env id accessToken userId w
         = (json_error 400 msg, w).
Proof.
  intros Hbad. unfold Appointment.verifyOTPWithWidget, bind, ret.
  destruct (Js.falsy_opt accessToken); [by eexists|].
  destruct (verifyMSG91OTPToken env _) as [p|] eqn:Hdec; [|by eexists].
  rewrite bool_decide_eq_true_2 by (by apply Hbad). by eexists.
Qed.

Lemma submitWorkerCountWithWidget_refused
    (cfg : Config) (env : Env) (id : string) (accessToken : option string)
    (workerCount_ : option Z) (remarks_ userId : option string) (w : World) :
  (∀ p, verifyMSG91OTPToken env (Js.or_str accessToken "") = Some p →
        t_visitId p ≠ Some id) →
  ∃ msg, WorkerVisit.submitWorkerCountWithWidget cfg env id accessToken
           workerCount_ remarks_ userId w
         = (json_error 400 msg, w).
Proof.
  intros Hbad. unfold WorkerVisit.submitWorkerCountWithWidget, bind, ret.
  destruct (_ || _); [by eexists|].
  destruct (bool_decide (default 0 workerCount_ ≤ 0)); [by eexists|].
  destruct (verifyMSG91OTPToken env _) as [p|] eqn:Hdec; [|by eexists].
  rewrite bool_decide_eq_true_2 by (by apply Hbad). by eexists.
Qed.

(** C8: a widget verification (appointment or worker visit) whose token is
    missing, malformed, expired, or bound to another id than the path's is
    answered 400 with the world untouched, so without any request to MSG91;
    whenever a call did issue a request, the token had passed the local
    check with the id of the path. *)
Theorem widget_token_checked_before_provider
    (cfg : Config) (env : Env) (id : string) (accessToken : option string)
    (workerCount_ : option Z) (remarks_ userId : option string) (w : World) :
  let token := Js.or_str accessToken "" in
  let appt := Appointment.verifyOTPWithWidget cfg env id accessToken userId w in
  let visit := WorkerVisit.submitWorkerCountWithWidget cfg env id accessToken
                 workerCount_ remarks_ userId w in
  ((∀ p, verifyMSG91OTPToken env token = Some p → t_appointmentId p ≠ Some id) →
     res_status appt.1 = 400 ∧ appt.2 = w ∧ http appt.2 = http w)
  ∧ ((∀ p, verifyMSG91OTPToken env token = Some p → t_visitId p ≠ Some id) →
     res_status visit.1 = 400 ∧ visit.2 = w ∧ http visit.2 = http w)
  ∧ (http appt.2 ≠ http w →
     ∃ p, verifyMSG91OTPToken env token = Some p ∧ t_appointmentId p = Some id)
  ∧ (http visit.2 ≠ http w →
     ∃ p, verifyMSG91OTPToken env token = Some p ∧ t_visitId p = Some id).
Proof.
  intros token appt visit.
  assert (Happt : (∀ p, verifyMSG91OTPToken env token = Some p →
                        t_appointmentId p ≠ Some id) →
                  res_status appt.1 = 400 ∧ appt.2 = w ∧ http appt.2 = http w).
  { intros Hbad.
    destruct (verifyOTPWithWidget_refused cfg env id accessToken userId w Hbad)
      as (msg & E).
    subst appt. by rewrite E. }
  assert (Hvisit : (∀ p, verifyMSG91OTPToken env token = Some p →
                         t_visitId p ≠ Some id) →
                   res_status visit.1 = 400 ∧ visit.2 = w ∧ http visit.2 = http w).
  { intros Hbad.
    destruct (submitWorkerCountWithWidget_refused cfg env id accessToken
                workerCount_ remarks_ userId w Hbad) as (msg & E).
    subst visit. by rewrite E. }
  split; [exact Happt|]. split; [exact Hvisit|]. split.
  - intros Hcalled.
    destruct (verifyMSG91OTPToken env token) as [p|] eqn:Hdec.
    + destruct (decide (t_appointmentId p = Some id)) as [Hid|Hid]; [by exists p|].
      destruct Hcalled. apply Happt. by intros p' [= <-].
    + destruct Hcalled. by apply Happt.
  - intros Hcalled.
    destruct (verifyMSG91OTPToken env token) as [p|] eqn:Hdec.
    + destruct (decide (t_visitId p = Some id)) as [Hid|Hid]; [by exists p|].
      destruct Hcalled. apply Hvisit. by intros p' [= <-].
    + destruct Hcalled. by apply Hvisit.
Qed.

Lemma widget_token_checked_before_provider_witness :
  (Appointment.verifyOTPWithWidget Fixture.cfg (Fixture.env 1500000 Fixture.accepted)
     "apt-1" (Some "token-visit-1") (Some "eng-1")
     (Fixture.world (Fixture.appointment OTP_SENT 0) (Fixture.visit VISIT_PENDING))).2
  = Fixture.world (Fixture.appointment OTP_SENT 0) (Fixture.visit VISIT_PENDING).
Proof.
  destruct (widget_token_checked_before_provider
              Fixture.cfg (Fixture.env 1500000 Fixture.accepted)
              "apt-1" (Some "token-visit-1") (Some 12) None (Some "eng-1")
              (Fixture.world (Fixture.appointment OTP_SENT 0)
                             (Fixture.visit VISIT_PENDING)))
    as (Happt & _).
  destruct Happt as (_ & E & _).
  - intros p. vm_compute. intros [= <-]. discriminate.
  - exact E.
Defined.

(** C9: a widget verification of the caller's own appointment, with a token
    that passes the local check and a success reply of MSG91, sets the
    status to VERIFIED, the verification time to now and the attempt
    counter to 0, and leaves every other column as it was; the stored code
    and its expiry play no part (the same reply comes whatever they are),
    whereas the inline verification adds one to the counter when it
    accepts a code. *)
Theorem widget_verification_touches_three_fields
    (cfg : Config) (env : Env) (id token engineer : string)
    (p : TokenPayload) (d : ResponseData) (w : World) (a : Appointment) :
  token ≠ "" →
  verifyMSG91OTPToken env token = Some p →
  t_appointmentId p = Some id →
  provider env (length (http w)) = Resolved d →
  d_type d = "success" →
  appointments w !! id = Some a →
  a_engineerId a = engineer →
  let out := Appointment.verifyOTPWithWidget cfg env id (Some token) (Some engineer) w in
  out.1 = Appointment.otp_verified
  ∧ (∃ a', appointments out.2 = <[id := a']> (appointments w)
       ∧ a_status a' = VERIFIED
       ∧ a_verifiedAt a' = Some (now env)
       ∧ a_otpAttempts a' = 0
       ∧ a_otp a' = a_otp a
       ∧ a_otpExpiresAt a' = a_otpExpiresAt a
       ∧ a_otpSentAt a' = a_otpSentAt a
       ∧ a_feedback a' = a_feedback a
       ∧ a_otpMobileNumber a' = a_otpMobileNumber a
       ∧ a_engineerId a' = a_engineerId a
       ∧ a_engineer a' = a_engineer a
       ∧ a_client a' = a_client a)
  ∧ (∀ stored expiresAt,
       (Appointment.verifyOTPWithWidget cfg env id (Some token) (Some engineer)
          (Appointment.update id
             [Appointment.otp stored; Appointment.otpExpiresAt expiresAt] w).2).1
       = out.1)
  ∧ (∀ code expiresAt,
       a_otp a = Some code → code ≠ "" →
       a_otpExpiresAt a = Some expiresAt → now env ≤ expiresAt →
       a_otpAttempts a < 3 →
       a_otpAttempts <$>
         appointments (Appointment.verifyOTP env id (Some code) (Some engineer) w).2 !! id
       = Some (a_otpAttempts a + 1)).
Proof.
  intros Hne Hdec Hid Hreply Hsuccess found owner out.
  assert (Hout : out = (Appointment.otp_verified,
                        (Appointment.update id
                           [Appointment.status VERIFIED;
                            Appointment.verifiedAt (Some (now env));
                            Appointment.otpAttempts 0]
                           (Sms.axios_post env
                              (VerifyAccessToken (msg91_authKey cfg) token) w).2).2)).
  { subst out. rewrite (verifyOTPWithWidget_checked cfg env id token _ p w) by done.
    cbv zeta. unfold Sms.axios_post at 1. cbn [fst]. rewrite Hreply.
    rewrite bool_decide_eq_false_2 by (intros H; by apply H).
    rewrite found, owner.
    by rewrite bool_decide_eq_false_2 by (intros H; by apply H). }
  rewrite Hout. cbn [fst snd].
  split; [done|]. split; [|split].
  - eexists. split.
    + apply appointment_update_after; [apply axios_post_tables | exact found].
    + by repeat split.
  - intros stored expiresAt.
    rewrite (verifyOTPWithWidget_checked cfg env id token _ p _) by done.
    cbv zeta. unfold Sms.axios_post at 1. cbn [fst]. simpl http. rewrite Hreply.
    rewrite bool_decide_eq_false_2 by (intros H; by apply H).
    rewrite (update_lookup id w a found). simpl a_engineerId. rewrite owner.
    by rewrite bool_decide_eq_false_2 by (intros H; by apply H).
  - intros code expiresAt stored nonempty expiry Hle Hatt.
    rewrite (verifyOTP_accepts env id engineer code expiresAt w a) by auto.
    cbn [snd]. by rewrite (update_lookup id w a found).
Qed.

Lemma widget_verification_touches_three_fields_witness :
  a_otpAttempts <$>
    appointments
      (Appointment.verifyOTPWithWidget Fixture.cfg
         (Fixture.env 1500000 Fixture.accepted) "apt-1"
         (Some "token-apt-1") (Some "eng-1")
         (Fixture.world (Fixture.appointment OTP_SENT 2)
                        (Fixture.visit VISIT_PENDING))).2 !! "apt-1"
  = Some 0.
Proof.
  destruct (widget_verification_touches_three_fields
              Fixture.cfg (Fixture.env 1500000 Fixture.accepted)
              "apt-1" "token-apt-1" "eng-1"
              {| t_phone := "918154831233"; t_appointmentId := Some "apt-1";
                 t_visitId := None; t_purpose := "appointment" |}
              {| d_type := "success"; d_message := None;
                 d_request_id := Some "req-1"; d_message_id := None |}
              (Fixture.world (Fixture.appointment OTP_SENT 2) (Fixture.visit VISIT_PENDING))
              (Fixture.appointment OTP_SENT 2))
    as (_ & (a' & Htable & _ & _ & Hzero & _) & _).
  - discriminate.
  - reflexivity.
  - reflexivity.
  - reflexivity.
  - reflexivity.
  - reflexivity.
  - reflexivity.
  - rewrite Htable, lookup_insert_eq. simpl. by rewrite Hzero.
Defined.

(** ** Worker visits *)

Lemma visit_update_after (w w1 : World) id data v :
  same_tables w w1 → workerVisits w !! id = Some v →
  workerVisits (WorkerVisit.update id data w1).2
  = <[id := WorkerVisit.patch data v]> (workerVisits w).
Proof.
  intros (_ & _ & _ & E & _) found.
  unfold WorkerVisit.update, set_workerVisits. simpl.
  rewrite E. by apply alter_found.
Qed.

Section VisitResend.
Context (cfg : Config) (env : Env) (id engineer : string)
        (w : World) (v : WorkerVisit).
Hypothesis found : workerVisits w !! id = Some v.
Hypothesis owner : v_engineerId v = engineer.
Hypothesis open : v_status v ≠ VISIT_COMPLETED.
Hypothesis elapsed : cooldown_remaining env (v_otpSentAt v) = None.

Lemma resend_deliveries_tables :
  same_tables w (WorkerVisit.resend_to_admin cfg env w v).2.
Proof.
  unfold WorkerVisit.resend_to_admin. cbv zeta.
  pose proof (sendWorkerCountOTPToClient_tables cfg env
                (c_primaryContact (v_client v)) (fresh_otp env)
                (c_name (v_client v)) (format_date env (v_visitDate v)) w) as H1.
  fold (WorkerVisit.resend_to_client cfg env w v) in H1.
  destruct (negb _); [|exact H1].
  eapply same_tables_trans; [exact H1|apply sendWorkerCountOTPToAdmin_tables].
Qed.

(** What [resendOTP] does after its checks when the client was reached. *)
Lemma visit_resend_delivered :
  (WorkerVisit.resend_to_client cfg env w v).1 = true →
  ∃ body,
    WorkerVisit.resendOTP cfg env id (Some engineer) w
    = (json_ok body,
       (WorkerVisit.update id
          [WorkerVisit.otp (Some (fresh_otp env));
           WorkerVisit.otpExpiresAt (Some (Otp.getWorkerVisitOTPExpiry cfg env));
           WorkerVisit.otpSentAt (Some (later env));
           WorkerVisit.status VISIT_PENDING]
          (WorkerVisit.resend_to_admin cfg env w v).2).2).
Proof using found owner open elapsed.
  intros Hclient.
  unfold WorkerVisit.resendOTP, bind, ret, WorkerVisit.findUnique. simpl.
  rewrite found, owner.
  rewrite bool_decide_eq_false_2 by (intros H; by apply H).
  rewrite bool_decide_eq_false_2 by done.
  rewrite elapsed. unfold Otp.generateOTP.
  unfold WorkerVisit.resend_to_admin, WorkerVisit.resend_to_client in *. simpl.
  destruct (negb (Js.falsy _)); simpl; rewrite Hclient; simpl; by eexists.
Qed.

End VisitResend.

(** C10: the status guard of the worker-visit resend lets an OTP_VERIFIED
    visit through; with the cooldown over and the client reached, the code,
    its expiry ([getWorkerVisitOTPExpiry], computed before the deliveries)
    and the send time (the clock after them) are overwritten and the status
    goes back to PENDING, while the recorded worker count stays in the
    row. *)
Theorem resend_reverts_verified_visit
    (cfg : Config) (env : Env) (id engineer : string) (w : World) (v : WorkerVisit) :
  workerVisits w !! id = Some v →
  v_engineerId v = engineer →
  v_status v = VISIT_OTP_VERIFIED →
  (∀ sentAt, v_otpSentAt v = Some sentAt → 60 * 1000 ≤ now env - sentAt) →
  (Sms.sendWorkerCountOTPToClient cfg env (c_primaryContact (v_client v))
     (fresh_otp env) (c_name (v_client v)) (format_date env (v_visitDate v)) w).1 = true →
  let out := WorkerVisit.resendOTP cfg env id (Some engineer) w in
  res_status out.1 = 200
  ∧ ∃ v', workerVisits out.2 = <[id := v']> (workerVisits w)
      ∧ v_otp v' = Some (fresh_otp env)
      ∧ v_otpExpiresAt v' = Some (Otp.getWorkerVisitOTPExpiry cfg env)
      ∧ v_otpSentAt v' = Some (later env)
      ∧ v_status v' = VISIT_PENDING
      ∧ v_workerCount v' = v_workerCount v
      ∧ v_remarks v' = v_remarks v
      ∧ v_verifiedAt v' = v_verifiedAt v.
Proof.
  intros found owner Hverified Hcool Hclient out.
  assert (open : v_status v ≠ VISIT_COMPLETED) by (by rewrite Hverified).
  pose proof (cooldown_elapsed env (v_otpSentAt v) Hcool) as elapsed.
  destruct (visit_resend_delivered cfg env id engineer w v found owner open elapsed Hclient)
    as (body & E).
  subst out. rewrite E. cbn [fst snd]. split; [done|].
  eexists. split.
  - apply visit_update_after; [apply resend_deliveries_tables | exact found].
  - by repeat split.
Qed.

Lemma resend_reverts_verified_visit_witness :
  (λ v, (v_status v, v_workerCount v)) <$>
    workerVisits
      (WorkerVisit.resendOTP Fixture.cfg (Fixture.env 5000000 Fixture.accepted)
         "visit-1" (Some "eng-1")
         (Fixture.world (Fixture.appointment OTP_SENT 0)
                        (Fixture.visit VISIT_OTP_VERIFIED))).2 !! "visit-1"
  = Some (VISIT_PENDING, Some 12).
Proof.
  destruct (resend_reverts_verified_visit
              Fixture.cfg (Fixture.env 5000000 Fixture.accepted) "visit-1" "eng-1"
              (Fixture.world (Fixture.appointment OTP_SENT 0)
                             (Fixture.visit VISIT_OTP_VERIFIED))
              (Fixture.visit VISIT_OTP_VERIFIED))
    as (_ & v' & Htable & _ & _ & _ & Hstatus & Hcount & _).
  - reflexivity.
  - reflexivity.
  - reflexivity.
  - intros sentAt [= <-]. simpl. lia.
  - reflexivity.
  - rewrite Htable, lookup_insert_eq. simpl. by rewrite Hstatus, Hcount.
Defined.

(** [createVisit] stores the code, its expiry and the send time when it
    creates the row, before either delivery is tried, and answers 201
    whatever the deliveries return. *)
Lemma createVisit_stores_before_delivery
    (cfg : Config) (env : Env) (clientId engineerId : string) (visitDate : Z)
    (siteAddress : option string) (w : World) (client : Client) (engineer : User) :
  clientId ≠ "" → engineerId ≠ "" →
  visitDate ≠ 0 → stores_date env visitDate = true →
  workerVisits w !! fresh_id env = None →
  clients w !! clientId = Some client → c_isActive client = true →
  users w !! engineerId = Some engineer →
  u_role engineer = ENGINEER → u_isActive engineer = true →
  let out := WorkerVisit.createVisit cfg env (Some clientId) None (Some visitDate)
               siteAddress (Some engineerId) (Some ENGINEER) w in
  res_status out.1 = 201
  ∧ ∃ v, workerVisits out.2 = <[fresh_id env := v]> (workerVisits w)
      ∧ v_otp v = Some (fresh_otp env)
      ∧ v_otpExpiresAt v = Some (Otp.getWorkerVisitOTPExpiry cfg env)
      ∧ v_otpSentAt v = Some (now env)
      ∧ v_status v = VISIT_PENDING.
Proof.
  intros Hc He Hdate Hstores Hfresh Hclient Hactive Huser Hrole Huactive out. subst out.
  unfold WorkerVisit.createVisit, bind, ret, WorkerVisit.client_findFirst,
    WorkerVisit.engineer_findFirst, WorkerVisit.create, WorkerVisit.no_date. simpl.
  unfold Js.falsy.
  rewrite (bool_decide_eq_false_2 (clientId = "")) by done.
  rewrite (bool_decide_eq_false_2 (visitDate = 0)) by done.
  rewrite (bool_decide_eq_false_2 (engineerId = "")) by done.
  simpl. rewrite Hclient, Hactive, Huser, Hrole, Huactive. simpl.
  rewrite Hstores, Hfresh.
  rewrite bool_decide_eq_false_2 by (by intros [? ?]). simpl.
  set (w1 := {| users := users w; clients := clients w;
                appointments := appointments w;
                workerVisits := <[fresh_id env := _]> (workerVisits w);
                settings := settings w; smsLogs := smsLogs w; http := http w |}).
  set (r1 := Sms.sendWorkerCountOTPToClient _ _ _ _ _ _ w1).
  assert (H1 : same_tables w1 r1.2) by apply sendWorkerCountOTPToClient_tables.
  destruct (negb (bool_decide _)); simpl.
  - set (r2 := Sms.sendWorkerCountOTPToAdmin _ _ _ _ _ _ _ r1.2).
    assert (H2 : same_tables r1.2 r2.2) by apply sendWorkerCountOTPToAdmin_tables.
    split; [done|].
    destruct (same_tables_trans _ _ _ H1 H2) as (_ & _ & _ & -> & _).
    eexists. split; [reflexivity|]. by repeat split.
  - split; [done|].
    destruct H1 as (_ & _ & _ & -> & _).
    eexists. split; [reflexivity|]. by repeat split.
Qed.

(** C3: where the code departs from the claim.  MSG91 cannot be reached, so
    the client-side delivery of the create call returns false (each of the
    four logged attempts is [failed]); the visit is stored all the same
    with its code, expiry and send time, and the call answers 201. *)
Theorem createVisit_failed_delivery_still_stored :
  (Sms.sendWorkerCountOTPToClient Fixture.cfg (Fixture.env 5000000 Fixture.unreachable)
     "8154831233" "482913" "Green Park" "Nov 02, 2026"
     (Fixture.world (Fixture.appointment OTP_SENT 0) (Fixture.visit VISIT_PENDING))).1
  = false
  ∧ Forall (λ l, l_status l = failed)
      (smsLogs (WorkerVisit.createVisit Fixture.cfg
                  (Fixture.env 5000000 Fixture.unreachable)
                  (Some "cli-1") None (Some 4000000) None (Some "eng-1") (Some ENGINEER)
                  (Fixture.world (Fixture.appointment OTP_SENT 0)
                                 (Fixture.visit VISIT_PENDING))).2)
  ∧ length (smsLogs (WorkerVisit.createVisit Fixture.cfg
                  (Fixture.env 5000000 Fixture.unreachable)
                  (Some "cli-1") None (Some 4000000) None (Some "eng-1") (Some ENGINEER)
                  (Fixture.world (Fixture.appointment OTP_SENT 0)
                                 (Fixture.visit VISIT_PENDING))).2) = 4%nat
  ∧ res_status (WorkerVisit.createVisit Fixture.cfg
                  (Fixture.env 5000000 Fixture.unreachable)
                  (Some "cli-1") None (Some 4000000) None (Some "eng-1") (Some ENGINEER)
                  (Fixture.world (Fixture.appointment OTP_SENT 0)
                                 (Fixture.visit VISIT_PENDING))).1 = 201
  ∧ (λ v, (v_otp v, v_otpExpiresAt v, v_otpSentAt v)) <$>
      workerVisits (WorkerVisit.createVisit Fixture.cfg
                  (Fixture.env 5000000 Fixture.unreachable)
                  (Some "cli-1") None (Some 4000000) None (Some "eng-1") (Some ENGINEER)
                  (Fixture.world (Fixture.appointment OTP_SENT 0)
                                 (Fixture.visit VISIT_PENDING))).2 !! "visit-2"
    = Some (Some "482913", Some 91400000, Some 5000000).
Proof.
  split_and!.
  - reflexivity.
  - vm_compute. repeat constructor.
  - reflexivity.
  - reflexivity.
  - reflexivity.
Qed.

(** The sibling path: with the same unreachable provider, [resendOTP] of the
    worker-visit controller stores nothing and answers 500. *)
Example resendOTP_failed_delivery_not_stored :
  workerVisits
    (WorkerVisit.resendOTP Fixture.cfg (Fixture.env 5000000 Fixture.unreachable)
       "visit-1" (Some "eng-1")
       (Fixture.world (Fixture.appointment OTP_SENT 0) (Fixture.visit VISIT_PENDING))).2
  = workerVisits
      (Fixture.world (Fixture.appointment OTP_SENT 0) (Fixture.visit VISIT_PENDING))
  ∧ res_status
      (WorkerVisit.resendOTP Fixture.cfg (Fixture.env 5000000 Fixture.unreachable)
         "visit-1" (Some "eng-1")
         (Fixture.world (Fixture.appointment OTP_SENT 0)
                        (Fixture.visit VISIT_PENDING))).1 = 500.
Proof. split; reflexivity. Qed.

(** ** Appointments: what an operation can do to the row *)

Section Outcome.
Context (cfg : Config) (env : Env) (id : string) (userId : option string)
        (w : World) (a : Appointment).
Hypothesis found : appointments w !! id = Some a.

Local Abbreviation row out := (Appointment.row_after id out).

Lemma unchanged_row (out : Response * World) :
  same_tables w out.2 → row out = Some a.
Proof using found. intros (_ & _ & E & _). unfold Appointment.row_after. by rewrite E. Qed.

Lemma patched_row (w1 : World) data r :
  same_tables w w1 →
  row (r, (Appointment.update id data w1).2) = Some (Appointment.patch data a).
Proof using found.
  intros Hframe. unfold Appointment.row_after. cbn [snd].
  rewrite (appointment_update_after w w1 id data a Hframe found).
  by rewrite lookup_insert_eq.
Qed.

Lemma sendOTP_outcome :
  row (Appointment.sendOTP cfg env id userId w) = Some a
  ∨ a_status a ≠ COMPLETED
    ∧ row (Appointment.sendOTP cfg env id userId w)
      = Some (Appointment.patch
                (Appointment.issue env (fresh_otp env) (Otp.getOTPExpiry cfg env)) a).
Proof using found.
  unfold Appointment.sendOTP, bind, ret, Appointment.findUnique. simpl.
  rewrite found.
  case_bool_decide; [left; by apply unchanged_row, same_tables_refl|].
  case_bool_decide; [left; by apply unchanged_row, same_tables_refl|].
  destruct (_ || _); [left; by apply unchanged_row, same_tables_refl|].
  set (r := Sms.sendVisitOTP _ _ _ _ _ _).
  assert (Hframe : same_tables w r.2) by apply sendVisitOTP_tables.
  destruct (negb r.1); simpl.
  - left. by apply unchanged_row.
  - right. split; [done|]. by apply patched_row.
Qed.

Lemma resendOTP_outcome :
  row (Appointment.resendOTP cfg env id userId w) = Some a
  ∨ a_status a ≠ COMPLETED
    ∧ row (Appointment.resendOTP cfg env id userId w)
      = Some (Appointment.patch
                (Appointment.issue env (fresh_otp env) (Otp.getOTPExpiry cfg env)) a).
Proof using found.
  unfold Appointment.resendOTP, bind, ret, Appointment.findUnique,
    Appointment.recent_failed_log. simpl.
  rewrite found.
  case_bool_decide; [left; by apply unchanged_row, same_tables_refl|].
  case_bool_decide; [left; by apply unchanged_row, same_tables_refl|].
  destruct (cooldown_remaining _ _); [left; by apply unchanged_row, same_tables_refl|].
  destruct (_ || _); [left; by apply unchanged_row, same_tables_refl|].
  set (r := Sms.sendVisitOTP _ _ _ _ _ _).
  assert (Hframe : same_tables w r.2) by apply sendVisitOTP_tables.
  destruct (negb r.1); simpl.
  - left. by apply unchanged_row.
  - right. split; [done|]. by apply patched_row.
Qed.

Lemma verifyOTP_outcome otp_ :
  row (Appointment.verifyOTP env id otp_ userId w) = Some a
  ∨ row (Appointment.verifyOTP env id otp_ userId w)
    = Some (Appointment.patch [Appointment.otpAttempts (a_otpAttempts a + 1)] a)
  ∨ row (Appointment.verifyOTP env id otp_ userId w)
    = Some (Appointment.patch
              [Appointment.status VERIFIED; Appointment.verifiedAt (Some (now env));
               Appointment.otpAttempts (a_otpAttempts a + 1)] a).
Proof using found.
  unfold Appointment.verifyOTP, bind, ret, Appointment.findUnique.
  destruct (Js.falsy_opt otp_); [left; by apply unchanged_row, same_tables_refl|].
  simpl. rewrite found.
  case_bool_decide; [left; by apply unchanged_row, same_tables_refl|].
  destruct (a_otpExpiresAt a); [|left; by apply unchanged_row, same_tables_refl].
  destruct (Js.falsy_opt _); [left; by apply unchanged_row, same_tables_refl|].
  destruct (Otp.isOTPExpired _ _); [left; by apply unchanged_row, same_tables_refl|].
  case_bool_decide; [left; by apply unchanged_row, same_tables_refl|].
  destruct (_ && _).
  - right; left. by apply patched_row, same_tables_refl.
  - right; right. by apply patched_row, same_tables_refl.
Qed.

Lemma verifyOTPWithWidget_outcome accessToken :
  row (Appointment.verifyOTPWithWidget cfg env id accessToken userId w) = Some a
  ∨ row (Appointment.verifyOTPWithWidget cfg env id accessToken userId w)
    = Some (Appointment.patch
              [Appointment.status VERIFIED; Appointment.verifiedAt (Some (now env));
               Appointment.otpAttempts 0] a).
Proof using found.
  unfold Appointment.verifyOTPWithWidget, bind, ret, Appointment.findUnique.
  destruct (Js.falsy_opt accessToken); [left; by apply unchanged_row, same_tables_refl|].
  destruct (verifyMSG91OTPToken _ _);
    [|left; by apply unchanged_row, same_tables_refl].
  case_bool_decide; [left; by apply unchanged_row, same_tables_refl|].
  set (r := Sms.axios_post _ _ _).
  assert (Hframe : same_tables w r.2) by apply axios_post_tables.
  destruct r.1 as [d|e]; [|left; by apply unchanged_row].
  case_bool_decide; [left; by apply unchanged_row|].
  simpl. rewrite found.
  case_bool_decide; [left; apply unchanged_row; by repeat split|].
  right. unfold Appointment.row_after. simpl. by rewrite lookup_alter_eq, found.
Qed.

Lemma submitFeedback_outcome feedback_ :
  row (Appointment.submitFeedback id feedback_ userId w) = Some a
  ∨ a_status a = VERIFIED
    ∧ row (Appointment.submitFeedback id feedback_ userId w)
      = Some (Appointment.patch
                [Appointment.feedback (Some (Js.trim (Js.or_str feedback_ "")));
                 Appointment.status COMPLETED] a).
Proof using found.
  unfold Appointment.submitFeedback, bind, ret, Appointment.findUnique.
  destruct (_ || _); [left; by apply unchanged_row, same_tables_refl|].
  simpl. rewrite found.
  case_bool_decide; [left; by apply unchanged_row, same_tables_refl|].
  case_bool_decide as Hst; [left; by apply unchanged_row, same_tables_refl|].
  right. split; [done|]. unfold Appointment.row_after. simpl. by rewrite lookup_alter_eq, found.
Qed.

End Outcome.

(** The row after any of the five operations: as before, or patched the way
    the operation patches it. *)
Lemma run_outcome
    (cfg : Config) (env : Env) (op : Appointment.Op) (id : string)
    (userId : option string) (w : World) (a : Appointment) :
  appointments w !! id = Some a →
  ∃ a', appointments (Appointment.run cfg env op id userId w).2 !! id = Some a'
    ∧ (a' = a
       ∨ match op with
         | Appointment.Send | Appointment.Resend =>
             a_status a ≠ COMPLETED ∧ a_status a' = OTP_SENT
         | Appointment.Verify _ =>
             a_status a' = a_status a ∨ a_status a' = VERIFIED
         | Appointment.WidgetVerify _ => a_status a' = VERIFIED
         | Appointment.Feedback _ =>
             a_status a = VERIFIED ∧ a_status a' = COMPLETED
         end).
Proof.
  intros found. destruct op as [| |otp_|accessToken|feedback_]; simpl.
  - destruct (sendOTP_outcome cfg env id userId w a found) as [E|[Hopen E]];
      unfold Appointment.row_after in E; rewrite E; eexists; (split; [done|]); [by left|by right].
  - destruct (resendOTP_outcome cfg env id userId w a found) as [E|[Hopen E]];
      unfold Appointment.row_after in E; rewrite E; eexists; (split; [done|]); [by left|by right].
  - destruct (verifyOTP_outcome env id userId w a found otp_) as [E|[E|E]];
      unfold Appointment.row_after in E; rewrite E; eexists; (split; [done|]);
      [by left|right; by left|right; by right].
  - destruct (verifyOTPWithWidget_outcome cfg env id userId w a found accessToken)
      as [E|E];
      unfold Appointment.row_after in E; rewrite E; eexists; (split; [done|]); [by left|by right].
  - destruct (submitFeedback_outcome id userId w a found feedback_) as [E|[Hv E]];
      unfold Appointment.row_after in E; rewrite E; eexists; (split; [done|]); [by left|by right].
Qed.

(** What the five handlers do to the status, as the code has it: send,
    resend and feedback leave a COMPLETED appointment as it is, and
    feedback leaves a CANCELLED one as it is; no operation moves a
    SCHEDULED or OTP_SENT appointment to an earlier status, nor do verify,
    widget-verify and feedback move a VERIFIED one back; none of the five
    operations sets CANCELLED.  The status guard of send turns down
    COMPLETED only: on any other status a delivered send by the owner sets
    OTP_SENT. *)
Theorem status_moves_by_operation
    (cfg : Config) (env : Env) (op : Appointment.Op) (id : string)
    (userId : option string) (w : World) (a : Appointment) :
  appointments w !! id = Some a →
  ∃ a', appointments (Appointment.run cfg env op id userId w).2 !! id = Some a'
    ∧ (a_status a = COMPLETED →
       (op = Appointment.Send ∨ op = Appointment.Resend
        ∨ ∃ x, op = Appointment.Feedback x) →
       a' = a)
    ∧ (a_status a = CANCELLED → (∃ x, op = Appointment.Feedback x) → a' = a)
    ∧ (a_status a = SCHEDULED ∨ a_status a = OTP_SENT →
       Appointment.rank (a_status a) ≤ Appointment.rank (a_status a'))
    ∧ (a_status a = VERIFIED →
       (∃ x, op = Appointment.Verify x ∨ op = Appointment.WidgetVerify x
             ∨ op = Appointment.Feedback x) →
       Appointment.rank (a_status a) ≤ Appointment.rank (a_status a'))
    ∧ (a_status a' = CANCELLED → a_status a = CANCELLED)
    ∧ (op = Appointment.Send →
       a_status a ≠ COMPLETED →
       userId = Some (a_engineerId a) →
       Js.falsy (Appointment.recipient a) || Js.blank (Appointment.recipient a) = false →
       (Sms.sendVisitOTP cfg env (Appointment.recipient a) (fresh_otp env)
          (u_name (a_engineer a)) w).1 = true →
       a_status a' = OTP_SENT).
Proof.
  intros found.
  destruct (run_outcome cfg env op id userId w a found) as (a' & Hrow & Hcases).
  exists a'. split; [exact Hrow|].
  assert (Hsend : op = Appointment.Send →
            a_status a ≠ COMPLETED →
            userId = Some (a_engineerId a) →
            Js.falsy (Appointment.recipient a) || Js.blank (Appointment.recipient a) = false →
            (Sms.sendVisitOTP cfg env (Appointment.recipient a) (fresh_otp env)
               (u_name (a_engineer a)) w).1 = true →
            a_status a' = OTP_SENT).
  { intros -> Hopen -> Hphone Hsent. simpl in Hrow.
    rewrite (sendOTP_checked cfg env id (a_engineerId a) w a) in Hrow by done.
    cbv zeta in Hrow. rewrite Hsent in Hrow. cbn [fst snd] in Hrow.
    rewrite (appointment_update_after w _ id _ a) in Hrow;
      [|apply sendVisitOTP_tables|done].
    rewrite lookup_insert_eq in Hrow. by injection Hrow as <-. }
  destruct Hcases as [->|Hpatched].
  { split_and!; try exact Hsend; intros; (done || lia). }
  split_and!; try exact Hsend; clear Hsend.
  - intros Hdone Hop. exfalso.
    destruct Hop as [->|[->|[x ->]]]; destruct Hpatched; congruence.
  - intros Hcancelled [x ->]. exfalso. destruct Hpatched. congruence.
  - intros Hearly.
    destruct op; simpl in Hpatched; destruct_and?; destruct_or?;
      try (exfalso; congruence);
      repeat match goal with H : a_status a' = _ |- _ => rewrite H end;
      rewrite ?Hearly; simpl; lia.
  - intros Hverified (x & Hop). rewrite Hverified.
    destruct Hop as [->|[->| ->]]; simpl in Hpatched; destruct_and?; destruct_or?;
      repeat match goal with H : a_status a' = _ |- _ => rewrite H end;
      rewrite ?Hverified; simpl; lia.
  - intros Hcancelled.
    destruct op; simpl in Hpatched; destruct_and?; destruct_or?; congruence.
Qed.

Lemma status_moves_by_operation_witness :
  appointments
    (Appointment.run Fixture.cfg (Fixture.env 5000000 Fixture.accepted)
       Appointment.Send "apt-1" (Some "eng-1")
       (Fixture.world (Fixture.appointment COMPLETED 1)
                      (Fixture.visit VISIT_PENDING))).2 !! "apt-1"
  = Some (Fixture.appointment COMPLETED 1)
  ∧ a_status <$>
      appointments
        (Appointment.run Fixture.cfg (Fixture.env 5000000 Fixture.accepted)
           Appointment.Send "apt-1" (Some "eng-1")
           (Fixture.world (Fixture.appointment SCHEDULED 0)
                          (Fixture.visit VISIT_PENDING))).2 !! "apt-1"
    = Some OTP_SENT.
Proof.
  split.
  - destruct (status_moves_by_operation
                Fixture.cfg (Fixture.env 5000000 Fixture.accepted)
                Appointment.Send "apt-1" (Some "eng-1")
                (Fixture.world (Fixture.appointment COMPLETED 1)
                               (Fixture.visit VISIT_PENDING))
                (Fixture.appointment COMPLETED 1))
      as (a' & Hrow & Hcompleted & _).
    + reflexivity.
    + rewrite Hrow. f_equal. apply Hcompleted; [reflexivity|by left].
  - destruct (status_moves_by_operation
                Fixture.cfg (Fixture.env 5000000 Fixture.accepted)
                Appointment.Send "apt-1" (Some "eng-1")
                (Fixture.world (Fixture.appointment SCHEDULED 0)
                               (Fixture.visit VISIT_PENDING))
                (Fixture.appointment SCHEDULED 0))
      as (a' & Hrow & _ & _ & _ & _ & _ & Hsend).
    + reflexivity.
    + rewrite Hrow. simpl. f_equal. apply Hsend.
      * reflexivity.
      * discriminate.
      * reflexivity.
      * reflexivity.
      * reflexivity.
Defined.

(** C1: where the code departs from the claim.  CANCELLED is a terminal
    status, but the status guard of [sendOTP] turns down COMPLETED only: a
    delivered send by the owner moves a CANCELLED appointment to
    OTP_SENT. *)
Lemma cancelled_appointment_reopened_by_send :
  a_status (Fixture.appointment CANCELLED 0) = CANCELLED
  ∧ Appointment.terminal CANCELLED = true
  ∧ a_status <$>
      appointments
        (Appointment.run Fixture.cfg (Fixture.env 5000000 Fixture.accepted)
           Appointment.Send "apt-1" (Some "eng-1")
           (Fixture.world (Fixture.appointment CANCELLED 0)
                          (Fixture.visit VISIT_PENDING))).2 !! "apt-1"
    = Some OTP_SENT.
Proof. repeat split; reflexivity. Qed.


(** The same guard in [resendOTP], whose comment reads "can only resend if
    OTP was already sent or scheduled": once the cooldown is over, a
    delivered resend reopens a CANCELLED appointment and sends a VERIFIED
    one back to OTP_SENT. *)
Example cancelled_appointment_reopened_by_resend :
  a_status <$>
    appointments
      (Appointment.run Fixture.cfg (Fixture.env 5000000 Fixture.accepted)
         Appointment.Resend "apt-1" (Some "eng-1")
         (Fixture.world (Fixture.appointment CANCELLED 0)
                        (Fixture.visit VISIT_PENDING))).2 !! "apt-1"
  = Some OTP_SENT
  ∧ a_status <$>
      appointments
        (Appointment.run Fixture.cfg (Fixture.env 5000000 Fixture.accepted)
           Appointment.Resend "apt-1" (Some "eng-1")
           (Fixture.world (Fixture.appointment VERIFIED 1)
                          (Fixture.visit VISIT_PENDING))).2 !! "apt-1"
    = Some OTP_SENT.
Proof. split; reflexivity. Qed.

(** The two verification handlers test no status: the right code sets a
    COMPLETED appointment back to VERIFIED.  (The worker-visit controller
    turns down COMPLETED visits in both of its verification handlers.) *)
Example completed_appointment_verified_again :
  a_status <$>
    appointments
      (Appointment.run Fixture.cfg (Fixture.env 1500000 Fixture.accepted)
         (Appointment.Verify (Some "123456")) "apt-1" (Some "eng-1")
         (Fixture.world (Fixture.appointment COMPLETED 0)
                        (Fixture.visit VISIT_PENDING))).2 !! "apt-1"
  = Some VERIFIED.
Proof. reflexivity. Qed.

(** * Further properties *)

(** ** The phone normalizer, in full *)

Lemma filter_all (p : ascii → bool) (s : string) :
  Js.forallb p s = true → Js.filter p s = s.
Proof.
  induction s as [|c s IH]; simpl; [done|].
  intros [Hc Hs]%andb_true_iff. by rewrite Hc, IH.
Qed.

Lemma forallb_append (p : ascii → bool) (s t : string) :
  Js.forallb p (s +:+ t) = Js.forallb p s && Js.forallb p t.
Proof. induction s as [|c s IH]; simpl; [done|]. by rewrite IH, andb_assoc. Qed.

Lemma forallb_substring (p : ascii → bool) (s : string) (n m : nat) :
  Js.forallb p s = true → Js.forallb p (String.substring n m s) = true.
Proof.
  revert n m. induction s as [|c s IH]; intros n m Hs.
  - by destruct n, m.
  - simpl in Hs. apply andb_true_iff in Hs as [Hc Hs].
    destruct n as [|n]; [destruct m as [|m]|]; simpl; [done| |by apply IH].
    by rewrite Hc, IH.
Qed.

Lemma length_substring_0 (s : string) (m : nat) :
  String.length (String.substring 0 m s) = Nat.min m (String.length s).
Proof.
  revert m. induction s as [|c s IH]; intros [|m]; simpl; [done..|].
  by rewrite IH.
Qed.

Lemma substring_0_all (s : string) : String.substring 0 (String.length s) s = s.
Proof. induction s as [|c s IH]; simpl; [done|]. by rewrite IH. Qed.

Lemma digits_of_digits (s : string) : Js.digits (Js.digits s) = Js.digits s.
Proof. apply filter_all, forallb_filter. Qed.

(** The normalizer, by the number of digits of its input. *)
Lemma normalize_by_digits (phone : string) :
  Phone.normalizePhoneNumber phone =
    let cleaned := Js.digits phone in
    let len := String.length cleaned in
    if Js.startsWith cleaned "91" then
      if Nat.eqb len 12 then Some cleaned
      else if Nat.ltb 12 len then Some (Js.substring 0 12 cleaned)
      else None
    else if Nat.eqb len 10 then Some ("91" +:+ cleaned)
    else if Nat.eqb len 11 && Js.startsWith cleaned "0"
      then Some ("91" +:+ Js.substring_from 1 cleaned)
    else if Nat.ltb 10 len && Nat.leb len 13 then Some cleaned
    else None.
Proof.
  unfold Phone.normalizePhoneNumber. cbv zeta.
  destruct phone as [|c phone]; [done|].
  change (Js.falsy (String c phone)) with false. cbv iota.
  destruct (Js.digits (String c phone)) as [|d cleaned] eqn:E; [done|].
  change (Js.falsy (String d cleaned)) with false.
  change (Nat.eqb (String.length (String d cleaned)) 0) with false.
  cbv iota. simpl orb. cbv iota.
  destruct (Js.startsWith _ "91"); [done|].
  destruct (Nat.eqb _ 10); [done|].
  destruct (Nat.eqb _ 11 && Js.startsWith _ "0") eqn:E0; [done|].
  destruct (Nat.ltb 10 _ && Nat.leb _ 13); [|done].
  by rewrite andb_comm, E0.
Qed.

Lemma startsWith_91 (s : string) :
  Js.startsWith s "91" = true ↔ ∃ t, s = "91" +:+ t.
Proof.
  unfold Js.startsWith. split.
  - destruct s as [|a [|b t]]; cbn -[ascii_dec]; try done.
    + by destruct (ascii_dec "9"%char a).
    + destruct (ascii_dec "9"%char a) as [<-|]; [|done].
      destruct (ascii_dec "1"%char b) as [<-|]; [|done]. by exists t.
  - intros [t ->]. apply String.prefix_correct. by destruct t.
Qed.

Lemma startsWith_0 (s : string) :
  Js.startsWith s "0" = true ↔ ∃ t, s = "0" +:+ t.
Proof.
  unfold Js.startsWith. split.
  - destruct s as [|a t]; cbn -[ascii_dec]; [done|].
    destruct (ascii_dec "0"%char a) as [<-|]; [|done]. by exists t.
  - intros [t ->]. apply String.prefix_correct. by destruct t.
Qed.

Lemma digits_canonical (s : string) :
  Canonical.canonical s = true → Js.digits s = s.
Proof.
  unfold Canonical.canonical. intros [H _]%andb_true_iff. by apply filter_all.
Qed.

Lemma startsWith_91_prepend (s : string) : Js.startsWith ("91" +:+ s) "91" = true.
Proof. apply startsWith_91. by exists s. Qed.

Lemma startsWith_91_substring (s : string) :
  Js.startsWith s "91" = true →
  Js.startsWith (Js.substring 0 12 s) "91" = true.
Proof.
  intros [t ->]%startsWith_91. apply startsWith_91.
  by exists (String.substring 0 10 t).
Qed.

Lemma substring_from_1 (c : ascii) (t : string) :
  Js.substring_from 1 (String c t) = t.
Proof.
  unfold Js.substring_from.
  change (String.substring 1 (String.length (String c t) - 1) (String c t))
    with (String.substring 0 (String.length t - 0) t).
  by rewrite Nat.sub_0_r, substring_0_all.
Qed.

(** Whatever the normalizer returns has the canonical shape. *)
Lemma normalize_canonical (phone y : string) :
  Phone.normalizePhoneNumber phone = Some y → Canonical.canonical y = true.
Proof.
  rewrite normalize_by_digits. cbv zeta.
  pose proof (forallb_filter Js.is_digit phone) as Hd.
  change (Js.filter Js.is_digit phone) with (Js.digits phone) in Hd.
  set (cleaned := Js.digits phone) in *.
  unfold Canonical.canonical. cbv zeta.
  destruct (Js.startsWith cleaned "91") eqn:H91.
  - destruct (Nat.eqb _ 12) eqn:H12.
    + intros [= <-]. by rewrite Hd, H91, H12.
    + destruct (Nat.ltb 12 _) eqn:Hlt; [|done]. intros [= <-].
      apply Nat.ltb_lt in Hlt.
      rewrite (startsWith_91_substring cleaned H91).
      unfold Js.substring. rewrite forallb_substring by done.
      rewrite length_substring_0. apply Nat.eqb_eq. lia.
  - destruct (Nat.eqb _ 10) eqn:H10.
    + intros [= <-]. apply Nat.eqb_eq in H10.
      rewrite startsWith_91_prepend, forallb_append, Hd, length_append, H10. done.
    + destruct (Nat.eqb _ 11 && Js.startsWith cleaned "0") eqn:H0.
      * intros [= <-]. apply andb_true_iff in H0 as [H11 H0].
        apply Nat.eqb_eq in H11. apply startsWith_0 in H0 as [t Ht].
        rewrite startsWith_91_prepend, forallb_append, length_append.
        rewrite Ht in *. change ("0" +:+ t) with (String "0" t) in *.
        rewrite substring_from_1. simpl in Hd, H11.
        rewrite Hd. simpl. apply Nat.eqb_eq. lia.
      * destruct (Nat.ltb 10 _ && Nat.leb _ 13) eqn:Hr; [|done].
        intros [= <-]. rewrite Hd, H91, H0.
        apply andb_true_iff in Hr as [Hlo Hhi].
        apply Nat.ltb_lt in Hlo. rewrite Hhi.
        rewrite (proj2 (Nat.leb_le 11 _)) by lia. done.
Qed.

(** A string of the canonical shape is returned as it is. *)
Lemma canonical_fixed (y : string) :
  Canonical.canonical y = true → Phone.normalizePhoneNumber y = Some y.
Proof.
  intros Hy. rewrite normalize_by_digits. cbv zeta.
  rewrite (digits_canonical y Hy).
  unfold Canonical.canonical in Hy. cbv zeta in Hy.
  apply andb_true_iff in Hy as [_ Hy].
  destruct (Js.startsWith y "91"); [by rewrite Hy|].
  apply andb_true_iff in Hy as [[Hlo Hhi]%andb_true_iff H0].
  apply negb_true_iff in H0. rewrite H0.
  apply Nat.leb_le in Hlo. rewrite Hhi.
  rewrite (proj2 (Nat.eqb_neq _ 10)) by lia.
  by rewrite (proj2 (Nat.ltb_lt 10 _)) by lia.
Qed.

(** X1: the normalizer is idempotent on everything it accepts: a returned
    number, normalized again, comes back unchanged. *)
Theorem normalize_idempotent (phone y : string) :
  Phone.normalizePhoneNumber phone = Some y →
  Phone.normalizePhoneNumber y = Some y.
Proof. intros H. by apply canonical_fixed, (normalize_canonical phone). Qed.

Lemma normalize_idempotent_witness :
  Phone.normalizePhoneNumber "918154831233" = Some "918154831233".
Proof. apply (normalize_idempotent "+91 (81548) 31233-77"). reflexivity. Defined.

(** X2: a returned number consists of digits only and has eleven to
    thirteen of them; when it carries the prefix 91 it has exactly twelve. *)
Theorem normalize_shape (phone y : string) :
  Phone.normalizePhoneNumber phone = Some y →
  Js.forallb Js.is_digit y = true
  ∧ (11 ≤ String.length y ≤ 13)%nat
  ∧ (Js.startsWith y "91" = true → String.length y = 12%nat).
Proof.
  intros H%normalize_canonical. unfold Canonical.canonical in H. cbv zeta in H.
  apply andb_true_iff in H as [Hd H]. split; [done|].
  destruct (Js.startsWith y "91").
  - apply Nat.eqb_eq in H. split; [lia|done].
  - apply andb_true_iff in H as [[Hlo%Nat.leb_le Hhi%Nat.leb_le]%andb_true_iff _].
    split; [lia|done].
Qed.

Lemma normalize_shape_witness :
  Js.forallb Js.is_digit "918154831233" = true
  ∧ (11 ≤ String.length "918154831233" ≤ 13)%nat.
Proof.
  destruct (normalize_shape "081548 31233" "918154831233") as (Hd & Hlen & _).
  - reflexivity.
  - split; [exact Hd|exact Hlen].
Defined.

(** X3: only the digits of the input matter: spaces, dashes, parentheses
    and a leading + make no difference to the result. *)
Theorem normalize_ignores_formatting (phone : string) :
  Phone.normalizePhoneNumber phone = Phone.normalizePhoneNumber (Js.digits phone).
Proof. by rewrite !normalize_by_digits, digits_of_digits. Qed.

(** X4: the normalizer refuses an input exactly when its digits begin with
    91 and are fewer than twelve, or do not begin with 91 and are fewer
    than ten or more than thirteen. *)
Theorem normalize_refuses_iff (phone : string) :
  Phone.normalizePhoneNumber phone = None ↔
    (Js.startsWith (Js.digits phone) "91" = true
     ∧ String.length (Js.digits phone) < 12)%nat
    ∨ (Js.startsWith (Js.digits phone) "91" = false
       ∧ (String.length (Js.digits phone) < 10
          ∨ 13 < String.length (Js.digits phone)))%nat.
Proof.
  rewrite normalize_by_digits. cbv zeta.
  set (cleaned := Js.digits phone).
  destruct (Js.startsWith cleaned "91").
  - destruct (Nat.eqb_spec (String.length cleaned) 12) as [E|E].
    { split; [done|]. intros [[_ ?]|[? _]]; [lia|done]. }
    destruct (Nat.ltb_spec 12 (String.length cleaned)) as [L|L].
    { split; [done|]. intros [[_ ?]|[? _]]; [lia|done]. }
    split; [|done]. intros _. left. split; [done|lia].
  - destruct (Nat.eqb_spec (String.length cleaned) 10) as [E|E].
    { split; [done|]. intros [[? _]|[_ ?]]; [done|lia]. }
    destruct (Nat.eqb_spec (String.length cleaned) 11) as [E1|E1]; simpl.
    + destruct (Js.startsWith cleaned "0").
      { split; [done|]. intros [[? _]|[_ ?]]; [done|lia]. }
      rewrite E1. simpl. split; [done|]. intros [[? _]|[_ ?]]; [done|lia].
    + destruct (Nat.ltb_spec 10 (String.length cleaned)) as [L|L];
        destruct (Nat.leb_spec (String.length cleaned) 13) as [U|U]; simpl.
      * split; [done|]. intros [[? _]|[_ ?]]; [done|lia].
      * split; [|done]. intros _. right. split; [done|lia].
      * split; [|done]. intros _. right. split; [done|lia].
      * lia.
Qed.

Lemma normalize_refuses_iff_witness :
  Phone.normalizePhoneNumber "12345" = None.
Proof.
  apply normalize_refuses_iff. right. split; [reflexivity|]. left. simpl. lia.
Defined.

(** ** The gateway client and its ledger *)

Section GatewayLedger.
Context (cfg : Config) (env : Env).

Lemma footprint_sendSMS to message templateId w :
  ∃ row calls,
    Ledger.footprint w (Sms.sendSMS cfg env to message templateId w) [row] calls
    ∧ (length calls ≤ 1)%nat
    ∧ l_message row = message
    ∧ match Phone.normalizePhoneNumber to with
      | Some normalizedPhone => l_phone row = normalizedPhone ∧ length calls = 1%nat
      | None => l_phone row = to ∧ calls = []
                ∧ (Sms.sendSMS cfg env to message templateId w).1 = false
      end.
Proof.
  unfold Sms.sendSMS, bind, ret.
  destruct (Phone.normalizePhoneNumber to) as [np|] eqn:Hnp.
  - assert (Hc : Canonical.canonical np = true) by by apply (normalize_canonical to).
    destruct (negb _); simpl;
      destruct (provider env _) as [d|e]; simpl;
      eexists _, [_];
      (split;
       [ split; [by repeat split|]; split; [reflexivity|]; split; [reflexivity|];
         split; [|by repeat constructor; eexists];
         simpl; try destruct (Sms.is_success d); simpl;
         first [ by eexists _, [] | by split; [|repeat constructor] ]
       | split; [simpl; lia|]; split; [reflexivity|]; by split ]).
  - eexists _, []. split.
    + split; [by repeat split|]. split; [reflexivity|]. split; [reflexivity|].
      split; [|constructor]. simpl. split; [done|]. by repeat constructor.
    + split; [simpl; lia|]. split; [reflexivity|]. by repeat split.
Qed.

(** A failed attempt followed by another attempt. *)
Lemma footprint_fallback w w1 out rows1 calls1 rows2 calls2 :
  Ledger.footprint w (false, w1) rows1 calls1 →
  Ledger.footprint w1 out rows2 calls2 →
  Ledger.footprint w out (rows2 ++ rows1) (calls2 ++ calls1).
Proof.
  intros (T1 & L1 & H1 & [N1 F1] & C1) (T2 & L2 & H2 & S2 & C2).
  simpl in *. split; [by eapply same_tables_trans|].
  split; [by rewrite L2, L1, app_assoc|].
  split; [by rewrite H2, H1, app_assoc|].
  split; [|by apply Forall_app].
  destruct out.1.
  - destruct S2 as (r & rest & -> & Hr & Hrest).
    exists r, (rest ++ rows1). split; [done|]. split; [done|]. by apply Forall_app.
  - destruct S2 as [N2 F2]. split; [|by apply Forall_app].
    destruct rows2; [done|]. done.
Qed.

(** A failed attempt followed by one more failed row in the log. *)
Lemma footprint_note w w1 rows calls l :
  Ledger.footprint w (false, w1) rows calls →
  Ledger.is_failed l →
  Ledger.footprint w (false, (sMSLog_create l w1).2) (l :: rows) calls.
Proof.
  intros (T1 & L1 & H1 & [N1 F1] & C1) Hl. simpl in *.
  split; [by destruct T1 as (?&?&?&?&?)|].
  split; [by rewrite L1|]. split; [done|]. split; [|done].
  split; [done|]. by constructor.
Qed.

Lemma footprint_sendOTPViaMSG91 phone otp templateId w :
  ∃ rows calls,
    Ledger.footprint w (Sms.sendOTPViaMSG91 cfg env phone otp templateId w) rows calls
    ∧ (length rows ≤ 2)%nat ∧ (length calls ≤ 2)%nat.
Proof.
  unfold Sms.sendOTPViaMSG91, bind, ret.
  destruct (Phone.normalizePhoneNumber phone) as [np|] eqn:Hnp.
  - assert (Hc : Canonical.canonical np = true) by by apply (normalize_canonical phone).
    destruct (negb _); simpl.
    + destruct (provider env _) as [d|e]; simpl.
      * eexists [_], [_]. split; [|simpl; lia].
        split; [by repeat split|]. split; [reflexivity|]. split; [reflexivity|].
        split; [|by repeat constructor; eexists].
        simpl. destruct (Sms.is_success d); simpl.
        -- by eexists _, [].
        -- split; [done|]. by repeat constructor.
      * match goal with
        | |- context [Sms.sendSMS _ _ _ _ _ ?x] => set (w1 := x)
        end.
        assert (H1 : Ledger.footprint w (false, w1)
                  [ {| l_phone := np; l_message := Sms.otp_marker otp;
                       l_status := failed; l_providerId := None;
                       l_error := Some (Sms.error_text e) |} ]
                  [ OtpApi (Js.or_str (Js.or_opt templateId (msg91_otpTemplateId cfg)) "")
                      np otp ]).
        { split; [by repeat split|]. split; [reflexivity|]. split; [reflexivity|].
          split; [|by repeat constructor; eexists].
          split; [done|]. by repeat constructor. }
        destruct (footprint_sendSMS np (Sms.otp_fallback_message otp) None w1)
          as (row & calls & Hf & Hlen & _).
        eexists _, _. split; [eapply footprint_fallback; [exact H1|exact Hf]|].
        rewrite !length_app. simpl. lia.
    + destruct (footprint_sendSMS np (Sms.otp_fallback_message otp) None w)
        as (row & calls & Hf & Hlen & _).
      eexists _, _. split; [exact Hf|]. simpl. lia.
  - eexists [_], []. split; [|simpl; lia].
    split; [by repeat split|]. split; [reflexivity|]. split; [reflexivity|].
    split; [|constructor]. simpl. split; [done|]. by repeat constructor.
Qed.

End GatewayLedger.

Lemma footprint_newest (w : World) (out : bool * World) rows calls :
  Ledger.footprint w out rows calls →
  (out.1 = true ↔ l_status <$> head (smsLogs out.2) = Some sent).
Proof.
  intros (_ & -> & _ & H & _). destruct out.1.
  - destruct H as (r & rest & -> & Hr & _). simpl. by rewrite Hr.
  - destruct H as [Hne Hf]. destruct rows as [|r rows]; [done|].
    apply Forall_cons in Hf as [Hr _]. unfold Ledger.is_failed in Hr.
    simpl. rewrite Hr. split; intros; discriminate.
Qed.

Section GatewayEntryPoints.
Context (cfg : Config) (env : Env).

Lemma footprint_sendVisitOTP clientPhone otp engineerName w :
  ∃ rows calls,
    Ledger.footprint w (Sms.sendVisitOTP cfg env clientPhone otp engineerName w)
      rows calls
    ∧ (length rows ≤ 4)%nat ∧ (length calls ≤ 3)%nat.
Proof.
  unfold Sms.sendVisitOTP.
  destruct (Phone.normalizePhoneNumber clientPhone) as [np|] eqn:Hnp.
  - unfold bind, ret. cbv beta zeta.
    destruct (footprint_sendOTPViaMSG91 cfg env np otp None w)
      as (rows1 & calls1 & F1 & Hr1 & Hc1).
    destruct (Sms.sendOTPViaMSG91 cfg env np otp None w) as [[|] w1]; cbn [fst snd negb].
    { eexists _, _. split; [exact F1|]. lia. }
    match goal with
    | |- context [Sms.sendSMS _ _ _ ?m _ _] =>
        destruct (footprint_sendSMS cfg env np m None w1)
          as (row2 & calls2 & F2 & Hc2 & _);
        destruct (Sms.sendSMS cfg env np m None w1) as [[|] w2]
    end; cbn [fst snd negb].
    + eexists _, _. split; [exact (footprint_fallback _ _ _ _ _ _ _ F1 F2)|].
      rewrite !length_app. simpl. lia.
    + eexists _, _. split.
      * apply footprint_note; [exact (footprint_fallback _ _ _ _ _ _ _ F1 F2)|done].
      * simpl. rewrite !length_app. simpl. lia.
  - eexists [_], []. split; [|simpl; lia].
    split; [by repeat split|]. split; [reflexivity|]. split; [reflexivity|].
    split; [|constructor]. simpl. split; [done|]. by repeat constructor.
Qed.

Lemma footprint_sendWorkerCountOTPToClient clientPhone otp siteName date w :
  ∃ rows calls,
    Ledger.footprint w
      (Sms.sendWorkerCountOTPToClient cfg env clientPhone otp siteName date w)
      rows calls
    ∧ (length rows ≤ 3)%nat ∧ (length calls ≤ 3)%nat.
Proof.
  unfold Sms.sendWorkerCountOTPToClient, bind, ret. cbv beta zeta.
  destruct (footprint_sendOTPViaMSG91 cfg env clientPhone otp None w)
    as (rows1 & calls1 & F1 & Hr1 & Hc1).
  destruct (Sms.sendOTPViaMSG91 cfg env clientPhone otp None w) as [[|] w1];
    cbn [fst snd negb].
  { eexists _, _. split; [exact F1|]. lia. }
  match goal with
  | |- context [Sms.sendSMS _ _ _ ?m _ _] =>
      destruct (footprint_sendSMS cfg env clientPhone m None w1)
        as (row2 & calls2 & F2 & Hc2 & _)
  end.
  eexists _, _. split; [exact (footprint_fallback _ _ _ _ _ _ _ F1 F2)|].
  rewrite !length_app. simpl. lia.
Qed.

End GatewayEntryPoints.

(** X5: every call of [sendSMS] adds exactly one row to the SMS log, with
    the message sent, and its result is true exactly when that row is
    [sent].  A phone that cannot be normalized is logged as given and no
    request is made; otherwise the normalized phone is logged and exactly
    one request is made. *)
Theorem sendSMS_logs_one_row
    (cfg : Config) (env : Env) (to message : string) (templateId : option string)
    (w : World) :
  let out := Sms.sendSMS cfg env to message templateId w in
  ∃ row,
    smsLogs out.2 = row :: smsLogs w
    ∧ l_message row = message
    ∧ (out.1 = true ↔ l_status row = sent)
    ∧ match Phone.normalizePhoneNumber to with
      | Some normalizedPhone =>
          l_phone row = normalizedPhone ∧ ∃ c, http out.2 = c :: http w
      | None => l_phone row = to ∧ out.1 = false ∧ http out.2 = http w
      end
    ∧ same_tables w out.2.
Proof.
  intros out.
  destruct (footprint_sendSMS cfg env to message templateId w)
    as (row & calls & F & Hlen & Hmsg & Hphone).
  fold out in F. pose proof (footprint_newest _ _ _ _ F) as Hnew.
  destruct F as (T & L & H & S & _).
  exists row. split; [exact L|]. split; [exact Hmsg|]. split.
  { rewrite Hnew, L. simpl. split; [by intros [= ->]|by intros ->]. }
  split; [|exact T].
  destruct (Phone.normalizePhoneNumber to) as [np|].
  - destruct Hphone as [Hp Hone]. split; [done|].
    destruct calls as [|c [|]]; try done. by exists c.
  - destruct Hphone as (Hp & -> & Hfalse). by repeat split.
Qed.

Lemma footprint_summary (w : World) (out : bool * World) rows calls :
  Ledger.footprint w out rows calls →
  smsLogs out.2 = rows ++ smsLogs w
  ∧ http out.2 = calls ++ http w
  ∧ same_tables w out.2
  ∧ (1 ≤ length rows)%nat
  ∧ (out.1 = true ↔ l_status <$> head rows = Some sent)
  ∧ Forall Ledger.is_failed (tail rows)
  ∧ Forall Ledger.to_canonical calls.
Proof.
  intros (T & L & H & S & C). split; [done|]. split; [done|]. split; [done|].
  destruct out.1.
  - destruct S as (r & rest & -> & Hr & Hrest). simpl. rewrite Hr.
    split; [lia|]. by repeat split.
  - destruct S as [Hne Hf]. destruct rows as [|r rows]; [done|].
    apply Forall_cons in Hf as [Hr Hrows]. unfold Ledger.is_failed in Hr.
    simpl. rewrite Hr. split; [lia|]. split; [|done]. split; intros; discriminate.
Qed.

(** X6: [sendVisitOTP] only adds to the SMS log and to the requests made
    (one to four rows, at most three requests, tables untouched); it
    returns true exactly when the newest row it logged is [sent]; every
    older row it logged is [failed], so it stops at the first delivery;
    every request goes to a number in canonical form. *)
Theorem sendVisitOTP_ledger
    (cfg : Config) (env : Env) (clientPhone otp engineerName : string) (w : World) :
  let out := Sms.sendVisitOTP cfg env clientPhone otp engineerName w in
  ∃ rows calls,
    smsLogs out.2 = rows ++ smsLogs w
    ∧ http out.2 = calls ++ http w
    ∧ same_tables w out.2
    ∧ (1 ≤ length rows ≤ 4)%nat ∧ (length calls ≤ 3)%nat
    ∧ (out.1 = true ↔ l_status <$> head rows = Some sent)
    ∧ Forall Ledger.is_failed (tail rows)
    ∧ Forall Ledger.to_canonical calls.
Proof.
  intros out.
  destruct (footprint_sendVisitOTP cfg env clientPhone otp engineerName w)
    as (rows & calls & F & Hr & Hc).
  destruct (footprint_summary _ _ _ _ F) as (L & H & T & H1 & Hres & Htail & Hcan).
  exists rows, calls. split_and!; (done || lia).
Qed.

(** X7: [sendWorkerCountOTPToClient] only adds to the SMS log and to the
    requests made (one to three rows, at most three requests, tables
    untouched); it returns true exactly when the newest row it logged is
    [sent], every older row it logged is [failed], and every request goes
    to a number in canonical form. *)
Theorem sendWorkerCountOTPToClient_ledger
    (cfg : Config) (env : Env) (clientPhone otp siteName date : string) (w : World) :
  let out := Sms.sendWorkerCountOTPToClient cfg env clientPhone otp siteName date w in
  ∃ rows calls,
    smsLogs out.2 = rows ++ smsLogs w
    ∧ http out.2 = calls ++ http w
    ∧ same_tables w out.2
    ∧ (1 ≤ length rows ≤ 3)%nat ∧ (length calls ≤ 3)%nat
    ∧ (out.1 = true ↔ l_status <$> head rows = Some sent)
    ∧ Forall Ledger.is_failed (tail rows)
    ∧ Forall Ledger.to_canonical calls.
Proof.
  intros out.
  destruct (footprint_sendWorkerCountOTPToClient cfg env clientPhone otp siteName date w)
    as (rows & calls & F & Hr & Hc).
  destruct (footprint_summary _ _ _ _ F) as (L & H & T & H1 & Hres & Htail & Hcan).
  exists rows, calls. split_and!; (done || lia).
Qed.

(** ** Appointments: what a handler can touch *)

Lemma grows_refl w : Ledger.grows w w.
Proof. split; [apply same_tables_refl|]. split; by exists []. Qed.

Lemma footprint_grows w out rows calls :
  Ledger.footprint w out rows calls → Ledger.grows w out.2.
Proof. intros (T & L & H & _). split; [done|]. split; by eexists. Qed.

Lemma axios_post_grows env c w : Ledger.grows w (Sms.axios_post env c w).2.
Proof.
  split; [apply axios_post_tables|]. split; [by exists []|by exists [c]].
Qed.

Section Touch.
Context (cfg : Config) (env : Env) (id : string) (userId : option string) (w : World).

Local Abbreviation touched out := (Ledger.touched w id out).

Lemma touched_stay r : touched (r, w).
Proof. exists w. split; [apply grows_refl|by left]. Qed.

Lemma touched_update r data : touched (r, (Appointment.update id data w).2).
Proof. exists w. split; [apply grows_refl|right; by exists data]. Qed.

Lemma sendOTP_touched : touched (Appointment.sendOTP cfg env id userId w).
Proof.
  unfold Appointment.sendOTP, bind, ret, Appointment.findUnique. cbn [fst snd].
  destruct (appointments w !! id) as [a|]; [|apply touched_stay].
  case_bool_decide; [apply touched_stay|].
  case_bool_decide; [apply touched_stay|].
  cbv zeta. destruct (_ || _); [apply touched_stay|].
  destruct (footprint_sendVisitOTP cfg env (Appointment.recipient a)
              (Otp.generateOTP env) (u_name (a_engineer a)) w)
    as (rows & calls & F%footprint_grows & _).
  destruct (Sms.sendVisitOTP _ _ _ _ _ _) as [[|] w1]; cbn [fst snd negb] in *.
  - exists w1. split; [done|]. right. by eexists.
  - exists w1. split; [done|]. by left.
Qed.

Lemma resendOTP_touched : touched (Appointment.resendOTP cfg env id userId w).
Proof.
  unfold Appointment.resendOTP, bind, ret, Appointment.findUnique,
    Appointment.recent_failed_log. cbn [fst snd].
  destruct (appointments w !! id) as [a|]; [|apply touched_stay].
  case_bool_decide; [apply touched_stay|].
  case_bool_decide; [apply touched_stay|].
  destruct (cooldown_remaining _ _); [apply touched_stay|].
  cbv zeta. destruct (_ || _); [apply touched_stay|].
  destruct (footprint_sendVisitOTP cfg env (Appointment.recipient a)
              (Otp.generateOTP env) (u_name (a_engineer a)) w)
    as (rows & calls & F%footprint_grows & _).
  destruct (Sms.sendVisitOTP _ _ _ _ _ _) as [[|] w1]; cbn [fst snd negb] in *.
  - exists w1. split; [done|]. right. by eexists.
  - exists w1. split; [done|]. by left.
Qed.

Lemma verifyOTP_touched otp_ : touched (Appointment.verifyOTP env id otp_ userId w).
Proof.
  unfold Appointment.verifyOTP, bind, ret, Appointment.findUnique.
  destruct (Js.falsy_opt otp_); [apply touched_stay|]. cbn [fst snd].
  destruct (appointments w !! id) as [a|]; [|apply touched_stay].
  case_bool_decide; [apply touched_stay|].
  destruct (a_otpExpiresAt a); [|apply touched_stay].
  destruct (Js.falsy_opt _); [apply touched_stay|].
  destruct (Otp.isOTPExpired _ _); [apply touched_stay|].
  case_bool_decide; [apply touched_stay|].
  destruct (_ && _); apply touched_update.
Qed.

Lemma verifyOTPWithWidget_touched accessToken :
  touched (Appointment.verifyOTPWithWidget cfg env id accessToken userId w).
Proof.
  unfold Appointment.verifyOTPWithWidget, bind, ret, Appointment.findUnique.
  destruct (Js.falsy_opt accessToken); [apply touched_stay|].
  destruct (verifyMSG91OTPToken _ _); [|apply touched_stay].
  case_bool_decide; [apply touched_stay|].
  pose proof (axios_post_grows env
                (VerifyAccessToken (msg91_authKey cfg) (Js.or_str accessToken "")) w) as G.
  destruct (Sms.axios_post _ _ _) as [reply w1]; cbn [fst snd] in *.
  destruct reply as [d|e]; [|exists w1; split; [done|by left]].
  case_bool_decide; [exists w1; split; [done|by left]|].
  destruct (appointments w1 !! id) as [a|]; [|exists w1; split; [done|by left]].
  case_bool_decide; [exists w1; split; [done|by left]|].
  exists w1. split; [done|]. right. by eexists.
Qed.

Lemma submitFeedback_touched feedback_ :
  touched (Appointment.submitFeedback id feedback_ userId w).
Proof.
  unfold Appointment.submitFeedback, bind, ret, Appointment.findUnique.
  destruct (_ || _); [apply touched_stay|]. cbn [fst snd].
  destruct (appointments w !! id) as [a|]; [|apply touched_stay].
  case_bool_decide; [apply touched_stay|].
  case_bool_decide; [apply touched_stay|].
  apply touched_update.
Qed.

Lemma run_touched op : touched (Appointment.run cfg env op id userId w).
Proof.
  destruct op; simpl;
    auto using sendOTP_touched, resendOTP_touched, verifyOTP_touched,
      verifyOTPWithWidget_touched, submitFeedback_touched.
Qed.

End Touch.

(** X8: an operation on the appointment [id] (send, resend, verify,
    widget-verify, feedback) leaves every other appointment as it is,
    creates and deletes no appointment, leaves the worker visits, users,
    clients and settings alone, and only adds to the SMS log and to the
    requests made. *)
Theorem appointment_operation_frame
    (cfg : Config) (env : Env) (op : Appointment.Op) (id : string)
    (userId : option string) (w : World) :
  let out := Appointment.run cfg env op id userId w in
  (∀ id', id' ≠ id → appointments out.2 !! id' = appointments w !! id')
  ∧ dom (appointments out.2) = dom (appointments w)
  ∧ workerVisits out.2 = workerVisits w
  ∧ users out.2 = users w ∧ clients out.2 = clients w ∧ settings out.2 = settings w
  ∧ (∃ rows, smsLogs out.2 = rows ++ smsLogs w)
  ∧ (∃ calls, http out.2 = calls ++ http w).
Proof.
  intros out.
  destruct (run_touched cfg env id userId w op)
    as (w1 & ((Hu & Hc & Ha & Hv & Hs) & Hlog & Hhttp) & [E|[data E]]);
    fold out in E; rewrite E.
  - rewrite Ha. by split_and!.
  - unfold Appointment.update, set_appointments. cbn [fst snd appointments
      workerVisits users clients settings smsLogs http]. rewrite Ha.
    split_and!; try done.
    + intros id' Hne. by rewrite lookup_alter_ne.
    + by rewrite dom_alter_L.
Qed.

Lemma widget_non_owner
    (cfg : Config) (env : Env) (id : string) (accessToken userId : option string)
    (w : World) (a : Appointment) :
  appointments w !! id = Some a →
  Some (a_engineerId a) ≠ userId →
  appointments (Appointment.verifyOTPWithWidget cfg env id accessToken userId w).2
  = appointments w
  ∧ smsLogs (Appointment.verifyOTPWithWidget cfg env id accessToken userId w).2
    = smsLogs w.
Proof.
  intros found Hne.
  assert (Hcases : (∃ p, verifyMSG91OTPToken env (Js.or_str accessToken "") = Some p
                         ∧ t_appointmentId p = Some id)
                   ∨ (∀ p, verifyMSG91OTPToken env (Js.or_str accessToken "") = Some p
                           → t_appointmentId p ≠ Some id)).
  { destruct (verifyMSG91OTPToken env _) as [p|]; [|by right].
    destruct (decide (t_appointmentId p = Some id)); [left; by exists p|].
    right. by intros p' [= <-]. }
  destruct Hcases as [(p & Hdec & Hid)|Hbad].
  - destruct (Js.falsy_opt accessToken) eqn:Hfalsy.
    { unfold Appointment.verifyOTPWithWidget. by rewrite Hfalsy. }
    destruct accessToken as [token|]; [|done]. simpl in Hdec, Hfalsy.
    rewrite Hfalsy in Hdec.
    assert (Htoken : token ≠ "") by (intros ->; done).
    rewrite (verifyOTPWithWidget_checked cfg env id token userId p w) by done.
    cbv zeta. unfold Sms.axios_post. cbn [fst snd].
    destruct (provider env _) as [d|e]; [|done].
    case_bool_decide; [done|]. rewrite found.
    by rewrite bool_decide_eq_true_2 by done.
  - destruct (verifyOTPWithWidget_refused cfg env id accessToken userId w) as (msg & ->);
      done.
Qed.

(** X9: a caller who is not the engineer of the appointment changes no
    appointment and causes no SMS, whatever the operation; send and resend
    answer 403.  Only the widget verification can still issue a request to
    MSG91 for such a caller, since it asks MSG91 before it loads the
    appointment. *)
Theorem non_owner_cannot_change_appointment
    (cfg : Config) (env : Env) (op : Appointment.Op) (id : string)
    (userId : option string) (w : World) (a : Appointment) :
  appointments w !! id = Some a →
  userId ≠ Some (a_engineerId a) →
  let out := Appointment.run cfg env op id userId w in
  appointments out.2 = appointments w
  ∧ smsLogs out.2 = smsLogs w
  ∧ ((∀ x, op ≠ Appointment.WidgetVerify x) → out.2 = w)
  ∧ (op = Appointment.Send ∨ op = Appointment.Resend →
     out.1 = json_error 403 "Access denied").
Proof.
  intros found Hother out. subst out.
  assert (Hne : Some (a_engineerId a) ≠ userId) by congruence.
  destruct op as [| |otp_|accessToken|feedback_]; simpl.
  - unfold Appointment.sendOTP, bind, ret, Appointment.findUnique. cbn [fst snd].
    rewrite found. by rewrite bool_decide_eq_true_2 by done.
  - unfold Appointment.resendOTP, bind, ret, Appointment.findUnique. cbn [fst snd].
    rewrite found. by rewrite bool_decide_eq_true_2 by done.
  - unfold Appointment.verifyOTP, bind, ret, Appointment.findUnique.
    destruct (Js.falsy_opt otp_); [by split_and!; [..|intros [|]]|].
    cbn [fst snd]. rewrite found.
    rewrite bool_decide_eq_true_2 by done. by split_and!; [..|intros [|]].
  - destruct (widget_non_owner cfg env id accessToken userId w a found Hne) as [Ha Hl].
    split_and!; [done|done| |by intros [|]].
    intros Hx. by destruct (Hx accessToken).
  - unfold Appointment.submitFeedback, bind, ret, Appointment.findUnique.
    destruct (_ || _); [by split_and!; [..|intros [|]]|].
    cbn [fst snd]. rewrite found.
    rewrite bool_decide_eq_true_2 by done. by split_and!; [..|intros [|]].
Qed.

Lemma non_owner_cannot_change_appointment_witness :
  Appointment.run Fixture.cfg (Fixture.env 5000000 Fixture.accepted)
    Appointment.Send "apt-1" (Some "eng-2")
    (Fixture.world (Fixture.appointment SCHEDULED 0) (Fixture.visit VISIT_PENDING))
  = (json_error 403 "Access denied",
     Fixture.world (Fixture.appointment SCHEDULED 0) (Fixture.visit VISIT_PENDING)).
Proof.
  destruct (non_owner_cannot_change_appointment
              Fixture.cfg (Fixture.env 5000000 Fixture.accepted)
              Appointment.Send "apt-1" (Some "eng-2")
              (Fixture.world (Fixture.appointment SCHEDULED 0)
                             (Fixture.visit VISIT_PENDING))
              (Fixture.appointment SCHEDULED 0))
    as (_ & _ & Hworld & Hreply).
  - reflexivity.
  - discriminate.
  - apply injective_projections.
    + apply Hreply. by left.
    + apply Hworld. discriminate.
Defined.

(** ** Appointments: how the operations compose *)

Section AfterSend.
Context (cfg : Config) (env : Env) (id engineer : string) (w : World) (a : Appointment).
Hypothesis found : appointments w !! id = Some a.
Hypothesis owner : a_engineerId a = engineer.
Hypothesis open : a_status a ≠ COMPLETED.
Hypothesis phone :
  Js.falsy (Appointment.recipient a) || Js.blank (Appointment.recipient a) = false.
Hypothesis delivered :
  (Sms.sendVisitOTP cfg env (Appointment.recipient a) (fresh_otp env)
     (u_name (a_engineer a)) w).1 = true.

(** The row a delivered send leaves behind. *)
Lemma sendOTP_delivered_row :
  appointments (Appointment.sendOTP cfg env id (Some engineer) w).2 !! id
  = Some (Appointment.patch
            (Appointment.issue env (fresh_otp env) (Otp.getOTPExpiry cfg env)) a).
Proof using found owner open phone delivered.
  rewrite (sendOTP_checked cfg env id engineer w a) by done.
  cbv zeta. rewrite delivered. cbn [fst snd].
  rewrite (appointment_update_after w _ id _ a); [|apply sendVisitOTP_tables|done].
  by rewrite lookup_insert_eq.
Qed.

End AfterSend.

(** X10: a delivered send followed by a verification with the issued code,
    made no later than the expiry that the send stored (what
    [getOTPExpiry] computed on the server's local clock), is answered 200
    and verifies the appointment, with one attempt on the counter: the send
    has reset whatever count, also a lockout, was there before. *)
Theorem send_then_verify
    (cfg : Config) (env1 env2 : Env) (id engineer : string) (w : World)
    (a : Appointment) :
  appointments w !! id = Some a →
  a_engineerId a = engineer →
  a_status a ≠ COMPLETED →
  Js.falsy (Appointment.recipient a) || Js.blank (Appointment.recipient a) = false →
  (Sms.sendVisitOTP cfg env1 (Appointment.recipient a) (fresh_otp env1)
     (u_name (a_engineer a)) w).1 = true →
  fresh_otp env1 ≠ "" →
  now env2 ≤ Otp.getOTPExpiry cfg env1 →
  let sent := Appointment.sendOTP cfg env1 id (Some engineer) w in
  let out := Appointment.verifyOTP env2 id (Some (fresh_otp env1)) (Some engineer) sent.2 in
  a_otpExpiresAt <$> appointments sent.2 !! id = Some (Some (Otp.getOTPExpiry cfg env1))
  ∧ out.1 = {| res_status := 200;
               res_body := JObj [("message", JStr "OTP verified successfully")] |}
  ∧ ∃ a', appointments out.2 !! id = Some a'
      ∧ a_status a' = VERIFIED
      ∧ a_verifiedAt a' = Some (now env2)
      ∧ a_otpAttempts a' = 1
      ∧ a_otp a' = Some (fresh_otp env1).
Proof.
  intros found owner open phone delivered Hcode Hnow sent out.
  pose proof (sendOTP_delivered_row cfg env1 id engineer w a
                found owner open phone delivered) as Hrow.
  fold sent in Hrow. subst out.
  split; [by rewrite Hrow|].
  rewrite (verifyOTP_accepts env2 id engineer (fresh_otp env1)
             (Otp.getOTPExpiry cfg env1) sent.2 _ Hrow);
    [|done|done|done|done|by left|done|simpl; lia].
  cbn [fst snd]. split; [done|].
  rewrite (update_lookup id sent.2 _ Hrow). eexists. split; [reflexivity|].
  by repeat split.
Qed.

Lemma send_then_verify_witness :
  a_status <$>
    appointments
      (Appointment.verifyOTP (Fixture.env 5600000 Fixture.accepted) "apt-1"
         (Some "482913") (Some "eng-1")
         (Appointment.sendOTP Fixture.cfg (Fixture.env 5000000 Fixture.accepted)
            "apt-1" (Some "eng-1")
            (Fixture.world (Fixture.appointment OTP_SENT 3)
                           (Fixture.visit VISIT_PENDING))).2).2 !! "apt-1"
  = Some VERIFIED.
Proof.
  destruct (send_then_verify Fixture.cfg
              (Fixture.env 5000000 Fixture.accepted)
              (Fixture.env 5600000 Fixture.accepted) "apt-1" "eng-1"
              (Fixture.world (Fixture.appointment OTP_SENT 3)
                             (Fixture.visit VISIT_PENDING))
              (Fixture.appointment OTP_SENT 3))
    as (_ & _ & a' & Hrow & Hstatus & _).
  - reflexivity.
  - reflexivity.
  - discriminate.
  - reflexivity.
  - reflexivity.
  - discriminate.
  - vm_compute. discriminate.
  - transitivity (a_status <$> Some a'); [f_equal; exact Hrow|].
    simpl. by rewrite Hstatus.
Defined.

(** X11: after a delivered send, a resend by the owner for which the clock
    reads less than 60 seconds past the send time the send stored (the
    clock after the gateway call) is answered 429, with
    [retryAfter = ceil((60000 - elapsed) / 1000)], between 1 and 60, in the
    body and in the message, and changes nothing. *)
Theorem send_then_resend_too_soon
    (cfg : Config) (env1 env2 : Env) (id engineer : string) (w : World)
    (a : Appointment) :
  appointments w !! id = Some a →
  a_engineerId a = engineer →
  a_status a ≠ COMPLETED →
  Js.falsy (Appointment.recipient a) || Js.blank (Appointment.recipient a) = false →
  (Sms.sendVisitOTP cfg env1 (Appointment.recipient a) (fresh_otp env1)
     (u_name (a_engineer a)) w).1 = true →
  later env1 ≤ now env2 < later env1 + 60 * 1000 →
  let sent := Appointment.sendOTP cfg env1 id (Some engineer) w in
  let retryAfter := Js.ceil_div (60 * 1000 - (now env2 - later env1)) 1000 in
  Appointment.resendOTP cfg env2 id (Some engineer) sent.2
  = ({| res_status := 429;
        res_body := JObj
          [("error", JStr ("Please wait " +:+ pretty retryAfter
                           +:+ " seconds before requesting a new OTP"));
           ("retryAfter", JNum retryAfter)] |},
     sent.2)
  ∧ 1 ≤ retryAfter ≤ 60.
Proof.
  intros found owner open phone delivered Hnow sent retryAfter.
  pose proof (sendOTP_delivered_row cfg env1 id engineer w a
                found owner open phone delivered) as Hrow.
  fold sent in Hrow.
  destruct (retry_after_bounds (now env2 - later env1)) as [Hpos Hmax];
    [unfold cooldownPeriod; lia|].
  split; [|split; [unfold cooldownPeriod in Hpos; fold retryAfter in Hpos; lia
                  |apply Hmax; lia]].
  unfold Appointment.resendOTP, bind, ret, Appointment.findUnique. cbn [fst snd].
  rewrite Hrow.
  set (a1 := Appointment.patch _ a).
  assert (E1 : a_engineerId a1 = engineer) by exact owner.
  assert (E2 : a_status a1 = OTP_SENT) by reflexivity.
  assert (E3 : a_otpSentAt a1 = Some (later env1)) by reflexivity.
  cbv iota beta. rewrite E1, E2, E3.
  rewrite bool_decide_eq_false_2 by (intros H; by apply H).
  rewrite bool_decide_eq_false_2 by done.
  unfold cooldown_remaining. cbv zeta.
  by rewrite bool_decide_eq_true_2 by (unfold cooldownPeriod; lia).
Qed.

Lemma send_then_resend_too_soon_witness :
  (Appointment.resendOTP Fixture.cfg (Fixture.env 5020000 Fixture.accepted) "apt-1"
     (Some "eng-1")
     (Appointment.sendOTP Fixture.cfg (Fixture.env 5000000 Fixture.accepted)
        "apt-1" (Some "eng-1")
        (Fixture.world (Fixture.appointment SCHEDULED 0)
                       (Fixture.visit VISIT_PENDING))).2).1
  = {| res_status := 429;
       res_body := JObj
         [("error", JStr "Please wait 41 seconds before requesting a new OTP");
          ("retryAfter", JNum 41)] |}.
Proof.
  destruct (send_then_resend_too_soon Fixture.cfg
              (Fixture.env 5000000 Fixture.accepted)
              (Fixture.env 5020000 Fixture.accepted) "apt-1" "eng-1"
              (Fixture.world (Fixture.appointment SCHEDULED 0)
                             (Fixture.visit VISIT_PENDING))
              (Fixture.appointment SCHEDULED 0))
    as (E & _).
  - reflexivity.
  - reflexivity.
  - discriminate.
  - reflexivity.
  - reflexivity.
  - simpl. lia.
  - by rewrite E.
Defined.

(** ** Appointments: the attempt counter *)

Lemma truthy_some (x : option string) :
  Js.falsy_opt x = false → ∃ s, x = Some s ∧ s ≠ "".
Proof.
  destruct x as [s|]; [|done]. simpl. unfold Js.falsy.
  intros H%bool_decide_eq_false. by exists s.
Qed.

Lemma verifyOTP_guarded
    (env : Env) (id : string) (otp_ userId : option string) (w : World)
    (a : Appointment) :
  appointments w !! id = Some a →
  let out := Appointment.verifyOTP env id otp_ userId w in
  out.2 = w
  ∨ (∃ submitted code expiresAt,
       otp_ = Some submitted ∧ submitted ≠ ""
       ∧ userId = Some (a_engineerId a)
       ∧ a_otp a = Some code ∧ code ≠ ""
       ∧ a_otpExpiresAt a = Some expiresAt ∧ now env ≤ expiresAt
       ∧ a_otpAttempts a < 3
       ∧ ∃ a', appointments out.2 !! id = Some a'
           ∧ a_otpAttempts a' = a_otpAttempts a + 1
           ∧ (a_status a' = a_status a ∨ a_status a' = VERIFIED)).
Proof.
  intros found out. subst out.
  unfold Appointment.verifyOTP, bind, ret, Appointment.findUnique.
  destruct (Js.falsy_opt otp_) eqn:Hotp; [by left|].
  apply truthy_some in Hotp as (submitted & -> & Hsub).
  cbn [fst snd]. rewrite found.
  case_bool_decide as Howner; [by left|].
  destruct (a_otpExpiresAt a) as [expiresAt|] eqn:Hexp; [|by left].
  destruct (Js.falsy_opt (a_otp a)) eqn:Hstored; [by left|].
  apply truthy_some in Hstored as (code & Hcode & Hne).
  unfold Otp.isOTPExpired.
  case_bool_decide as Hexpired; [by left|].
  case_bool_decide as Hatt; [by left|].
  right. exists submitted, code, expiresAt.
  split_and!; try done; try lia.
  destruct (_ && _); cbn [fst snd];
    rewrite (update_lookup id w a found); eexists;
    (split; [reflexivity|]); (split; [reflexivity|]); [by left|by right].
Qed.



(** X13: the attempt counter stays between 0 and 3 under every operation
    of the engineer (send, resend, verify, widget-verify, feedback). *)
Theorem attempts_stay_within_limit
    (cfg : Config) (env : Env) (op : Appointment.Op) (id : string)
    (userId : option string) (w : World) (a : Appointment) :
  appointments w !! id = Some a →
  0 ≤ a_otpAttempts a ≤ 3 →
  ∃ a', appointments (Appointment.run cfg env op id userId w).2 !! id = Some a'
    ∧ 0 ≤ a_otpAttempts a' ≤ 3.
Proof.
  intros found Hrange.
  destruct op as [| |otp_|accessToken|feedback_]; simpl.
  - destruct (sendOTP_outcome cfg env id userId w a found) as [E|[_ E]];
      unfold Appointment.row_after in E; rewrite E; eexists; (split; [done|]);
      simpl; lia.
  - destruct (resendOTP_outcome cfg env id userId w a found) as [E|[_ E]];
      unfold Appointment.row_after in E; rewrite E; eexists; (split; [done|]);
      simpl; lia.
  - destruct (verifyOTP_guarded env id otp_ userId w a found)
      as [E|(s & c & e & _ & _ & _ & _ & _ & _ & _ & Hatt & a' & Hrow & Hcount & _)].
    + rewrite E. by exists a.
    + exists a'. split; [done|]. lia.
  - destruct (verifyOTPWithWidget_outcome cfg env id userId w a found accessToken)
      as [E|E];
      unfold Appointment.row_after in E; rewrite E; eexists; (split; [done|]);
      simpl; lia.
  - destruct (submitFeedback_outcome id userId w a found feedback_) as [E|[_ E]];
      unfold Appointment.row_after in E; rewrite E; eexists; (split; [done|]);
      simpl; lia.
Qed.

Lemma attempts_stay_within_limit_witness :
  ∃ a', appointments
          (Appointment.run Fixture.cfg (Fixture.env 1500000 Fixture.accepted)
             (Appointment.Verify (Some "999999")) "apt-1" (Some "eng-1")
             (Fixture.world (Fixture.appointment OTP_SENT 3)
                            (Fixture.visit VISIT_PENDING))).2 !! "apt-1" = Some a'
        ∧ 0 ≤ a_otpAttempts a' ≤ 3.
Proof.
  apply (attempts_stay_within_limit Fixture.cfg (Fixture.env 1500000 Fixture.accepted)
           (Appointment.Verify (Some "999999")) "apt-1" (Some "eng-1")
           (Fixture.world (Fixture.appointment OTP_SENT 3) (Fixture.visit VISIT_PENDING))
           (Fixture.appointment OTP_SENT 3)).
  - reflexivity.
  - simpl. lia.
Defined.

(** ** Appointments: completion and cancellation *)




(** The length is that of the string in UTF-16 code units, not in bytes:
    five letters of two bytes each, between a no-break space and an
    ideographic space, are five units after trimming, and the feedback is
    turned down. *)
Example feedback_of_five_letters :
  String.length "ééééé" = 10%nat
  ∧ Js.length (Js.trim " ééééé　") = 5%nat
  ∧ Appointment.submitFeedback "apt-1" (Some " ééééé　") (Some "eng-1")
      (Fixture.world (Fixture.appointment VERIFIED 1) (Fixture.visit VISIT_PENDING))
    = ({| res_status := 400;
          res_body := JObj [("error", JStr "Feedback must be at least 10 characters")] |},
       Fixture.world (Fixture.appointment VERIFIED 1) (Fixture.visit VISIT_PENDING)).
Proof. split_and!; reflexivity. Qed.


Lemma alter_twice {A} (f : A → A) (i : string) (m : gmap string A) :
  (∀ x, f (f x) = f x) → alter f i (alter f i m) = alter f i m.
Proof.
  intros Hf. apply map_eq. intros j. destruct (decide (i = j)) as [<-|Hne].
  - rewrite !lookup_alter_eq. destruct (m !! i); simpl; [by rewrite Hf|done].
  - by rewrite !lookup_alter_ne.
Qed.

(** X15: cancelling changes the status and nothing else.  A COMPLETED
    appointment is left as it is (400); any other becomes CANCELLED (200)
    with its OTP columns, verification time and feedback kept; no SMS is
    sent, and cancelling twice is cancelling once. *)
Theorem cancelAppointment_effect (id : string) (w : World) (a : Appointment) :
  appointments w !! id = Some a →
  let out := Appointment.cancelAppointment id w in
  (∃ a', appointments out.2 = <[id := a']> (appointments w)
     ∧ (a_status a = COMPLETED → a' = a ∧ res_status out.1 = 400)
     ∧ (a_status a ≠ COMPLETED → a_status a' = CANCELLED ∧ res_status out.1 = 200)
     ∧ a_otp a' = a_otp a ∧ a_otpExpiresAt a' = a_otpExpiresAt a
     ∧ a_otpSentAt a' = a_otpSentAt a ∧ a_otpAttempts a' = a_otpAttempts a
     ∧ a_verifiedAt a' = a_verifiedAt a ∧ a_feedback a' = a_feedback a
     ∧ a_otpMobileNumber a' = a_otpMobileNumber a
     ∧ a_engineerId a' = a_engineerId a)
  ∧ smsLogs out.2 = smsLogs w ∧ http out.2 = http w
  ∧ workerVisits out.2 = workerVisits w
  ∧ (Appointment.cancelAppointment id out.2).2 = out.2.
Proof.
  intros found out.
  assert (Hcancel : ∀ w0 a0, appointments w0 !! id = Some a0 →
            Appointment.cancelAppointment id w0 =
              if bool_decide (a_status a0 = COMPLETED)
              then (json_error 400 "Cannot cancel completed appointment", w0)
              else (json_ok [("message", JStr "Appointment cancelled successfully")],
                    (Appointment.update id [Appointment.status CANCELLED] w0).2)).
  { intros w0 a0 H0.
    unfold Appointment.cancelAppointment, bind, ret, Appointment.findUnique.
    cbn [fst snd]. rewrite H0. by case_bool_decide. }
  subst out. rewrite (Hcancel w a found).
  case_bool_decide as Hst; cbn [fst snd].
  - split; [|split_and!; try done].
    + exists a. rewrite insert_id by done. by split_and!.
    + rewrite (Hcancel w a found). by rewrite bool_decide_eq_true_2.
  - split; [|split_and!; try done].
    + eexists. split.
      { apply (appointment_update_after w w); [apply same_tables_refl|exact found]. }
      by split_and!.
    + rewrite (Hcancel _ _ (update_lookup id w a found _)).
      rewrite bool_decide_eq_false_2 by done. cbn [snd].
      unfold Appointment.update, set_appointments. cbn [fst snd appointments users
        clients workerVisits settings smsLogs http].
      by rewrite alter_twice.
Qed.

Lemma cancelAppointment_effect_witness :
  a_status <$>
    appointments
      (Appointment.cancelAppointment "apt-1"
         (Fixture.world (Fixture.appointment VERIFIED 1)
                        (Fixture.visit VISIT_PENDING))).2 !! "apt-1"
  = Some CANCELLED.
Proof.
  destruct (cancelAppointment_effect "apt-1"
              (Fixture.world (Fixture.appointment VERIFIED 1)
                             (Fixture.visit VISIT_PENDING))
              (Fixture.appointment VERIFIED 1) eq_refl)
    as ((a' & Htable & _ & Hcancel & _) & _).
  rewrite Htable, lookup_insert_eq. simpl. f_equal. apply Hcancel. discriminate.
Defined.

(** ** Worker visits: submitting the count *)

Lemma visit_update_lookup (id : string) (w : World) (v : WorkerVisit) data :
  workerVisits w !! id = Some v →
  workerVisits (WorkerVisit.update id data w).2 !! id = Some (WorkerVisit.patch data v).
Proof.
  intros found. unfold WorkerVisit.update, set_workerVisits. simpl.
  by rewrite lookup_alter_eq, found.
Qed.




(** Closes the cases in which a handler turns the request down at once. *)
Ltac refused := left; split; [reflexivity | vm_compute; discriminate].





(** A count one past the largest 32-bit integer passes every guard, but
    the column cannot hold it: the call is answered 500 and the visit is
    left as it was. *)
Example submitWorkerCount_count_too_large :
  WorkerVisit.submitWorkerCount (Fixture.env 1500000 Fixture.accepted) "visit-1"
    (Some "654321") (Some 2147483648) None (Some "eng-1")
    (Fixture.world (Fixture.appointment OTP_SENT 0) (Fixture.visit VISIT_PENDING))
  = ({| res_status := 500;
        res_body := JObj [("error", JStr "Failed to submit worker count")] |},
     Fixture.world (Fixture.appointment OTP_SENT 0) (Fixture.visit VISIT_PENDING)).
Proof. reflexivity. Qed.



(** ** Worker visits: what the handlers leave alone *)

Lemma grows_trans w w1 w2 :
  Ledger.grows w w1 → Ledger.grows w1 w2 → Ledger.grows w w2.
Proof.
  intros (T1 & [r1 L1] & [c1 H1]) (T2 & [r2 L2] & [c2 H2]).
  split; [by eapply same_tables_trans|]. split.
  - exists (r2 ++ r1). by rewrite L2, L1, app_assoc.
  - exists (c2 ++ c1). by rewrite H2, H1, app_assoc.
Qed.

Lemma visit_patch_identity (data : list WorkerVisit.Field) (v : WorkerVisit) :
  v_engineerId (WorkerVisit.patch data v) = v_engineerId v
  ∧ v_engineer (WorkerVisit.patch data v) = v_engineer v
  ∧ v_client (WorkerVisit.patch data v) = v_client v
  ∧ v_visitDate (WorkerVisit.patch data v) = v_visitDate v
  ∧ v_siteAddress (WorkerVisit.patch data v) = v_siteAddress v.
Proof.
  unfold WorkerVisit.patch. revert v.
  induction data as [|f data IH]; intros v; [done|].
  simpl. destruct (IH (WorkerVisit.assign v f)) as (-> & -> & -> & -> & ->). done.
Qed.

Lemma visit_patch_status (data : list WorkerVisit.Field) (v : WorkerVisit) :
  Visits.never_completes data → v_status v ≠ VISIT_COMPLETED →
  v_status (WorkerVisit.patch data v) ≠ VISIT_COMPLETED.
Proof.
  unfold WorkerVisit.patch, Visits.never_completes. intros Hdata. revert v.
  induction Hdata as [|f data Hf _ IH]; intros v Hv; [done|].
  simpl. apply IH. destruct f; simpl; try done. congruence.
Qed.

Lemma verified_never_completes (env : Env) (workerCount_ : option Z)
    (remarks_ : option string) :
  Visits.never_completes
    ([WorkerVisit.workerCount workerCount_] ++ WorkerVisit.remarks_data remarks_ ++
     [WorkerVisit.status VISIT_OTP_VERIFIED; WorkerVisit.verifiedAt (Some (now env))]).
Proof. destruct remarks_; repeat constructor; discriminate. Qed.

Section VisitTouch.
Context (cfg : Config) (env : Env) (id : string) (userId : option string) (w : World).

Local Abbreviation touched out := (Visits.touched w id userId out).

Lemma visit_stay r : touched (r, w).
Proof. exists w. split; [apply grows_refl|by left]. Qed.

Lemma visit_verified_touched w1 v workerCount_ remarks_ :
  Ledger.grows w w1 →
  workerVisits w !! id = Some v →
  Some (v_engineerId v) = userId →
  v_status v ≠ VISIT_COMPLETED →
  touched (WorkerVisit.verified env id workerCount_ remarks_ w1).
Proof.
  intros G found owner open. exists w1. split; [done|].
  unfold WorkerVisit.verified. destruct (negb _); [by left|]. right.
  eexists v, _. split_and!; [done|done|done|apply verified_never_completes|done].
Qed.

Lemma visit_resendOTP_touched : touched (WorkerVisit.resendOTP cfg env id userId w).
Proof.
  unfold WorkerVisit.resendOTP, bind, ret, WorkerVisit.findUnique,
    WorkerVisit.admin_phone. cbn [fst snd].
  destruct (workerVisits w !! id) as [v|] eqn:found; [|apply visit_stay].
  case_bool_decide as owner; [apply visit_stay|].
  case_bool_decide as open; [apply visit_stay|].
  destruct (cooldown_remaining _ _); [apply visit_stay|].
  cbv zeta.
  match goal with
  | |- context [Sms.sendWorkerCountOTPToClient _ _ ?p ?o ?s ?d w] =>
      destruct (footprint_sendWorkerCountOTPToClient cfg env p o s d w)
        as (rows & calls & G1%footprint_grows & _);
      destruct (Sms.sendWorkerCountOTPToClient cfg env p o s d w) as [sent1 w1]
  end.
  cbn [fst snd] in *.
  assert (G2 : ∃ sent2 w2,
             (if negb (Js.falsy (Js.or_str (Js.or_opt (settings w !! "admin_phone")
                                             (env_ADMIN_PHONE cfg)) ""))
              then Sms.sendWorkerCountOTPToAdmin cfg env
                     (Js.or_str (Js.or_opt (settings w !! "admin_phone")
                                   (env_ADMIN_PHONE cfg)) "")
                     (Otp.generateOTP env) (u_name (v_engineer v))
                     (c_name (v_client v)) (format_date env (v_visitDate v))
              else λ w0, (false, w0)) w1 = (sent2, w2)
             ∧ Ledger.grows w w2).
  { destruct (negb _).
    - unfold Sms.sendWorkerCountOTPToAdmin. cbv zeta.
      match goal with
      | |- context [Sms.sendSMS _ _ ?p ?m None w1] =>
          destruct (footprint_sendSMS cfg env p m None w1)
            as (row & calls2 & F & _);
          destruct (Sms.sendSMS cfg env p m None w1) as [sent2 w2]
      end.
      exists sent2, w2. split; [done|].
      eapply grows_trans; [exact G1|]. by apply footprint_grows in F.
    - by exists false, w1. }
  destruct G2 as (sent2 & w2 & E & G2). rewrite E. cbn [fst snd].
  destruct sent1; cbn [negb].
  - exists w2. split; [done|]. right. eexists v, _.
    split_and!; [done|done|done| |reflexivity].
    repeat constructor; discriminate.
  - exists w2. split; [done|]. by left.
Qed.

Lemma visit_submitWorkerCount_touched otp_ workerCount_ remarks_ :
  touched (WorkerVisit.submitWorkerCount env id otp_ workerCount_ remarks_ userId w).
Proof.
  unfold WorkerVisit.submitWorkerCount, bind, ret, WorkerVisit.findUnique.
  destruct (_ || _); [apply visit_stay|].
  case_bool_decide; [apply visit_stay|]. cbn [fst snd].
  destruct (workerVisits w !! id) as [v|] eqn:found; [|apply visit_stay].
  case_bool_decide as owner; [apply visit_stay|].
  case_bool_decide as open; [apply visit_stay|].
  destruct (from_option (Otp.isOTPExpired env) true (v_otpExpiresAt v));
    [apply visit_stay|].
  destruct (_ && _); [apply visit_stay|].
  apply (visit_verified_touched w v); [apply grows_refl|done|done|done].
Qed.

Lemma visit_widget_touched accessToken workerCount_ remarks_ :
  touched (WorkerVisit.submitWorkerCountWithWidget cfg env id accessToken
             workerCount_ remarks_ userId w).
Proof.
  unfold WorkerVisit.submitWorkerCountWithWidget, bind, ret, WorkerVisit.findUnique.
  destruct (_ || _); [apply visit_stay|].
  case_bool_decide; [apply visit_stay|]. cbv zeta.
  destruct (verifyMSG91OTPToken env _) as [p|]; [|apply visit_stay].
  case_bool_decide; [apply visit_stay|].
  match goal with
  | |- context [Sms.axios_post env ?c w] =>
      pose proof (axios_post_grows env c w) as G;
      pose proof (axios_post_tables env c w) as (_ & _ & _ & Hv & _);
      destruct (Sms.axios_post env c w) as [reply w1]
  end.
  cbn [fst snd] in *.
  destruct reply as [d|e]; [|exists w1; split; [done|by left]].
  case_bool_decide; [exists w1; split; [done|by left]|].
  rewrite Hv.
  destruct (workerVisits w !! id) as [v|] eqn:found; [|exists w1; split; [done|by left]].
  case_bool_decide as owner; [exists w1; split; [done|by left]|].
  case_bool_decide as open; [exists w1; split; [done|by left]|].
  by apply (visit_verified_touched w1 v).
Qed.

Lemma visit_run_touched op : touched (Visits.run cfg env op id userId w).
Proof.
  destruct op; simpl;
    auto using visit_resendOTP_touched, visit_submitWorkerCount_touched,
      visit_widget_touched.
Qed.

End VisitTouch.

(** X18: an operation on the worker visit [id] (resend, submit the count,
    submit with the widget) leaves every other visit as it is, creates and
    deletes no visit, leaves the appointments, users, clients and settings
    alone, and only adds to the SMS log and to the requests made. *)
Theorem visit_operation_frame
    (cfg : Config) (env : Env) (op : Visits.Op) (id : string)
    (userId : option string) (w : World) :
  let out := Visits.run cfg env op id userId w in
  (∀ id', id' ≠ id → workerVisits out.2 !! id' = workerVisits w !! id')
  ∧ dom (workerVisits out.2) = dom (workerVisits w)
  ∧ appointments out.2 = appointments w
  ∧ users out.2 = users w ∧ clients out.2 = clients w ∧ settings out.2 = settings w
  ∧ (∃ rows, smsLogs out.2 = rows ++ smsLogs w)
  ∧ (∃ calls, http out.2 = calls ++ http w).
Proof.
  intros out.
  destruct (visit_run_touched cfg env id userId w op)
    as (w1 & ((Hu & Hc & Ha & Hv & Hs) & Hlog & Hhttp)
        & [E|(v & data & _ & _ & _ & _ & E)]);
    fold out in E; rewrite E.
  - rewrite Hv. by split_and!.
  - unfold WorkerVisit.update, set_workerVisits. cbn [fst snd appointments
      workerVisits users clients settings smsLogs http]. rewrite Hv.
    split_and!; try done.
    + intros id' Hne. by rewrite lookup_alter_ne.
    + by rewrite dom_alter_L.
Qed.

(** X19: whatever operation is run on a stored worker visit, the visit
    stays stored with its engineer, client, date and site address.  The row
    is left exactly as it was when the caller is not the engineer of the
    visit or when the visit is COMPLETED, and no operation ever writes the
    status COMPLETED. *)
Theorem visit_operation_row
    (cfg : Config) (env : Env) (op : Visits.Op) (id : string)
    (userId : option string) (w : World) (v : WorkerVisit) :
  workerVisits w !! id = Some v →
  ∃ v', workerVisits (Visits.run cfg env op id userId w).2 !! id = Some v'
    ∧ v_engineerId v' = v_engineerId v ∧ v_engineer v' = v_engineer v
    ∧ v_client v' = v_client v ∧ v_visitDate v' = v_visitDate v
    ∧ v_siteAddress v' = v_siteAddress v
    ∧ (Some (v_engineerId v) ≠ userId → v' = v)
    ∧ (v_status v = VISIT_COMPLETED → v' = v)
    ∧ (v_status v' = VISIT_COMPLETED → v' = v).
Proof.
  intros found.
  destruct (visit_run_touched cfg env id userId w op)
    as (w1 & ((Hu & Hc & Ha & Hv & Hs) & _ & _)
        & [E|(v0 & data & found0 & owner & open & Hdata & E)]); rewrite E.
  - exists v. rewrite Hv. by split_and!.
  - rewrite found in found0. injection found0 as <-.
    exists (WorkerVisit.patch data v).
    destruct (visit_patch_identity data v) as (I1 & I2 & I3 & I4 & I5).
    split_and!; try done.
    + apply visit_update_lookup. by rewrite Hv.
    + intros Hcompleted. by destruct (visit_patch_status data v Hdata open).
Qed.

Lemma visit_operation_row_witness :
  workerVisits
    (Visits.run Fixture.cfg (Fixture.env 1500000 Fixture.accepted)
       (Visits.Submit (Some "654321") (Some 12) None) "visit-1" (Some "eng-2")
       (Fixture.world (Fixture.appointment OTP_SENT 0)
                      (Fixture.visit VISIT_PENDING))).2 !! "visit-1"
  = Some (Fixture.visit VISIT_PENDING).
Proof.
  destruct (visit_operation_row Fixture.cfg (Fixture.env 1500000 Fixture.accepted)
              (Visits.Submit (Some "654321") (Some 12) None) "visit-1" (Some "eng-2")
              (Fixture.world (Fixture.appointment OTP_SENT 0)
                             (Fixture.visit VISIT_PENDING))
              (Fixture.visit VISIT_PENDING) eq_refl)
    as (v' & Hrow & _ & _ & _ & _ & _ & Hother & _).
  rewrite Hrow. f_equal. apply Hother. discriminate.
Defined.

(** ** Worker visits: creating a visit *)

Lemma createVisit_guarded
    (cfg : Config) (env : Env) (clientId engineerId : option string)
    (visitDate : option Z) (siteAddress userId : option string)
    (userRole : option Role) (w : World) :
  let out := WorkerVisit.createVisit cfg env clientId engineerId visitDate
               siteAddress userId userRole w in
  out.2 = w
  ∧ (res_status out.1 = 400 ∨ res_status out.1 = 404 ∨ res_status out.1 = 500)
  ∨ ∃ cid date target client engineer,
      clientId = Some cid ∧ cid ≠ ""
      ∧ visitDate = Some date ∧ date ≠ 0 ∧ stores_date env date = true
      ∧ workerVisits w !! fresh_id env = None
      ∧ target ≠ ""
      ∧ (userRole = Some ADMIN ∧ engineerId = Some target
         ∨ (userRole ≠ Some ADMIN ∨ Js.falsy_opt engineerId = true)
           ∧ userId = Some target)
      ∧ clients w !! cid = Some client ∧ c_isActive client = true
      ∧ users w !! target = Some engineer
      ∧ u_role engineer = ENGINEER ∧ u_isActive engineer = true
      ∧ res_status out.1 = 201
      ∧ workerVisits out.2
        = <[fresh_id env :=
              {| v_engineerId := target; v_engineer := engineer; v_client := client;
                 v_visitDate := date; v_siteAddress := siteAddress;
                 v_otp := Some (Otp.generateOTP env);
                 v_otpExpiresAt := Some (Otp.getWorkerVisitOTPExpiry cfg env);
                 v_otpSentAt := Some (now env);
                 v_status := VISIT_PENDING;
                 v_verifiedAt := None; v_workerCount := None;
                 v_remarks := None |}]> (workerVisits w)
      ∧ appointments out.2 = appointments w ∧ users out.2 = users w
      ∧ clients out.2 = clients w ∧ settings out.2 = settings w.
Proof.
  intros out. subst out. unfold WorkerVisit.createVisit.
  destruct (Js.falsy_opt clientId) eqn:Hcid; [left; split; [done|by left]|].
  destruct clientId as [cid|]; [|done]. simpl in Hcid.
  destruct visitDate as [date|]; [|left; split; [done|by left]].
  unfold WorkerVisit.no_date.
  destruct (decide (date = 0)) as [->|Hdate]; [left; split; [done|by left]|].
  rewrite (bool_decide_eq_false_2 (date = 0)) by done. cbn [orb]. cbv zeta.
  set (target_ := if bool_decide (userRole = Some ADMIN) && negb (Js.falsy_opt engineerId)
                  then engineerId else userId).
  destruct (Js.falsy_opt target_) eqn:Htarget; [left; split; [done|by left]|].
  destruct target_ as [target|] eqn:Etarget; [|done]. simpl in Htarget.
  assert (Hrole : userRole = Some ADMIN ∧ engineerId = Some target
                  ∨ (userRole ≠ Some ADMIN ∨ Js.falsy_opt engineerId = true)
                    ∧ userId = Some target).
  { subst target_. case_bool_decide as Hadmin.
    - destruct (Js.falsy_opt engineerId) eqn:Heng; simpl in Etarget.
      + right. split; [by right|done].
      + by left.
    - right. split; [by left|done]. }
  clear Etarget.
  unfold Js.or_str. rewrite Hcid, Htarget.
  apply bool_decide_eq_false_1 in Hcid, Htarget.
  unfold bind, ret, WorkerVisit.client_findFirst, WorkerVisit.engineer_findFirst,
    WorkerVisit.create, WorkerVisit.admin_phone. cbn [fst snd].
  destruct (clients w !! cid) as [client|] eqn:Hclient;
    [|left; split; [done|right; by left]].
  destruct (c_isActive client) eqn:Hactive; [|left; split; [done|right; by left]].
  destruct (users w !! target) as [engineer|] eqn:Huser;
    [|left; split; [done|right; by left]].
  destruct (bool_decide (u_role engineer = ENGINEER)) eqn:Hengineer;
    [|left; split; [done|right; by left]].
  destruct (u_isActive engineer) eqn:Huactive; [|left; split; [done|right; by left]].
  apply bool_decide_eq_true_1 in Hengineer.
  cbn [andb default from_option id v_visitDate].
  destruct (stores_date env date) eqn:Hstores;
    [|left; split; [done|right; by right]].
  destruct (workerVisits w !! fresh_id env) as [taken|] eqn:Hfresh.
  { rewrite bool_decide_eq_true_2 by done. left. split; [done|right; by right]. }
  rewrite bool_decide_eq_false_2 by (by intros [? ?]).
  right. exists cid, date, target, client, engineer.
  cbn [negb orb]. unfold set_workerVisits. cbn [fst snd].
  match goal with
  | |- context [Sms.sendWorkerCountOTPToClient _ _ ?p ?o ?s ?d ?x] =>
      pose proof (sendWorkerCountOTPToClient_tables cfg env p o s d x) as H1;
      set (r1 := Sms.sendWorkerCountOTPToClient cfg env p o s d x) in *
  end.
  destruct (negb (Js.falsy _)).
  - match goal with
    | |- context [Sms.sendWorkerCountOTPToAdmin _ _ ?p ?o ?e ?c ?d r1.2] =>
        pose proof (sendWorkerCountOTPToAdmin_tables cfg env p o e c d r1.2) as H2;
        set (r2 := Sms.sendWorkerCountOTPToAdmin cfg env p o e c d r1.2) in *
    end.
    destruct (same_tables_trans _ _ _ H1 H2) as (Tu & Tc & Ta & Tv & Ts).
    cbn [fst snd res_status]. rewrite Tu, Tc, Ta, Tv, Ts. by split_and!.
  - destruct H1 as (Tu & Tc & Ta & Tv & Ts).
    cbn [fst snd res_status]. rewrite Tu, Tc, Ta, Tv, Ts. by split_and!.
Qed.

(** X20: [createVisit], for a visit date given as a number of milliseconds,
    either turns the request down with 400, 404 or 500 and leaves the world
    exactly as it was (nothing stored, nothing sent), or answers 201 and
    stores one PENDING visit under the new id.  It stores only when the
    date is not zero and is one the database takes, and the new id is not
    in use.  The visit is assigned to the engineer named in the body only
    when the caller is an ADMIN and named one; for every other caller it is
    assigned to the caller.  The client must be stored and active, the
    assigned user a stored, active ENGINEER.  The new row carries the
    generated code, the expiry [getWorkerVisitOTPExpiry] computed and the
    send time and no count, and the other tables are as before. *)
Theorem createVisit_outcome
    (cfg : Config) (env : Env) (clientId engineerId : option string)
    (visitDate : option Z) (siteAddress userId : option string)
    (userRole : option Role) (w : World) :
  let out := WorkerVisit.createVisit cfg env clientId engineerId visitDate
               siteAddress userId userRole w in
  out.2 = w
  ∧ (res_status out.1 = 400 ∨ res_status out.1 = 404 ∨ res_status out.1 = 500)
  ∨ ∃ cid date target client engineer,
      clientId = Some cid ∧ cid ≠ ""
      ∧ visitDate = Some date ∧ date ≠ 0 ∧ stores_date env date = true
      ∧ workerVisits w !! fresh_id env = None
      ∧ target ≠ ""
      ∧ (userRole = Some ADMIN ∧ engineerId = Some target
         ∨ (userRole ≠ Some ADMIN ∨ Js.falsy_opt engineerId = true)
           ∧ userId = Some target)
      ∧ clients w !! cid = Some client ∧ c_isActive client = true
      ∧ users w !! target = Some engineer
      ∧ u_role engineer = ENGINEER ∧ u_isActive engineer = true
      ∧ res_status out.1 = 201
      ∧ workerVisits out.2
        = <[fresh_id env :=
              {| v_engineerId := target; v_engineer := engineer; v_client := client;
                 v_visitDate := date; v_siteAddress := siteAddress;
                 v_otp := Some (Otp.generateOTP env);
                 v_otpExpiresAt := Some (Otp.getWorkerVisitOTPExpiry cfg env);
                 v_otpSentAt := Some (now env);
                 v_status := VISIT_PENDING;
                 v_verifiedAt := None; v_workerCount := None;
                 v_remarks := None |}]> (workerVisits w)
      ∧ appointments out.2 = appointments w ∧ users out.2 = users w
      ∧ clients out.2 = clients w ∧ settings out.2 = settings w.
Proof. exact (createVisit_guarded cfg env clientId engineerId visitDate
                siteAddress userId userRole w). Qed.

(** Two refusals of [createVisit], computed: a visit date of zero is
    answered 400, a date the database does not take (here one past the
    last instant a Date can hold) is answered 500; nothing is stored or
    sent. *)
Example createVisit_refusals :
  WorkerVisit.createVisit Fixture.cfg (Fixture.env 5000000 Fixture.accepted)
    (Some "cli-1") None (Some 0) None (Some "eng-1") (Some ENGINEER)
    (Fixture.world (Fixture.appointment OTP_SENT 0) (Fixture.visit VISIT_PENDING))
  = ({| res_status := 400;
        res_body := JObj [("error", JStr "Client and visit date are required")] |},
     Fixture.world (Fixture.appointment OTP_SENT 0) (Fixture.visit VISIT_PENDING))
  ∧ WorkerVisit.createVisit Fixture.cfg (Fixture.env 5000000 Fixture.accepted)
      (Some "cli-1") None (Some 8640000000000001) None (Some "eng-1") (Some ENGINEER)
      (Fixture.world (Fixture.appointment OTP_SENT 0) (Fixture.visit VISIT_PENDING))
    = ({| res_status := 500;
          res_body := JObj [("error", JStr "Failed to create visit")] |},
       Fixture.world (Fixture.appointment OTP_SENT 0) (Fixture.visit VISIT_PENDING)).
Proof. split; reflexivity. Qed.




